(** * tactic-scout: the tactical feature and probability engine

    A shallow embedding of the Python sources under [predict_model/src]:
    [constants.py], [stats_fetcher.py], [process_data.py],
    [model_training.py] and [predictor.py].

    Conventions of the embedding.
    - Python [int] is [Z]; Python [float] is modelled by exact rationals
      [Q] (no rounding error, no NaN, no infinities), so every numeric
      statement below is about the real-number reading of the formulas.
    - Python [str] is [string]; a [dict] is an insertion-ordered
      association list with unique keys ([dict V]).
    - Exceptions are the left summand of [sum exn]. *)

From Stdlib Require Import QArith Qminmax Qround Qabs Lqa ZArith Lia.
From Stdlib Require Import String Ascii List Bool Permutation Sorted.
From Stdlib Require OrderedTypeEx.
Import ListNotations.

Local Open Scope string_scope.
Local Open Scope Z_scope.
Local Open Scope Q_scope.

(** ** Python numerics *)

Module Py.

Definition Qleb (x y : Q) : bool := Qle_bool x y.
Definition Qltb (x y : Q) : bool := negb (Qle_bool y x).
Definition Qgeb (x y : Q) : bool := Qleb y x.
Definition Qgtb (x y : Q) : bool := Qltb y x.

(** [min(a, b)] and [max(a, b)] of Python return the first argument
    unless the second is strictly smaller (resp. larger). *)
Definition min (a b : Q) : Q := if Qltb b a then b else a.
Definition max (a b : Q) : Q := if Qgtb b a then b else a.

(** Rounding of a rational to the nearest integer, ties to even, the
    tie rule of Python's [round]. *)
Definition round_half_even (x : Q) : Z :=
  let f := Qfloor x in
  let r := x - inject_Z f in
  if Qltb r (1 # 2) then f
  else if Qltb (1 # 2) r then (f + 1)%Z
  else if Z.even f then f else (f + 1)%Z.

(** [round(x, 2)]. *)
Definition round2 (x : Q) : Q := inject_Z (round_half_even (x * 100)) / 100.

Definition sum (l : list Q) : Q := fold_left Qplus l 0.

(** A count, as a number. *)
Definition qnat (n : nat) : Q := inject_Z (Z.of_nat n).

(** Truth value of an [int]. *)
Definition truthy (z : Z) : bool := negb (Z.eqb z 0).

(** The exceptions the modelled code can raise.  [ModelNotLoadedError]
    is the name used by the documentation of the classifier; no class
    of that name is defined or raised anywhere in the sources. *)
Inductive exn : Type :=
| AttributeError
| KeyError
| IndexError
| TypeError
| ValueError
| FileNotFoundError
| ModelNotLoadedError.

(** An exception of the sources, as opposed to the documented
    [ModelNotLoadedError]. *)
Definition raised_by_sources (e : exn) : Prop := e <> ModelNotLoadedError.

Definition result (A : Type) : Type := (exn + A)%type.

Definition bind {A B : Type} (c : result A) (k : A -> result B)
    : result B :=
  match c with
  | inl e => inl e
  | inr a => k a
  end.

(** A loop whose body can raise. *)
Fixpoint foldM {A B : Type} (f : B -> A -> result B) (l : list A) (b : B)
    : result B :=
  match l with
  | [] => inr b
  | a :: l' => bind (f b a) (foldM f l')
  end.

(** Monadic traversal of a list, leftmost error first. *)
Fixpoint mapM {A B : Type} (f : A -> result B) (l : list A)
    : result (list B) :=
  match l with
  | [] => inr []
  | a :: l' =>
      bind (f a) (fun b => bind (mapM f l') (fun bs => inr (b :: bs)))
  end.

End Py.

(** ** Python dictionaries as insertion-ordered association lists *)

Module Dict.
Section Dict.
Context {V : Type}.

Definition t := list (string * V).

Fixpoint get (d : t) (k : string) : option V :=
  match d with
  | [] => None
  | (k', v) :: d' => if String.eqb k k' then Some v else get d' k
  end.

Definition mem (k : string) (d : t) : bool :=
  match get d k with Some _ => true | None => false end.

(** [d[k] = v]: an existing key keeps its position, a new key is
    appended. *)
Fixpoint set (d : t) (k : string) (v : V) : t :=
  match d with
  | [] => [(k, v)]
  | (k', v') :: d' =>
      if String.eqb k k' then (k', v) :: d' else (k', v') :: set d' k v
  end.

Definition keys (d : t) : list string := map fst d.
Definition values (d : t) : list V := map snd d.

End Dict.
Arguments t : clear implicits.
End Dict.

Abbreviation dict := Dict.t.

Declare Scope py_scope.
Delimit Scope py_scope with py.
Notation "x <- c ;; k" := (Py.bind c (fun x => k))
  (at level 61, c at next level, right associativity) : py_scope.
Local Open Scope py_scope.

(** ** constants.py *)

Module Constants.

(** The values found in a ['contexts'] dictionary: integer and float
    literals, [True], and the pair of [score_diff_range]. *)
Inductive threshold : Type :=
| TInt (z : Z)
| TFloat (q : Q)
| TBool (b : bool)
| TRange (lo hi : Z).

Record tactic_data : Type := {
  actions : list string;
  contexts : dict threshold
}.

Definition TACTICAL_CATEGORIES : dict (dict tactic_data) :=
  [ ("OFFENSIVE",
      [ ("power_hitting",
          {| actions := ["Home Run"; "Double"; "Triple"];
             contexts := [ ("min_runners", TInt 1);
                           ("scoring_position", TBool true);
                           ("min_pressure", TFloat 1.5) ] |});
        ("contact_hitting",
          {| actions := ["Single"; "Ground Ball"];
             contexts := [ ("max_pressure", TFloat 1.5);
                           ("max_outs", TInt 2) ] |});
        ("small_ball",
          {| actions := ["Sac Bunt"; "Sac Fly"; "Bunt Groundout"];
             contexts := [ ("score_diff_range", TRange (-2) 2);
                           ("max_outs", TInt 1) ] |});
        ("patient_hitting",
          {| actions := ["Walk"; "Hit By Pitch"; "Intent Walk"];
             contexts := [ ("min_balls", TInt 2);
                           ("max_strikes", TInt 1) ] |}) ]);
    ("BASERUNNING",
      [ ("aggressive_baserunning",
          {| actions := ["Stolen Base 2B"; "Stolen Base 3B";
                         "Stolen Base Home"; "Triple"];
             contexts := [ ("max_outs", TInt 1);
                           ("min_offensive_opportunity", TFloat 1.0) ] |});
        ("conservative_baserunning",
          {| actions := ["Pickoff"; "Caught Stealing";
                         "Pickoff Caught Stealing"];
             contexts := [ ("min_pressure", TFloat 1.5) ] |}) ]);
    ("DEFENSIVE",
      [ ("defensive_outs",
          {| actions := ["Groundout"; "Flyout"; "Lineout"; "Pop Out";
                         "Forceout"];
             contexts := [ ("min_defensive_pressure", TFloat 1.0) ] |});
        ("strikeout_pitching",
          {| actions := ["Strikeout"; "Strikeout Double Play"];
             contexts := [ ("min_strikes", TInt 2) ] |});
        ("double_play",
          {| actions := ["Double Play"; "Grounded Into DP"; "Triple Play"];
             contexts := [ ("min_runners", TInt 1);
                           ("max_outs", TInt 2) ] |});
        ("field_defense",
          {| actions := ["Field Error"; "Pickoff"; "Caught Stealing"];
             contexts := [ ("min_defensive_pressure", TFloat 1.5) ] |}) ]) ].

(** [HIGH_LEVERAGE_THRESHOLDS]. *)
Definition late_innings : Z := 7.
Definition close_score : Z := 2.
Definition high_pressure : Q := 1.5.

Record tactic_info : Type := {
  tactic : string;
  info_contexts : dict threshold
}.

(** One pass of the innermost loop body that builds
    [ACTION_TO_TACTIC]: create the key with an empty list when it is
    new, then append. *)
Definition add_action (tac : string) (data : tactic_data)
    (acc : dict (list tactic_info)) (action : string)
    : dict (list tactic_info) :=
  let acc := if Dict.mem action acc then acc else Dict.set acc action [] in
  match Dict.get acc action with
  | Some l =>
      Dict.set acc action
        (app l [ {| tactic := tac; info_contexts := contexts data |} ])
  | None => acc
  end.

Definition add_tactic (acc : dict (list tactic_info))
    (entry : string * tactic_data) : dict (list tactic_info) :=
  fold_left (add_action (fst entry) (snd entry)) (actions (snd entry)) acc.

Definition add_category (acc : dict (list tactic_info))
    (category : dict tactic_data) : dict (list tactic_info) :=
  fold_left add_tactic category acc.

Definition ACTION_TO_TACTIC : dict (list tactic_info) :=
  Eval vm_compute in
    fold_left add_category (Dict.values TACTICAL_CATEGORIES) [].

(** Every outcome action listed by some tactic of the taxonomy. *)
Definition taxonomy_actions : list string :=
  flat_map (fun category => flat_map (fun e => actions (snd e)) (snd category))
    TACTICAL_CATEGORIES.

(** The tactics of the taxonomy with their entries, categories
    flattened. *)
Definition taxonomy_entries : dict tactic_data :=
  flat_map snd TACTICAL_CATEGORIES.

(** No string occurs twice in the list. *)
Fixpoint distinct (l : list string) : bool :=
  match l with
  | [] => true
  | x :: l' => negb (existsb (String.eqb x) l') && distinct l'
  end.

(** [VALID_EVENTS]. *)
Definition category_actions (name : string) : list string :=
  match Dict.get TACTICAL_CATEGORIES name with
  | Some tactics => flat_map (fun e => actions (snd e)) tactics
  | None => []
  end.

Definition VALID_EVENTS_hitting : list string := category_actions "OFFENSIVE".
Definition VALID_EVENTS_baserunning : list string :=
  category_actions "BASERUNNING".
Definition VALID_EVENTS_fielding : list string := category_actions "DEFENSIVE".

End Constants.

(** ** stats_fetcher.py *)

Module StatsFetcher.

(** A value of the statistics document returned by the remote service. *)
Inductive json : Type :=
| JNone
| JStr (s : string)
| JInt (z : Z)
| JFloat (q : Q)
| JOther.

Definition stats_data : Type := dict json.

(** Python's [float(s)] and [int(s)] on a string. *)
Class StringParser : Type := {
  float_of_str : string -> option Q;
  int_of_str : string -> option Z
}.

(** [s.lstrip('-')]. *)
Fixpoint lstrip_dash (s : string) : string :=
  match s with
  | String c s' => if Ascii.eqb c "-" then lstrip_dash s' else s
  | EmptyString => s
  end.

(** [s.replace('.', '0.')]. *)
Fixpoint replace_dot (s : string) : string :=
  match s with
  | String c s' =>
      if Ascii.eqb c "." then String "0" (String "." (replace_dot s'))
      else String c (replace_dot s')
  | EmptyString => EmptyString
  end.

(** ['.' in s]. *)
Fixpoint has_dot (s : string) : bool :=
  match s with
  | String c s' => Ascii.eqb c "." || has_dot s'
  | EmptyString => false
  end.

Definition no_stat_markers : list string :=
  ["0.---"; "-0.--"; "-.--"; "-.---"; "*.**"].

(** The string handed to [float] by [_safe_convert_stat]. *)
Definition cleaned (stat_value : string) : string :=
  if has_dot stat_value then replace_dot (lstrip_dash stat_value)
  else stat_value.

Definition is_space (c : ascii) : bool :=
  existsb (Ascii.eqb c)
    [" "%char; "009"%char; "010"%char; "011"%char; "012"%char; "013"%char].

Fixpoint lstrip (s : string) : string :=
  match s with
  | String c s' => if is_space c then lstrip s' else s
  | EmptyString => s
  end.

Definition rev_string (s : string) : string :=
  string_of_list_ascii (rev (list_ascii_of_string s)).

(** [s.strip()], for ASCII white space. *)
Definition strip (s : string) : string :=
  rev_string (lstrip (rev_string (lstrip s))).

Section Conversions.
Context `{StringParser}.

Definition _safe_convert_stat (stat_value : json) (default : Q) : Q :=
  match stat_value with
  | JNone => default
  | JStr s =>
      if existsb (String.eqb s) no_stat_markers then default
      else match float_of_str (cleaned s) with
           | Some q => q
           | None => default
           end
  | JInt z => inject_Z z
  | JFloat q => q
  | JOther => default
  end.

Definition _safe_convert_int (value : json) (default : Z) : Z :=
  match value with
  | JStr s =>
      if existsb (String.eqb (strip s)) [""; "-"] then default
      else match int_of_str s with
           | Some z => z
           | None => default
           end
  | JInt z => z
  | JFloat q => Z.quot (Qnum q) (Zpos (Qden q))
  | JNone | JOther => default
  end.

(** [stats_data.get(key)]. *)
Definition stat (stats : stats_data) (key : string) : json :=
  match Dict.get stats key with Some v => v | None => JNone end.

Record batter : Type := {
  avg : Q; obp : Q; slg : Q; ops : Q;
  home_runs : Z; hits : Z; strikeouts : Z; walks : Z; at_bats : Z;
  plate_appearances : Z; babip : Q; total_bases : Z; risp_avg : Q;
  clutch_ops : Q; runs : Z; doubles : Z; triples : Z; stolen_bases : Z;
  caught_stealing : Z; ground_outs : Z; air_outs : Z; rbi : Z
}.

Record pitcher : Type := {
  era : Q; whip : Q; k_per_9 : Q; bb_per_9 : Q; hits_per_9 : Q;
  p_strikeouts : Z; p_walks : Z; innings_pitched : Q;
  ground_ball_rate : Q; strikeout_rate : Q; walk_rate : Q;
  p_hits : Z; earned_runs : Z; games : Z; games_started : Z; saves : Z
}.

Record matchup : Type := {
  m_at_bats : Z; m_hits : Z; m_home_runs : Z; m_strikeouts : Z;
  m_walks : Z; m_avg : Q; m_ops : Q
}.

Definition DEFAULT_BATTER_STATS : batter :=
  {| avg := 0.0; obp := 0.0; slg := 0.0; ops := 0.0;
     home_runs := 0; hits := 0; strikeouts := 0; walks := 0; at_bats := 0;
     plate_appearances := 0; babip := 0.0; total_bases := 0;
     risp_avg := 0.0; clutch_ops := 0.0; runs := 0; doubles := 0;
     triples := 0; stolen_bases := 0; caught_stealing := 0;
     ground_outs := 0; air_outs := 0; rbi := 0 |}.

Definition DEFAULT_PITCHER_STATS : pitcher :=
  {| era := 0.0; whip := 0.0; k_per_9 := 0.0; bb_per_9 := 0.0;
     hits_per_9 := 0.0; p_strikeouts := 0; p_walks := 0;
     innings_pitched := 0.0; ground_ball_rate := 0.0;
     strikeout_rate := 0.0; walk_rate := 0.0; p_hits := 0;
     earned_runs := 0; games := 0; games_started := 0; saves := 0 |}.

(** The fetcher: its season and the outcome of
    [_try_get_stats_with_retry] (the remote service, its cache and the
    retries) for a player, a season, a group and a game type. *)
Record PlayerStatsFetcher : Type := {
  season_year : Z;
  _try_get_stats_with_retry : Z -> Z -> string -> string -> option stats_data
}.

Definition set_season (self : PlayerStatsFetcher) (year : Z)
    : PlayerStatsFetcher :=
  if negb (Z.eqb year (season_year self))
  then {| season_year := year;
          _try_get_stats_with_retry := _try_get_stats_with_retry self |}
  else self.

(** [not stats_data]: no document, or an empty one. *)
Definition missing (stats : option stats_data) : bool :=
  match stats with
  | None | Some [] => true
  | Some _ => false
  end.

(** The three lookups tried in turn by [get_batter_stats] and
    [get_pitcher_stats]. *)
Definition lookup_with_fallbacks (self : PlayerStatsFetcher) (player : Z)
    (group : string) : option stats_data :=
  let stats := _try_get_stats_with_retry self player (season_year self)
                 group "R" in
  let stats :=
    if missing stats
    then _try_get_stats_with_retry self player (season_year self - 1)%Z
           group "R"
    else stats in
  let stats :=
    if missing stats
    then _try_get_stats_with_retry self player (season_year self - 1)%Z
           group "ANY"
    else stats in
  stats.

Definition batter_of_stats (stats_data : stats_data) : batter :=
  let a := _safe_convert_stat (stat stats_data "avg") 0.0 in
  let o := _safe_convert_stat (stat stats_data "ops") 0.0 in
  {| avg := a;
     obp := _safe_convert_stat (stat stats_data "obp") 0.0;
     slg := _safe_convert_stat (stat stats_data "slg") 0.0;
     ops := o;
     home_runs := _safe_convert_int (stat stats_data "homeRuns") 0;
     hits := _safe_convert_int (stat stats_data "hits") 0;
     strikeouts := _safe_convert_int (stat stats_data "strikeOuts") 0;
     walks := _safe_convert_int (stat stats_data "baseOnBalls") 0;
     at_bats := _safe_convert_int (stat stats_data "atBats") 0;
     plate_appearances :=
       _safe_convert_int (stat stats_data "plateAppearances") 0;
     babip := _safe_convert_stat (stat stats_data "babip") 0.0;
     total_bases := _safe_convert_int (stat stats_data "totalBases") 0;
     risp_avg := a;
     clutch_ops := o;
     runs := _safe_convert_int (stat stats_data "runs") 0;
     doubles := _safe_convert_int (stat stats_data "doubles") 0;
     triples := _safe_convert_int (stat stats_data "triples") 0;
     stolen_bases := _safe_convert_int (stat stats_data "stolenBases") 0;
     caught_stealing :=
       _safe_convert_int (stat stats_data "caughtStealing") 0;
     ground_outs := _safe_convert_int (stat stats_data "groundOuts") 0;
     air_outs := _safe_convert_int (stat stats_data "airOuts") 0;
     rbi := _safe_convert_int (stat stats_data "rbi") 0 |}.

Definition get_batter_stats (self : PlayerStatsFetcher) (batter_id : Z)
    : batter :=
  let stats_data := lookup_with_fallbacks self batter_id "hitting" in
  if missing stats_data then DEFAULT_BATTER_STATS
  else match stats_data with
       | Some stats_data => batter_of_stats stats_data
       | None => DEFAULT_BATTER_STATS
       end.

Definition pitcher_of_stats (stats_data : stats_data) : pitcher :=
  let innings_pitched :=
    _safe_convert_stat (stat stats_data "inningsPitched") 0.0 in
  let strikeouts := _safe_convert_int (stat stats_data "strikeOuts") 0 in
  let walks := _safe_convert_int (stat stats_data "baseOnBalls") 0 in
  let hits := _safe_convert_int (stat stats_data "hits") 0 in
  let has_innings := Py.Qgtb innings_pitched 0 in
  let total_batters := (hits + walks + strikeouts)%Z in
  let ground_outs := _safe_convert_int (stat stats_data "groundOuts") 0 in
  let air_outs := _safe_convert_int (stat stats_data "airOuts") 0 in
  let total_outs := (ground_outs + air_outs)%Z in
  {| era := _safe_convert_stat (stat stats_data "era") 0.0;
     whip := _safe_convert_stat (stat stats_data "whip") 0.0;
     k_per_9 :=
       if has_innings then inject_Z (strikeouts * 9) / innings_pitched
       else 0.0;
     bb_per_9 :=
       if has_innings then inject_Z (walks * 9) / innings_pitched else 0.0;
     hits_per_9 :=
       if has_innings then inject_Z (hits * 9) / innings_pitched else 0.0;
     p_strikeouts := strikeouts;
     p_walks := walks;
     innings_pitched := innings_pitched;
     ground_ball_rate :=
       if (0 <? total_outs)%Z
       then inject_Z ground_outs / inject_Z total_outs else 0.0;
     strikeout_rate :=
       if (0 <? total_batters)%Z
       then inject_Z strikeouts / inject_Z total_batters else 0.0;
     walk_rate :=
       if (0 <? total_batters)%Z
       then inject_Z walks / inject_Z total_batters else 0.0;
     p_hits := hits;
     earned_runs := _safe_convert_int (stat stats_data "earnedRuns") 0;
     games := _safe_convert_int (stat stats_data "gamesPlayed") 0;
     games_started := _safe_convert_int (stat stats_data "gamesStarted") 0;
     saves := _safe_convert_int (stat stats_data "saves") 0 |}.

Definition get_pitcher_stats (self : PlayerStatsFetcher) (pitcher_id : Z)
    : pitcher :=
  let stats_data := lookup_with_fallbacks self pitcher_id "pitching" in
  if missing stats_data then DEFAULT_PITCHER_STATS
  else match stats_data with
       | Some stats_data => pitcher_of_stats stats_data
       | None => DEFAULT_PITCHER_STATS
       end.

Definition get_matchup_history (self : PlayerStatsFetcher)
    (batter_id pitcher_id : Z) : matchup :=
  {| m_at_bats := 0; m_hits := 0; m_home_runs := 0; m_strikeouts := 0;
     m_walks := 0; m_avg := 0.0; m_ops := 0.0 |}.

(** The counts read from a pitching document are non-negative. *)
Definition nonnegative_counts (stats_data : stats_data) : Prop :=
  Forall (fun key => (0 <= _safe_convert_int (stat stats_data key) 0)%Z)
    ["strikeOuts"; "baseOnBalls"; "hits"; "groundOuts"; "airOuts"].

End Conversions.

End StatsFetcher.

(** ** process_data.py *)

Module ProcessData.
Import Constants.

Record batter_stats : Type := {
  batter_avg : Q; batter_obp : Q; batter_slg : Q; batter_ops : Q;
  batter_hr : Z; batter_so : Z; batter_bb : Z;
  batter_risp_avg : Q; batter_clutch_ops : Q
}.

Record pitcher_stats : Type := {
  pitcher_era : Q; pitcher_whip : Q; pitcher_k_per_9 : Q;
  pitcher_bb_per_9 : Q; pitcher_h_per_9 : Q; pitcher_gb_rate : Q;
  pitcher_k_rate : Q; pitcher_bb_rate : Q
}.

Record matchup_stats : Type := {
  matchup_avg : Q; matchup_ops : Q; matchup_abs : Z;
  matchup_hr : Z; matchup_so : Z; matchup_bb : Z
}.

(** The [play_data] dictionary as [process_game_state] has built it
    when it calls [calculate_advanced_metrics].  The three groups of
    statistics are each written by one [update], so they are present
    or absent as a whole. *)
Record play_data : Type := {
  inning : Z;
  half_inning : string;
  result : string;
  outs : Z;
  balls : Z;
  strikes : Z;
  score_home : Z;
  score_away : Z;
  score_diff : Z;
  is_close_game : Z;
  num_runners : Z;
  scoring_position : Z;
  runs_scored : Z;
  batter : option batter_stats;
  pitcher : option pitcher_stats;
  matchup : option matchup_stats
}.

Record metrics : Type := {
  pressure_index : Q;
  game_stage : Q;
  run_expectancy : Q;
  leverage_index : Q;
  win_probability_added : Q;
  offensive_opportunity : Q;
  defensive_pressure : Q;
  count_leverage : Q;
  scoring_threat : Q
}.

Definition calc_pressure_index (pd : play_data) : Q :=
  let pressure := 1.0 in
  let pressure :=
    if (late_innings <=? inning pd)%Z then pressure * 1.5 else pressure in
  let pressure := pressure * (1 + inject_Z (outs pd) * 0.2) in
  let pressure :=
    if Py.truthy (scoring_position pd) then pressure * 1.3 else pressure in
  Py.min pressure 2.0.

Definition calc_game_stage (pd : play_data) : Q :=
  let effective_inning := Z.min (inning pd) 9 in
  (inject_Z effective_inning - 1 + inject_Z (outs pd) / 3) / 9.

Definition calc_leverage_index (pd : play_data) (pressure stage : Q) : Q :=
  let leverage :=
    pressure
    * (if Py.truthy (is_close_game pd) then 2.0 else 1.0)
    * (if Py.Qgtb stage 0.7 then 1.5 else 1.0) in
  Py.min leverage 3.0.

Definition calculate_advanced_metrics (pd : play_data) : metrics :=
  let pressure_index := calc_pressure_index pd in
  let game_stage := calc_game_stage pd in
  let run_exp :=
    inject_Z (num_runners pd)
    * (if Py.truthy (scoring_position pd) then 0.5 else 0.3)
    * ((3 - inject_Z (outs pd)) / 3) in
  let leverage_index := calc_leverage_index pd pressure_index game_stage in
  let win_probability_added :=
    if (10 <=? inning pd)%Z
    then 0.5 + (inject_Z (score_diff pd) / 2) * 0.1
    else
      let remaining_innings := Z.max (10 - inning pd) 1 in
      0.5 + (inject_Z (score_diff pd) / inject_Z remaining_innings) * 0.1 in
  let offensive_opportunity :=
    inject_Z (num_runners pd)
    * (if Py.truthy (scoring_position pd) then 1.5 else 1.0)
    * ((3 - inject_Z (outs pd)) / 3) in
  let defensive_pressure :=
    inject_Z (num_runners pd) * pressure_index
    * ((inject_Z (outs pd) + 1) / 3) in
  let count_leverage :=
    (inject_Z (balls pd) / 4) * (1 - inject_Z (strikes pd) / 3) in
  let scoring_threat :=
    offensive_opportunity * pressure_index
    * (if Py.truthy (is_close_game pd) then 2.0 else 1.0) in
  {| pressure_index := pressure_index;
     game_stage := game_stage;
     run_expectancy := run_exp;
     leverage_index := leverage_index;
     win_probability_added := win_probability_added;
     offensive_opportunity := offensive_opportunity;
     defensive_pressure := defensive_pressure;
     count_leverage := count_leverage;
     scoring_threat := scoring_threat |}.

(** [play_data] once [calculate_advanced_metrics] has been merged
    into it: what [calculate_tactical_probabilities] receives. *)
Record situation : Type := {
  play :> play_data;
  derived :> metrics
}.

(** Comparisons of a record field with a context threshold.  [True]
    compares as the integer 1.  A threshold of the wrong shape (a
    range where a number is expected, or the converse) raises
    [TypeError] in Python; no entry of [TACTICAL_CATEGORIES] has one
    (lemma [taxonomy_thresholds_shaped] below), and the model counts
    such a clause as not satisfied. *)
Definition threshold_value (th : threshold) : option Q :=
  match th with
  | TInt z => Some (inject_Z z)
  | TFloat q => Some q
  | TBool b => Some (if b then 1 else 0)
  | TRange _ _ => None
  end.

Definition field_ge (x : Q) (th : threshold) : bool :=
  match threshold_value th with Some t => Py.Qgeb x t | None => false end.

Definition field_le (x : Q) (th : threshold) : bool :=
  match threshold_value th with Some t => Py.Qleb x t | None => false end.

Definition field_eq (x : Q) (th : threshold) : bool :=
  match threshold_value th with Some t => Qeq_bool x t | None => false end.

Definition field_in_range (x : Z) (th : threshold) : bool :=
  match th with
  | TRange lo hi => ((lo <=? x) && (x <=? hi))%Z
  | _ => false
  end.

(** The shape of threshold each context key is compared with: a pair
    for [score_diff_range], a number for every other key. *)
Definition threshold_shaped (kv : string * threshold) : bool :=
  match snd kv with
  | TRange _ _ => String.eqb (fst kv) "score_diff_range"
  | _ => negb (String.eqb (fst kv) "score_diff_range")
  end.

(** The [if]/[elif] chain of the context loop: [true] when the clause
    adds one to [context_match_count]. *)
Definition context_matches (s : situation) (context_key : string)
    (th : threshold) : bool :=
  if String.eqb context_key "min_runners"
     && field_ge (inject_Z (num_runners s)) th then true
  else if String.eqb context_key "max_outs"
     && field_le (inject_Z (outs s)) th then true
  else if String.eqb context_key "scoring_position"
     && field_eq (inject_Z (scoring_position s)) th then true
  else if String.eqb context_key "min_pressure"
     && field_ge (pressure_index s) th then true
  else if String.eqb context_key "max_pressure"
     && field_le (pressure_index s) th then true
  else if String.eqb context_key "score_diff_range"
     && field_in_range (score_diff s) th then true
  else if String.eqb context_key "min_balls"
     && field_ge (inject_Z (balls s)) th then true
  else if String.eqb context_key "max_strikes"
     && field_le (inject_Z (strikes s)) th then true
  else if String.eqb context_key "min_offensive_opportunity"
     && field_ge (offensive_opportunity s) th then true
  else if String.eqb context_key "min_defensive_pressure"
     && field_ge (defensive_pressure s) th then true
  else false.

Definition context_match_count (s : situation) (ctxs : dict threshold)
    : nat :=
  List.length (filter (fun kv => context_matches s (fst kv) (snd kv)) ctxs).

Definition mem_str (x : string) (l : list string) : bool :=
  existsb (String.eqb x) l.

(** Lines 245-255: the context score and the high-leverage boost. *)
Definition context_adjusted (s : situation) (info : tactic_info) : Q :=
  let prob := 0.4 in
  let total_contexts := List.length (info_contexts info) in
  if (0 <? total_contexts)%nat then
    let context_score :=
      Py.qnat (context_match_count s (info_contexts info))
      / Py.qnat total_contexts in
    let prob := prob + context_score * 0.6 in
    if Py.Qgeb (pressure_index s) high_pressure then
      if mem_str (tactic info) ["power_hitting"; "patient_hitting"]
      then prob * 1.2
      else if mem_str (tactic info) ["contact_hitting"; "defensive_outs"]
      then prob * 1.1
      else prob
    else prob
  else prob.

(** Lines 259-263. *)
Definition batter_adjusted (s : situation) (tac : string) (prob : Q) : Q :=
  match batter s with
  | Some b =>
      if String.eqb tac "power_hitting" && Py.Qgtb (batter_ops b) 0.800
      then prob * 1.2
      else if String.eqb tac "contact_hitting"
              && Py.Qgtb (batter_avg b) 0.300
      then prob * 1.1
      else prob
  | None => prob
  end.

(** Lines 266-270. *)
Definition pitcher_adjusted (s : situation) (tac : string) (prob : Q) : Q :=
  match pitcher s with
  | Some p =>
      if String.eqb tac "strikeout_pitching"
         && Py.Qgtb (pitcher_k_rate p) 9.0
      then prob * 1.2
      else if String.eqb tac "defensive_outs"
              && Py.Qgtb (pitcher_gb_rate p) 1.5
      then prob * 1.1
      else prob
  | None => prob
  end.

(** Lines 273-279. *)
Definition matchup_adjusted (s : situation) (tac : string) (prob : Q) : Q :=
  match matchup s with
  | Some m =>
      if (10 <? matchup_abs m)%Z then
        if Py.Qgtb (matchup_ops m) 0.800 then
          if mem_str tac ["power_hitting"; "contact_hitting"]
          then prob * 1.15 else prob
        else if Py.Qltb (matchup_ops m) 0.600 then
          if mem_str tac ["defensive_outs"; "strikeout_pitching"]
          then prob * 1.15 else prob
        else prob
      else prob
  | None => prob
  end.

(** The value stored by [probabilities[tactic] = prob] for one
    candidate.  The assignment is outside the [if prob >= 0.05] block,
    which only guards the three player adjustments. *)
Definition tactic_probability (s : situation) (info : tactic_info) : Q :=
  let prob := context_adjusted s info in
  if Py.Qgeb prob 0.05 then
    let prob := batter_adjusted s (tactic info) prob in
    let prob := pitcher_adjusted s (tactic info) prob in
    matchup_adjusted s (tactic info) prob
  else prob.

(** The loop over [possible_tactics]. *)
Definition candidate_probabilities (s : situation)
    (possible_tactics : list tactic_info) : dict Q :=
  fold_left
    (fun probabilities info =>
       Dict.set probabilities (tactic info) (tactic_probability s info))
    possible_tactics [].

(** [max(items, key=lambda x: x[1])]: the first item of greatest
    value. *)
Definition better (best x : string * Q) : string * Q :=
  if Py.Qltb (snd best) (snd x) then x else best.

Definition max_item (d : dict Q) : Py.result (string * Q) :=
  match d with
  | [] => inl Py.ValueError
  | first :: rest => inr (fold_left better rest first)
  end.

Record tactical_probabilities : Type := {
  probabilities : dict Q;
  primary_tactic : string
}.

Definition calculate_tactical_probabilities (s : situation)
    : Py.result tactical_probabilities :=
  let action := result s in
  match Dict.get ACTION_TO_TACTIC action with
  | None =>
      inr {| probabilities := [("contact_hitting", 100.0)];
             primary_tactic := "contact_hitting" |}
  | Some possible_tactics =>
      let probabilities := candidate_probabilities s possible_tactics in
      let probabilities :=
        match probabilities with
        | [] => Dict.set probabilities "contact_hitting" 100.0
        | _ => probabilities
        end in
      match max_item probabilities with
      | inl e => inl e
      | inr best =>
          inr {| probabilities := probabilities;
                 primary_tactic := fst best |}
      end
  end.

(** *** From the raw play feed to labelled records *)

(** One entry of a play's ['runners'] list: the start and end base of
    its movement, when given. *)
Record runner : Type := {
  movement_start : option string;
  movement_end : option string
}.

Definition starts_at (bases : list string) (r : runner) : bool :=
  match movement_start r with
  | Some b => existsb (String.eqb b) bases
  | None => false
  end.

Definition scores (r : runner) : bool :=
  match movement_end r with
  | Some b => String.eqb b "score"
  | None => false
  end.

Definition int_of_bool (b : bool) : Z := if b then 1%Z else 0%Z.

Record runners_flat : Type := {
  flat_num_runners : Z;
  flat_scoring_position : Z;
  flat_runs_scored : Z;
  runner_on_first : Z;
  runner_on_second : Z;
  runner_on_third : Z
}.

Definition process_runners_flat (runners : list runner) : runners_flat :=
  let scoring_position := existsb (starts_at ["2B"; "3B"]) runners in
  let runs_scored := List.length (filter scores runners) in
  {| flat_num_runners := Z.of_nat (List.length runners);
     flat_scoring_position := int_of_bool scoring_position;
     flat_runs_scored := Z.of_nat runs_scored;
     runner_on_first := int_of_bool (existsb (starts_at ["1B"]) runners);
     runner_on_second := int_of_bool (existsb (starts_at ["2B"]) runners);
     runner_on_third := int_of_bool (existsb (starts_at ["3B"]) runners) |}.

(** A play of the feed.  The keys read with a plain subscript are
    fields; those read with [get] are optional. *)
Record raw_play : Type := {
  about_inning : Z;
  about_halfInning : string;
  result_event : string;
  count_outs : Z;
  count_balls : option Z;
  count_strikes : option Z;
  about_home : option Z;
  about_away : option Z;
  matchup_pitcher_id : option Z;
  matchup_batter_id : option Z;
  runners : list runner
}.

Definition get_or (default : Z) (v : option Z) : Z :=
  match v with Some z => z | None => default end.

(** Truth value of an identifier read with [get(..., "")]. *)
Definition present_id (v : option Z) : option Z :=
  match v with
  | Some z => if Py.truthy z then Some z else None
  | None => None
  end.

Definition batter_update (b : StatsFetcher.batter) : batter_stats :=
  {| batter_avg := StatsFetcher.avg b;
     batter_obp := StatsFetcher.obp b;
     batter_slg := StatsFetcher.slg b;
     batter_ops := StatsFetcher.ops b;
     batter_hr := StatsFetcher.home_runs b;
     batter_so := StatsFetcher.strikeouts b;
     batter_bb := StatsFetcher.walks b;
     batter_risp_avg := StatsFetcher.risp_avg b;
     batter_clutch_ops := StatsFetcher.clutch_ops b |}.

Definition pitcher_update (p : StatsFetcher.pitcher) : pitcher_stats :=
  {| pitcher_era := StatsFetcher.era p;
     pitcher_whip := StatsFetcher.whip p;
     pitcher_k_per_9 := StatsFetcher.k_per_9 p;
     pitcher_bb_per_9 := StatsFetcher.bb_per_9 p;
     pitcher_h_per_9 := StatsFetcher.hits_per_9 p;
     pitcher_gb_rate := StatsFetcher.ground_ball_rate p;
     pitcher_k_rate := StatsFetcher.strikeout_rate p;
     pitcher_bb_rate := StatsFetcher.walk_rate p |}.

Definition matchup_update (m : StatsFetcher.matchup) : matchup_stats :=
  {| matchup_avg := StatsFetcher.m_avg m;
     matchup_ops := StatsFetcher.m_ops m;
     matchup_abs := StatsFetcher.m_at_bats m;
     matchup_hr := StatsFetcher.m_home_runs m;
     matchup_so := StatsFetcher.m_strikeouts m;
     matchup_bb := StatsFetcher.m_walks m |}.

(** A row of the table: the record with its metrics, the occupancy
    flags, and the label with its probabilities. *)
Record labelled_play : Type := {
  row_situation : situation;
  row_runners : runners_flat;
  row_primary_tactic : string;
  row_probabilities : dict Q
}.

Definition valid_events : list string :=
  app VALID_EVENTS_hitting (app VALID_EVENTS_baserunning VALID_EVENTS_fielding).

(** The test of line 94 on a play of the feed. *)
Definition kept (play : raw_play) : bool :=
  existsb (String.eqb (result_event play)) valid_events.

Section GameState.
Context `{StatsFetcher.StringParser}.

(** Lines 21-91: the record of one play, with its metrics. *)
Definition play_record (stats_fetcher : option StatsFetcher.PlayerStatsFetcher)
    (play : raw_play) : situation * runners_flat :=
  let score_home := get_or 0 (about_home play) in
  let score_away := get_or 0 (about_away play) in
  let stats :=
    match stats_fetcher, present_id (matchup_batter_id play),
          present_id (matchup_pitcher_id play) with
    | Some fetcher, Some batter_id, Some pitcher_id =>
        (Some (batter_update (StatsFetcher.get_batter_stats fetcher batter_id)),
         Some (pitcher_update
                 (StatsFetcher.get_pitcher_stats fetcher pitcher_id)),
         Some (matchup_update
                 (StatsFetcher.get_matchup_history fetcher batter_id
                    pitcher_id)))
    | _, _, _ => (None, None, None)
    end in
  let score_diff := (score_away - score_home)%Z in
  let flat := process_runners_flat (runners play) in
  let play_data :=
    {| inning := about_inning play;
       half_inning := about_halfInning play;
       result := result_event play;
       outs := count_outs play;
       balls := get_or 0 (count_balls play);
       strikes := get_or 0 (count_strikes play);
       score_home := score_home;
       score_away := score_away;
       score_diff := score_diff;
       is_close_game := int_of_bool (Z.abs score_diff <=? close_score)%Z;
       num_runners := flat_num_runners flat;
       scoring_position := flat_scoring_position flat;
       runs_scored := flat_runs_scored flat;
       batter := fst (fst stats);
       pitcher := snd (fst stats);
       matchup := snd stats |} in
  ({| play := play_data; derived := calculate_advanced_metrics play_data |},
   flat).

(** One pass of the loop: [None] for a play that is skipped. *)
Definition process_play (stats_fetcher : option StatsFetcher.PlayerStatsFetcher)
    (play : raw_play) : Py.result (option labelled_play) :=
  let (s, flat) := play_record stats_fetcher play in
  if existsb (String.eqb (result s)) valid_events then
    Py.bind (calculate_tactical_probabilities s)
      (fun tactical_probs =>
         inr (Some {| row_situation := s;
                      row_runners := flat;
                      row_primary_tactic := primary_tactic tactical_probs;
                      row_probabilities := probabilities tactical_probs |}))
  else inr None.

(** The list [processed] from which the frame is built. *)
Fixpoint process_game_state
    (stats_fetcher : option StatsFetcher.PlayerStatsFetcher)
    (plays : list raw_play) : Py.result (list labelled_play) :=
  match plays with
  | [] => inr []
  | play :: rest =>
      Py.bind (process_play stats_fetcher play)
        (fun row =>
           Py.bind (process_game_state stats_fetcher rest)
             (fun rows =>
                inr (match row with
                     | Some r => r :: rows
                     | None => rows
                     end)))
  end.

End GameState.

End ProcessData.

(** ** A model of the pandas and scikit-learn operations used *)

Module Pandas.

(** The values a cell of a frame can hold. *)
#[warnings="-register-all"]
Inductive cell : Type :=
| CInt (z : Z)
| CFloat (q : Q)
| CBool (b : bool)
| CStr (s : string)
| CNaN
| CDict (d : list (string * cell)).

(** A frame: the length of its index and its labelled columns, in
    order. *)
Record frame (A : Type) : Type := {
  nrows : nat;
  columns : list (string * list A)
}.
Arguments nrows {A}.
Arguments columns {A}.

Definition DataFrame : Type := frame cell.

Section Frame.
Context {A : Type}.

Definition labels (df : frame A) : list string := map fst (columns df).

Definition has_column (df : frame A) (col : string) : bool :=
  existsb (String.eqb col) (labels df).

(** Every column has one value per index entry. *)
Definition well_formed (df : frame A) : Prop :=
  Forall (fun c => List.length (snd c) = nrows df) (columns df).

(** [df.empty]: some axis has length 0. *)
Definition empty (df : frame A) : bool :=
  Nat.eqb (nrows df) 0 || Nat.eqb (List.length (columns df)) 0.

(** [df[mask]]: the rows where the boolean mask holds. *)
Fixpoint keep {B : Type} (mask : list bool) (l : list B) : list B :=
  match mask, l with
  | b :: mask', x :: l' => if b then x :: keep mask' l' else keep mask' l'
  | _, _ => []
  end.

Definition filter_rows (mask : list bool) (df : frame A) : frame A :=
  {| nrows := List.length (keep mask (seq 0 (nrows df)));
     columns := map (fun c => (fst c, keep mask (snd c))) (columns df) |}.

(** [df.drop(columns=cols)] for labels known to be present. *)
Definition drop (df : frame A) (cols : list string) : frame A :=
  {| nrows := nrows df;
     columns :=
       filter (fun c => negb (existsb (String.eqb (fst c)) cols))
         (columns df) |}.

(** [df[col]]: the first column of that label. *)
Definition column (df : frame A) (col : string)
    : Py.result (list A) :=
  match Dict.get (columns df) col with
  | Some c => inr c
  | None => inl Py.KeyError
  end.

(** [df[col] = values]. *)
Definition assign (df : frame A) (col : string) (values : list A)
    : frame A :=
  {| nrows := nrows df; columns := Dict.set (columns df) col values |}.

(** [df[col] = v] for a scalar [v]. *)
Definition assign_scalar (df : frame A) (col : string) (v : A)
    : frame A :=
  assign df col (repeat v (nrows df)).

(** [df[cols]] for a list of labels: every column carrying a
    requested label, in the order of the request; [KeyError] when a
    label is carried by no column. *)
Definition select_label (df : frame A) (col : string)
    : Py.result (list (string * list A)) :=
  match filter (fun c => String.eqb (fst c) col) (columns df) with
  | [] => inl Py.KeyError
  | cs => inr cs
  end.

Definition select (df : frame A) (cols : list string)
    : Py.result (frame A) :=
  cs <- Py.mapM (select_label df) cols ;;
  inr {| nrows := nrows df; columns := concat cs |}.

(** [series.iloc[0]]. *)
Definition iloc0 (series : list A) : Py.result A :=
  match series with
  | [] => inl Py.IndexError
  | x :: _ => inr x
  end.

(** [df.tail(n)]. *)
Definition tail (n : nat) (df : frame A) : frame A :=
  let k := (nrows df - n)%nat in
  {| nrows := Nat.min n (nrows df);
     columns := map (fun c => (fst c, skipn k (snd c))) (columns df) |}.

(** [df.head(n)]. *)
Definition head (n : nat) (df : frame A) : frame A :=
  {| nrows := Nat.min n (nrows df);
     columns := map (fun c => (fst c, firstn n (snd c))) (columns df) |}.

(** The rows of a frame, each as the list of its values in column
    order ([d] stands for a value missing from a short column). *)
Definition row (d : A) (df : frame A) (i : nat) : list A :=
  map (fun c => nth i (snd c) d) (columns df).

Definition rows (d : A) (df : frame A) : list (list A) :=
  map (row d df) (seq 0 (nrows df)).

End Frame.

(** The parser [pd.to_numeric] applies to strings. *)
Class NumericParser : Type := {
  parse_number : string -> option Q
}.

(** [pd.to_numeric(..., errors='coerce').fillna(0)] on one cell,
    followed by the cast of booleans to integers: every cell becomes a
    number. *)
Definition to_numeric `{NumericParser} (c : cell) : Q :=
  match c with
  | CInt z => inject_Z z
  | CFloat q => q
  | CBool b => if b then 1 else 0
  | CStr s => match parse_number s with Some q => q | None => 0 end
  | CNaN => 0
  | CDict _ => 0
  end.

(** Insertion of a label into a sorted list without duplicates. *)
Fixpoint insert_sorted (x : string) (l : list string) : list string :=
  match l with
  | [] => [x]
  | y :: l' =>
      if String.eqb x y then l
      else if String.ltb x y then x :: l
      else y :: insert_sorted x l'
  end.

(** The categories of a column: its distinct strings, sorted.  Cells
    that are not strings (none occurs in the two columns encoded
    below when the frame comes from [process_game_state]) are treated
    as missing and get no category. *)
Definition categories (series : list cell) : list string :=
  fold_left
    (fun acc c => match c with CStr s => insert_sorted s acc | _ => acc end)
    series [].

Definition is_category (v : string) (c : cell) : cell :=
  match c with
  | CStr s => CBool (String.eqb s v)
  | _ => CBool false
  end.

(** [pd.get_dummies(df, columns=[col])]: the column is removed and one
    indicator column per category is appended. *)
Definition get_dummies (df : DataFrame) (col : string) : DataFrame :=
  match Dict.get (columns df) col with
  | None => df
  | Some series =>
      let rest := filter (fun c => negb (String.eqb (fst c) col))
                    (columns df) in
      let dummies :=
        map (fun v => (col ++ "_" ++ v, map (is_category v) series))
          (categories series) in
      {| nrows := nrows df; columns := app rest dummies |}
  end.

(** A label that is not the name of an indicator column of
    [get_dummies] for ['half_inning'] or ['result']. *)
Definition not_encoded (label : string) : bool :=
  negb (String.prefix "half_inning_" label)
  && negb (String.prefix "result_" label).

(** Python's [int(x)] and [float(x)] on a cell holding a number. *)
Definition py_int (c : cell) : Py.result Z :=
  match c with
  | CInt z => inr z
  | CFloat q => inr (Z.quot (Qnum q) (Zpos (Qden q)))
  | CBool b => inr (if b then 1 else 0)%Z
  | CStr _ | CNaN => inl Py.ValueError
  | CDict _ => inl Py.TypeError
  end.

Definition py_float (c : cell) : Py.result Q :=
  match c with
  | CInt z => inr (inject_Z z)
  | CFloat q => inr q
  | CBool b => inr (if b then 1 else 0)
  | CStr _ => inl Py.ValueError
  | CNaN => inl Py.ValueError
  | CDict _ => inl Py.TypeError
  end.

Definition py_bool (c : cell) : bool :=
  match c with
  | CInt z => Py.truthy z
  | CFloat q => negb (Qeq_bool q 0)
  | CBool b => b
  | CStr s => negb (String.eqb s "")
  | CNaN => true
  | CDict d => match d with [] => false | _ => true end
  end.

(** The number held by a cell, for arithmetic and comparisons; a
    missing value is not a number here. *)
Definition cell_number (c : cell) : Py.result (option Q) :=
  match c with
  | CInt z => inr (Some (inject_Z z))
  | CFloat q => inr (Some q)
  | CBool b => inr (Some (if b then 1 else 0))
  | CNaN => inr None
  | CStr _ | CDict _ => inl Py.TypeError
  end.

(** [series.sum()]: missing values are skipped. *)
Definition series_sum (series : list cell) : Py.result Q :=
  ns <- Py.mapM cell_number series ;;
  inr (Py.sum (map (fun n => match n with Some q => q | None => 0 end) ns)).

(** [series > x], element by element. *)
Definition cell_gt (x : Q) (c : cell) : Py.result bool :=
  n <- cell_number c ;;
  inr (match n with Some q => Py.Qgtb q x | None => false end).

(** [series == v], element by element. *)
Definition cell_eq (v c : cell) : bool :=
  match v, c with
  | CStr a, CStr b => String.eqb a b
  | _, _ =>
      match cell_number v, cell_number c with
      | inr (Some a), inr (Some b) => Qeq_bool a b
      | _, _ => false
      end
  end.

(** [abs(series - v) < eps], element by element. *)
Definition cell_near (eps : Q) (v c : cell) : Py.result bool :=
  a <- cell_number c ;;
  b <- cell_number v ;;
  inr (match a, b with
       | Some a, Some b => Py.Qltb (Qabs (a - b)) eps
       | _, _ => false
       end).

(** [series & mask] for a column of success flags: booleans, or
    integers combined bitwise with the boolean. *)
Definition cell_and (c : cell) (b : bool) : Py.result bool :=
  match c with
  | CBool a => inr (a && b)
  | CInt z => inr (Z.odd z && b)
  | _ => inl Py.TypeError
  end.

(** [series.iloc[-1]]. *)
Definition iloc_last {A : Type} (series : list A) : Py.result A :=
  match rev series with
  | [] => inl Py.IndexError
  | x :: _ => inr x
  end.

(** The part of a fitted [RandomForestClassifier] the code relies on:
    its classes, the feature names it was fitted with, and the
    probability vector it computes for one row of features. *)
Class Classifier (C : Type) : Type := {
  classes_ : C -> list string;
  feature_names_in_ : C -> list string;
  predict_row : C -> list Q -> list Q
}.

Fixpoint same_labels (l1 l2 : list string) : bool :=
  match l1, l2 with
  | [], [] => true
  | x :: l1', y :: l2' => String.eqb x y && same_labels l1' l2'
  | _, _ => false
  end.

(** [model.predict_proba(X)]: input validation of scikit-learn (at
    least one sample, the feature names of the fit in the same order),
    then one probability vector per row. *)
Definition sk_predict_proba {C : Type} `{Classifier C} (m : C)
    (X : frame Q) : Py.result (list (list Q)) :=
  if empty X then inl Py.ValueError
  else if same_labels (labels X) (feature_names_in_ m)
  then inr (map (predict_row m) (rows 0 X))
  else inl Py.ValueError.

End Pandas.

(** ** model_training.py *)

Module ModelTraining.
Import Constants Pandas.

Record TacticalPredictor (classifier : Type) : Type := {
  model : option classifier;
  feature_names : option (list string);
  scaler : option unit;
  tactics_to_category : dict string
}.
Arguments model {classifier}.
Arguments feature_names {classifier}.
Arguments scaler {classifier}.
Arguments tactics_to_category {classifier}.

(** What [_get_specific_actions] can return: the empty list of its
    last line, a list of action names, or a whole taxonomy entry (the
    dictionary with keys ['actions'] and ['contexts']). *)
Inductive actions_value : Type :=
| ActionList (l : list string)
| TacticEntry (d : tactic_data).

Record game_situation : Type := {
  ctx_inning : Z;
  ctx_outs : Z;
  ctx_score_diff : Z;
  ctx_pressure_index : Q
}.

Record runner_situation : Type := {
  ctx_runners : Z;
  ctx_scoring_position : bool
}.

Record context : Type := {
  game : game_situation;
  runner : runner_situation
}.

Record recommendation : Type := {
  rec_tactic : string;
  rec_probability : Q;
  reasoning : string;
  specific_actions : actions_value
}.

Record analysis : Type := {
  tactical_probabilities : dict (dict Q);
  top_tactics : dict Q;
  context_analysis : context;
  recommendations : list recommendation
}.

(** The dictionary written by [joblib.dump]; a file system maps file
    names to such dictionaries, and [joblib.load] returns what
    [joblib.dump] stored. *)
Record model_data (classifier : Type) : Type := {
  md_model : option classifier;
  md_feature_names : option (list string)
}.
Arguments md_model {classifier}.
Arguments md_feature_names {classifier}.

Definition filesystem (classifier : Type) : Type :=
  dict (model_data classifier).

Definition _initialize_tactics_mapping : dict string :=
  fold_left
    (fun acc category =>
       fold_left (fun acc tac => Dict.set acc tac (fst category))
         (Dict.keys (snd category)) acc)
    TACTICAL_CATEGORIES [].

(** [sorted(d.items(), key=lambda x: x[1], reverse=True)]: a stable
    sort by decreasing value. *)
Fixpoint insert_desc (x : string * Q) (l : list (string * Q))
    : list (string * Q) :=
  match l with
  | [] => [x]
  | y :: l' =>
      if Py.Qgeb (snd x) (snd y) then x :: l else y :: insert_desc x l'
  end.

Definition sorted_desc (d : dict Q) : dict Q :=
  fold_right insert_desc [] d.

Definition join (sep : string) (l : list string) : string :=
  String.concat sep l.

(** The order [sorted(..., reverse=True)] establishes on the values. *)
Definition desc (x y : string * Q) : Prop := snd y <= snd x.


Section Predictor.
Context {classifier : Type} `{Classifier classifier} `{NumericParser}.

Definition __init__ : TacticalPredictor classifier :=
  {| model := None;
     feature_names := None;
     scaler := None;
     tactics_to_category := _initialize_tactics_mapping |}.

(** [x.get(key, default)] applied to a cell of the ['runners']
    column. *)
Definition runners_get (key : string) (default : cell) (x : cell)
    : Py.result cell :=
  match x with
  | CDict d =>
      inr (match Dict.get d key with Some v => v | None => default end)
  | _ => inl Py.AttributeError
  end.

(** Lines 50-55. *)
Definition process_runners_column (features : DataFrame)
    : Py.result DataFrame :=
  if has_column features "runners" then
    runners <- column features "runners" ;;
    first <- iloc0 runners ;;
    features <-
      match first with
      | CDict _ =>
          nr <- Py.mapM (runners_get "num_runners" (CInt 0)) runners ;;
          let features := assign features "num_runners" nr in
          sp <- Py.mapM (runners_get "scoring_position" (CBool false))
                  runners ;;
          inr (assign features "scoring_position" sp)
      | _ => inr features
      end ;;
    inr (drop features ["runners"])
  else inr features.

Definition is_bool (c : cell) : bool :=
  match c with CBool _ => true | _ => false end.

Definition bool_to_int (c : cell) : cell :=
  match c with CBool b => CInt (if b then 1 else 0) | _ => c end.

(** Lines 58-60: columns of boolean dtype are cast to integers. *)
Definition cast_bool_columns (features : DataFrame) : DataFrame :=
  {| nrows := nrows features;
     columns :=
       map (fun c =>
              if forallb is_bool (snd c)
              then (fst c, map bool_to_int (snd c)) else c)
         (columns features) |}.

(** Lines 69-71 (with the casts of lines 86-93, which leave numbers
    unchanged): every cell becomes a number. *)
Definition all_numeric (features : DataFrame) : frame Q :=
  {| nrows := nrows features;
     columns :=
       map (fun c => (fst c, map to_numeric (snd c))) (columns features) |}.

(** Lines 31-71 of [prepare_features]: everything before the
    reconciliation with the stored feature names. *)
Definition numeric_features (game_data : DataFrame)
    : Py.result (frame Q) :=
  let features := game_data in
  let prob_columns := filter (String.prefix "prob_") (labels features) in
  let features := drop features prob_columns in
  let columns_to_drop :=
    ["description"; "tactical_probabilities"; "primary_tactic";
     "batting_team"; "count"; "pitcher_id"; "batter_id"] in
  let features :=
    drop features (filter (has_column features) columns_to_drop) in
  features <- process_runners_column features ;;
  let features := cast_bool_columns features in
  let features :=
    if has_column features "half_inning"
    then get_dummies features "half_inning" else features in
  let features :=
    if has_column features "result"
    then get_dummies features "result" else features in
  inr (all_numeric features).

(** Lines 74-78: zero-fill the missing columns, then keep exactly
    the stored columns in the stored order. *)
Definition zero_fill (features : frame Q) (col : string) : frame Q :=
  if has_column features col then features
  else assign_scalar features col 0.

Definition reconcile (names : list string) (features : frame Q)
    : Py.result (frame Q) :=
  let features := fold_left zero_fill names features in
  select features names.

Definition prepare_features (self : TacticalPredictor classifier)
    (game_data : DataFrame) : Py.result (frame Q) :=
  features <- numeric_features game_data ;;
  match feature_names self with
  | Some names => reconcile names features
  | None => inr features
  end.

(** The loop of lines 203-206 for one class. *)
Definition record_probability (self : TacticalPredictor classifier)
    (tactics_by_category : dict (dict Q)) (tp : string * Q)
    : Py.result (dict (dict Q)) :=
  let (tac, prob) := tp in
  if Py.Qgeb prob 0.05 then
    let category :=
      match Dict.get (tactics_to_category self) tac with
      | Some c => c
      | None => "OTHER"
      end in
    match Dict.get tactics_by_category category with
    | Some inner =>
        inr (Dict.set tactics_by_category category
               (Dict.set inner tac (Py.round2 (prob * 100))))
    | None => inl Py.KeyError
    end
  else inr tactics_by_category.

(** Lines 200-218: grouping of one probability vector. *)
Definition group_by_category (self : TacticalPredictor classifier)
    (classes : list string) (probs : list Q)
    : Py.result (dict (dict Q)) :=
  let tactics_by_category : dict (dict Q) :=
    map (fun category => (category, [])) (Dict.keys TACTICAL_CATEGORIES) in
  tactics_by_category <-
    Py.foldM (record_probability self) (combine classes probs)
      tactics_by_category ;;
  inr (map (fun c => (fst c, sorted_desc (snd c))) tactics_by_category).

Definition predict_proba (self : TacticalPredictor classifier)
    (game_state : DataFrame) : Py.result (dict (dict Q)) :=
  features <- prepare_features self game_state ;;
  match model self with
  | None => inl Py.AttributeError
  | Some m =>
      all <- sk_predict_proba m features ;;
      probabilities <- iloc0 all ;;
      group_by_category self (classes_ m) probabilities
  end.

Definition column0 (game_state : DataFrame) (col : string)
    : Py.result cell :=
  series <- column game_state col ;;
  iloc0 series.

Definition _analyze_context (game_state : DataFrame)
    : Py.result context :=
  i <- (c <- column0 game_state "inning" ;; py_int c) ;;
  o <- (c <- column0 game_state "outs" ;; py_int c) ;;
  sd <- (c <- column0 game_state "score_diff" ;; py_int c) ;;
  pi <- (c <- column0 game_state "pressure_index" ;; py_float c) ;;
  r <- (if has_column game_state "num_runners"
        then c <- column0 game_state "num_runners" ;; py_int c
        else inr 0%Z) ;;
  sp <- (if has_column game_state "scoring_position"
         then c <- column0 game_state "scoring_position" ;;
              inr (py_bool c)
         else inr false) ;;
  inr {| game := {| ctx_inning := i; ctx_outs := o; ctx_score_diff := sd;
                    ctx_pressure_index := Py.round2 pi |};
         runner := {| ctx_runners := r; ctx_scoring_position := sp |} |}.

Definition category_reason (tac : string) (ctx : context)
    (category : string * dict tactic_data) : list string :=
  if Dict.mem tac (snd category) then
    if String.eqb (fst category) "OFFENSIVE"
       && ctx_scoring_position (runner ctx)
    then ["Good opportunity for run scoring"]
    else if String.eqb (fst category) "DEFENSIVE"
            && Py.Qgtb (ctx_pressure_index (game ctx)) 1.5
    then ["Critical defensive situation"]
    else []
  else [].

Definition _get_recommendation_reasoning (tac : string) (ctx : context)
    : string :=
  let g := game ctx in
  let r := runner ctx in
  let reasons :=
    app (if (7 <=? ctx_inning g)%Z then ["Late game situation"] else [])
   (app (if Py.Qgtb (ctx_pressure_index g) 1.5
         then ["High pressure situation"] else [])
   (app (if ctx_scoring_position r
         then ["Runners in scoring position"] else [])
   (app (if (Z.abs (ctx_score_diff g) <=? 2)%Z then ["Close game"]
         else if (0 <? ctx_score_diff g)%Z
         then ["Leading by multiple runs"]
         else ["Trailing by multiple runs"])
        (flat_map (category_reason tac ctx) TACTICAL_CATEGORIES)))) in
  match reasons with
  | [] => "Based on general game situation"
  | _ => join " | " reasons
  end.

(** Lines 338-343: the first category that has the tactic decides;
    the value returned is [tactics[tactic]], the whole entry of the
    taxonomy. *)
Fixpoint specific_actions_in (tac : string)
    (categories : dict (dict tactic_data)) : actions_value :=
  match categories with
  | [] => ActionList []
  | (_, tactics) :: rest =>
      match Dict.get tactics tac with
      | Some entry => TacticEntry entry
      | None => specific_actions_in tac rest
      end
  end.

Definition _get_specific_actions (tac : string) (ctx : context)
    : actions_value :=
  specific_actions_in tac TACTICAL_CATEGORIES.

Definition analyze_situation (self : TacticalPredictor classifier)
    (game_state : DataFrame) : Py.result analysis :=
  tactical_probs <- predict_proba self game_state ;;
  ctx <- _analyze_context game_state ;;
  let all_probs : dict Q :=
    fold_left
      (fun acc category =>
         fold_left (fun acc tp => Dict.set acc (fst tp) (snd tp))
           (snd category) acc)
      tactical_probs [] in
  let top_tactics := firstn 3 (sorted_desc all_probs) in
  let recommendations :=
    map (fun tp =>
           {| rec_tactic := fst tp;
              rec_probability := snd tp;
              reasoning := _get_recommendation_reasoning (fst tp) ctx;
              specific_actions := _get_specific_actions (fst tp) ctx |})
      top_tactics in
  inr {| tactical_probabilities := tactical_probs;
         top_tactics := top_tactics;
         context_analysis := ctx;
         recommendations := recommendations |}.

Definition default_filename : string := "models/tactical_predictor.joblib".

Definition save_model (self : TacticalPredictor classifier)
    (filename : string) (fs : filesystem classifier)
    : filesystem classifier :=
  let model_data :=
    {| md_model := model self; md_feature_names := feature_names self |} in
  Dict.set fs filename model_data.

(** [load_model] assigns both attributes before it prints the
    classes of the loaded model; that print raises when the stored
    model is [None], after the assignments. *)
Definition load_model (self : TacticalPredictor classifier)
    (filename : string) (fs : filesystem classifier)
    : TacticalPredictor classifier * Py.result unit :=
  match Dict.get fs filename with
  | None => (self, inl Py.FileNotFoundError)
  | Some model_data =>
      let self :=
        {| model := md_model model_data;
           feature_names := md_feature_names model_data;
           scaler := scaler self;
           tactics_to_category := tactics_to_category self |} in
      match model self with
      | Some _ => (self, inr tt)
      | None => (self, inl Py.AttributeError)
      end
  end.

End Predictor.

End ModelTraining.

(** ** The first row of a frame *)

Module FirstRow.
Import Pandas ModelTraining.

(** The columns that carry a label. *)
Definition with_label {A : Type} (col : string)
    (d : list (string * list A)) : list (string * list A) :=
  filter (fun c => String.eqb (fst c) col) d.

(** A column cut down to its first value. *)
Definition first {A : Type} (c : string * list A) : string * list A :=
  (fst c, firstn 1 (snd c)).

(** A column with its booleans read as integers. *)
Definition as_int (c : string * list cell) : string * list cell :=
  (fst c, map bool_to_int (snd c)).

(** [G] holds the first row of [F], booleans read as integers, except
    that it may lack indicator columns of [F] that are false in the
    first row. *)
Definition first_row_of (G F : DataFrame) : Prop :=
  forall col,
    map as_int (with_label col (columns G))
    = map as_int (map first (with_label col (columns F)))
    \/ (not_encoded col = false
        /\ with_label col (columns G) = []
        /\ exists s, with_label col (columns F) = [(col, CBool false :: s)]).

(** The same for numeric frames: a column that [G] lacks is 0 in the
    first row of [F]. *)
Definition first_row_of_numeric (G F : frame Q) : Prop :=
  forall col,
    with_label col (columns G) = map first (with_label col (columns F))
    \/ (with_label col (columns G) = []
        /\ exists s, with_label col (columns F) = [(col, 0 :: s)]).

End FirstRow.

(** ** predictor.py *)

Module Predictor.
Import Constants Pandas.

Record team_momentum : Type := {
  recent_success : Q;
  pressure_handling : Q
}.

(** The non-empty dictionary returned by [_analyze_momentum]; the
    empty one is [None]. *)
Record momentum_analysis : Type := {
  batting_team : team_momentum;
  pitching_team : team_momentum
}.

(** The dictionary returned by [_analyze_historical_patterns], without
    its display summary ['similar_situations'], which no function
    modelled here reads. *)
Record historical_patterns : Type := {
  success_rates : dict (dict Q);
  sample_size : nat
}.

Record MLBTacticalAnalyzer : Type := {
  current_game_state : option DataFrame;
  historical_data : option DataFrame
}.

Definition success_indicators (team_type : string)
    : Py.result (list string) :=
  if String.eqb team_type "batting"
  then inr ["hit"; "walk"; "run_scored"]
  else if String.eqb team_type "pitching"
  then inr ["strikeout"; "out"; "double_play"]
  else inl Py.KeyError.

(** The column totals summed by [_calculate_recent_success]: one per
    indicator that is a column of the frame. *)
Definition indicator_totals (recent_plays : DataFrame)
    (indicators : list string) : Py.result (list Q) :=
  Py.mapM
    (fun indicator => series <- column recent_plays indicator ;;
                      series_sum series)
    (filter (has_column recent_plays) indicators).

Definition _calculate_recent_success (recent_plays : DataFrame)
    (team_type : string) : Py.result Q :=
  if empty recent_plays then inr 0.0
  else
    indicators <- success_indicators team_type ;;
    totals <- indicator_totals recent_plays indicators ;;
    let success_count := Py.sum totals in
    inr (Py.min (success_count / Py.qnat (nrows recent_plays)) 1.0).

(** [play.get(key, False)] on a row of the frame. *)
Definition play_get (play : dict cell) (key : string) : cell :=
  match Dict.get play key with Some c => c | None => CBool false end.

Definition _is_successful_pressure_play (play : dict cell)
    (team_type : string) : bool :=
  if String.eqb team_type "batting"
  then existsb py_bool
         [play_get play "hit"; play_get play "walk";
          play_get play "run_scored"]
  else existsb py_bool
         [play_get play "strikeout"; play_get play "out";
          play_get play "double_play"].

(** [df.iterrows()]: each row as a mapping from label to cell. *)
Definition iterrows (df : DataFrame) : list (dict cell) :=
  map (fun i => map (fun c => (fst c, nth i (snd c) CNaN)) (columns df))
    (seq 0 (nrows df)).

Definition _calculate_pressure_handling (recent_plays : DataFrame)
    (team_type : string) : Py.result Q :=
  if empty recent_plays then inr 0.0
  else
    pressure <- column recent_plays "pressure_index" ;;
    mask <- Py.mapM (cell_gt 1.5) pressure ;;
    let pressure_plays := filter_rows mask recent_plays in
    if empty pressure_plays then inr 0.0
    else
      let success_count :=
        List.length
          (filter (fun play => _is_successful_pressure_play play team_type)
             (iterrows pressure_plays)) in
      inr (Py.qnat success_count / Py.qnat (nrows pressure_plays)).

Definition _analyze_momentum (game_state : DataFrame)
    : Py.result (option momentum_analysis) :=
  if empty game_state then inr None
  else
    let recent_plays := tail 5 game_state in
    bs <- _calculate_recent_success recent_plays "batting" ;;
    bp <- _calculate_pressure_handling recent_plays "batting" ;;
    ps <- _calculate_recent_success recent_plays "pitching" ;;
    pp <- _calculate_pressure_handling recent_plays "pitching" ;;
    inr (Some {| batting_team :=
                   {| recent_success := bs; pressure_handling := bp |};
                 pitching_team :=
                   {| recent_success := ps; pressure_handling := pp |} |}).

Definition momentum_weights : dict Q :=
  [ ("aggressive_hitting", 0.2);
    ("patient_hitting", -0.1);
    ("power_hitting", 0.15);
    ("small_ball", 0.1);
    ("defensive_pressure", 0.2);
    ("strikeout_hunting", 0.15) ].

Definition _calculate_momentum_factor (momentum : momentum_analysis)
    (tac : string) : Q :=
  let batting_momentum := recent_success (batting_team momentum) in
  let pitching_momentum := recent_success (pitching_team momentum) in
  let weight :=
    match Dict.get momentum_weights tac with Some w => w | None => 0.1 end in
  let momentum_diff := batting_momentum - pitching_momentum in
  momentum_diff * weight.

(** [historical.get('success_rates', {}).get(category, {}).get(tactic, 0)]. *)
Definition hist_success_of (historical : historical_patterns)
    (category tac : string) : Q :=
  match Dict.get (success_rates historical) category with
  | Some rates =>
      match Dict.get rates tac with Some r => r | None => 0 end
  | None => 0
  end.

(** The body of the inner loop of [_adjust_probabilities] for one
    entry: the value written back under that tactic. *)
Definition adjust_one (historical : historical_patterns)
    (momentum : option momentum_analysis) (category tac : string)
    (prob : Q) : Q :=
  let hist_success := hist_success_of historical category tac in
  let prob :=
    if Py.Qgtb hist_success 0
    then prob * (1 + (hist_success - 50) / 100) else prob in
  let prob :=
    match momentum with
    | Some m =>
        let momentum_factor := _calculate_momentum_factor m tac in
        prob * (1 + momentum_factor)
    | None => prob
    end in
  Py.round2 (Py.min (Py.max prob 0) 100).

(** [_adjust_probabilities] overwrites each entry of each category
    with its adjusted value; keys and order are unchanged.  (The copy
    made by the source is shallow, so the inner dictionaries of
    [base_probs] are the ones updated; the model returns the resulting
    mapping.) *)
Definition _adjust_probabilities (base_probs : dict (dict Q))
    (ctx : ModelTraining.context) (historical : historical_patterns)
    (momentum : option momentum_analysis) : dict (dict Q) :=
  map (fun category =>
         (fst category,
          map (fun tp =>
                 (fst tp,
                  adjust_one historical momentum (fst category) (fst tp)
                    (snd tp)))
            (snd category)))
    base_probs.

(** The dictionaries as objects.  [base_probs.copy()] is a shallow
    copy: the new outer dictionary holds the same inner dictionaries as
    [base_probs], and the loop writes into them.  Inner dictionaries
    are kept in a store; an outer dictionary maps each category to the
    address of its inner dictionary. *)
Definition store : Type := list (dict Q).

Definition read (st : store) (outer : dict nat) : dict (dict Q) :=
  map (fun c => (fst c, nth (snd c) st [])) outer.

Fixpoint write (st : store) (address : nat) (d : dict Q) : store :=
  match st, address with
  | [], _ => []
  | _ :: st', O => d :: st'
  | d0 :: st', S address' => d0 :: write st' address' d
  end.

(** Lines 303-316, the loop [for tactic in tactics] on one inner
    dictionary: each value is read and written back under its key. *)
Definition adjust_category (historical : historical_patterns)
    (momentum : option momentum_analysis) (category : string)
    (tactics : dict Q) : dict Q :=
  fold_left
    (fun tactics tac =>
       match Dict.get tactics tac with
       | Some prob =>
           Dict.set tactics tac
             (adjust_one historical momentum category tac prob)
       | None => tactics
       end)
    (Dict.keys tactics) tactics.

(** [_adjust_probabilities] on the store: the mapping returned (a new
    outer dictionary with the addresses of [base_probs]) and the store
    after the loop. *)
Definition _adjust_probabilities_in_place (base_probs : dict nat)
    (ctx : ModelTraining.context) (historical : historical_patterns)
    (momentum : option momentum_analysis) (st : store)
    : dict nat * store :=
  let adjusted_probs := base_probs in
  (adjusted_probs,
   fold_left
     (fun st c =>
        write st (snd c)
          (adjust_category historical momentum (fst c) (nth (snd c) st [])))
     adjusted_probs st).

(** The mask of [_find_similar_situations] for one row of the
    corpus. *)
Definition similar_row (current row : dict cell) : Py.result bool :=
  let get r k := match Dict.get r k with Some c => c | None => CNaN end in
  near <- cell_near 0.2 (get current "pressure_index")
            (get row "pressure_index") ;;
  inr (cell_eq (get current "inning") (get row "inning")
       && cell_eq (get current "outs") (get row "outs")
       && near).

Definition _find_similar_situations (self : MLBTacticalAnalyzer)
    (game_state : DataFrame) : Py.result (option DataFrame) :=
  match historical_data self with
  | None => inr None
  | Some corpus =>
      if empty game_state then inr None
      else
        current_state <- iloc_last (iterrows game_state) ;;
        _ <- column corpus "inning" ;;
        _ <- column game_state "inning" ;;
        _ <- column corpus "outs" ;;
        _ <- column game_state "outs" ;;
        _ <- column corpus "pressure_index" ;;
        _ <- column game_state "pressure_index" ;;
        mask <- Py.mapM (similar_row current_state) (iterrows corpus) ;;
        let similar := filter_rows mask corpus in
        inr (if empty similar then None else Some similar)
  end.

(** The success rate of one tactic among the similar situations. *)
Definition tactic_rate (similar : DataFrame) (tactic_name : string)
    : Py.result Q :=
  succ <- column similar "success" ;;
  tacs <- column similar "tactic" ;;
  let uses := map (cell_eq (CStr tactic_name)) tacs in
  both <- Py.mapM (fun sb => cell_and (fst sb) (snd sb)) (combine succ uses) ;;
  let success := List.length (filter (fun b => b) both) in
  let total := List.length (filter (fun b => b) uses) in
  let rate :=
    if (0 <? total)%nat then Py.qnat success / Py.qnat total * 100 else 0 in
  inr (Py.round2 rate).

Definition _analyze_historical_patterns (self : MLBTacticalAnalyzer)
    (game_state : DataFrame) : Py.result historical_patterns :=
  let nothing := {| success_rates := []; sample_size := 0 |} in
  match historical_data self with
  | None => inr nothing
  | Some _ =>
      if empty game_state then inr nothing
      else
        similar_situations <- _find_similar_situations self game_state ;;
        match similar_situations with
        | None => inr nothing
        | Some similar =>
            rates <-
              Py.mapM
                (fun category =>
                   category_rates <-
                     Py.mapM
                       (fun tac => r <- tactic_rate similar tac ;;
                                   inr (tac, r))
                       (Dict.keys (snd category)) ;;
                   inr (fst category, category_rates))
                TACTICAL_CATEGORIES ;;
            inr {| success_rates := rates;
                   sample_size := nrows similar |}
        end
  end.

(** [_enhance_predictions], on the analysis of [analyze_situation]. *)
Record enhanced_predictions : Type := {
  enhanced_probabilities : dict (dict Q);
  momentum : option momentum_analysis;
  historical : historical_patterns
}.

Definition _enhance_predictions (self : MLBTacticalAnalyzer)
    (predictions : ModelTraining.analysis) (game_state : DataFrame)
    : Py.result enhanced_predictions :=
  historical_patterns <- _analyze_historical_patterns self game_state ;;
  momentum_analysis <- _analyze_momentum game_state ;;
  inr {| enhanced_probabilities :=
           _adjust_probabilities
             (ModelTraining.tactical_probabilities predictions)
             (ModelTraining.context_analysis predictions)
             historical_patterns momentum_analysis;
         momentum := momentum_analysis;
         historical := historical_patterns |}.

(** The final probability as the documentation states it: both
    factors applied to the base probability, clamped to [0,100] and
    rounded to 2 decimals. *)
Definition documented_final_probability (base hist_success
    momentum_factor : Q) : Q :=
  Py.round2
    (Py.min
       (Py.max
          (base * (1 + (hist_success - 50) / 100) * (1 + momentum_factor))
          0)
       100).

(** The reading of the momentum ratio given by the documentation:
    the fraction of the plays that carry a positive value under at
    least one of the side's indicators. *)
Definition positive_play (indicators : list string) (play : dict cell)
    : bool :=
  existsb
    (fun indicator =>
       match Dict.get play indicator with
       | Some c =>
           match cell_number c with
           | inr (Some q) => Py.Qgtb q 0
           | _ => false
           end
       | None => false
       end)
    indicators.

Definition fraction_of_positive_plays (recent_plays : DataFrame)
    (indicators : list string) : Q :=
  Py.qnat (List.length (filter (positive_play indicators)
                       (iterrows recent_plays)))
  / Py.qnat (nrows recent_plays).

(** The six columns read by [_calculate_recent_success]. *)
Definition indicator_columns : list string :=
  ["hit"; "walk"; "run_scored"; "strikeout"; "out"; "double_play"].

(** The frame has none of them. *)
Definition without_indicators (df : DataFrame) : bool :=
  forallb (fun c => negb (has_column df c)) indicator_columns.

(** A cell read as a 0/1 flag. *)
Definition flag_of (c : cell) : option bool :=
  match c with
  | CInt 0 => Some false
  | CInt 1 => Some true
  | CBool b => Some b
  | CFloat q =>
      if Qeq_bool q 0 then Some false
      else if Qeq_bool q 1 then Some true else None
  | _ => None
  end.

Definition is_flag (c : cell) : bool :=
  match flag_of c with Some _ => true | None => false end.

Definition is_set (c : cell) : bool :=
  match flag_of c with Some true => true | _ => false end.

(** The cells a play holds under the given indicators. *)
Definition indicator_cells (indicators : list string) (play : dict cell)
    : list cell :=
  flat_map
    (fun indicator =>
       match Dict.get play indicator with Some c => [c] | None => [] end)
    indicators.

(** The play holds 0/1 flags under the indicators, at most one of
    them set. *)
Definition exclusive_flags (indicators : list string) (play : dict cell)
    : bool :=
  forallb is_flag (indicator_cells indicators play)
  && (List.length (filter is_set (indicator_cells indicators play)) <=? 1)%nat.

End Predictor.

(** ** Concrete inputs *)

Module Examples.
Import Constants ProcessData Pandas ModelTraining Predictor.

(** A stand-in for a fitted forest: one split on one feature. *)
Record stump : Type := {
  stump_classes : list string;
  stump_features : list string;
  stump_feature : nat;
  stump_threshold : Q;
  stump_low : list Q;
  stump_high : list Q
}.

#[export] Instance stump_classifier : Classifier stump := {
  classes_ := stump_classes;
  feature_names_in_ := stump_features;
  predict_row m x :=
    if Py.Qleb (nth (stump_feature m) x 0) (stump_threshold m)
    then stump_low m else stump_high m
}.

(** A parser for which no string spells a number. *)
#[export] Instance no_numeric_strings : NumericParser := {
  parse_number _ := None
}.

Definition late_inning_stump : stump :=
  {| stump_classes := ["contact_hitting"; "power_hitting";
                       "strikeout_pitching"];
     stump_features := ["inning"; "outs"; "pressure_index";
                        "half_inning_bottom"; "half_inning_top"];
     stump_feature := 0;
     stump_threshold := 6;
     stump_low := [0.70; 0.04; 0.26];
     stump_high := [0.25; 0.60; 0.15] |}.

Definition trained : TacticalPredictor stump :=
  {| model := Some late_inning_stump;
     feature_names := Some (stump_features late_inning_stump);
     scaler := None;
     tactics_to_category := _initialize_tactics_mapping |}.

(** One Situation Record as a one-row frame; it has no
    [half_inning_bottom] column once encoded, and carries columns the
    stump was not fitted with. *)
Definition eighth_inning : DataFrame :=
  {| nrows := 1;
     columns :=
       [ ("inning", [CInt 8]);
         ("half_inning", [CStr "top"]);
         ("result", [CStr "Home Run"]);
         ("outs", [CInt 1]);
         ("score_diff", [CInt 1]);
         ("num_runners", [CInt 1]);
         ("scoring_position", [CInt 1]);
         ("pressure_index", [CFloat 2.0]);
         ("primary_tactic", [CStr "power_hitting"]);
         ("prob_power_hitting", [CFloat 1.2]) ] |}.

Definition home_run_play : play_data :=
  {| inning := 8; half_inning := "top"; result := "Home Run";
     outs := 1; balls := 1; strikes := 1;
     score_home := 2; score_away := 3; score_diff := 1;
     is_close_game := 1; num_runners := 1; scoring_position := 1;
     runs_scored := 2;
     batter := None; pitcher := None; matchup := None |}.

Definition with_metrics (pd : play_data) : situation :=
  {| play := pd; derived := calculate_advanced_metrics pd |}.

Definition with_result (pd : play_data) (r : string) : play_data :=
  {| inning := inning pd; half_inning := half_inning pd; result := r;
     outs := outs pd; balls := balls pd; strikes := strikes pd;
     score_home := score_home pd; score_away := score_away pd;
     score_diff := score_diff pd; is_close_game := is_close_game pd;
     num_runners := num_runners pd;
     scoring_position := scoring_position pd;
     runs_scored := runs_scored pd;
     batter := batter pd; pitcher := pitcher pd; matchup := matchup pd |}.

Definition unknown_event : situation :=
  with_metrics (with_result home_run_play "Unknown Event").

Definition home_run : situation := with_metrics home_run_play.

(** Five recent plays: four hits, one out. *)
Definition four_hits_one_out : DataFrame :=
  {| nrows := 5;
     columns :=
       [ ("inning", [CInt 3; CInt 3; CInt 3; CInt 3; CInt 3]);
         ("outs", [CInt 0; CInt 0; CInt 0; CInt 1; CInt 1]);
         ("pressure_index",
           [CFloat 1.0; CFloat 1.0; CFloat 1.0; CFloat 1.2; CFloat 1.2]);
         ("hit", [CInt 1; CInt 1; CInt 0; CInt 1; CInt 1]);
         ("out", [CInt 0; CInt 0; CInt 1; CInt 0; CInt 0]) ] |}.

(** Five recent plays of which the first is a hit that also scores a
    run; the other four carry no batting indicator. *)
Definition run_scoring_hit : DataFrame :=
  {| nrows := 5;
     columns :=
       [ ("inning", [CInt 3; CInt 3; CInt 3; CInt 3; CInt 3]);
         ("outs", [CInt 0; CInt 0; CInt 1; CInt 2; CInt 2]);
         ("pressure_index",
           [CFloat 1.0; CFloat 1.0; CFloat 1.2; CFloat 1.4; CFloat 1.4]);
         ("hit", [CInt 1; CInt 0; CInt 0; CInt 0; CInt 0]);
         ("walk", [CInt 0; CInt 0; CInt 0; CInt 0; CInt 0]);
         ("run_scored", [CInt 1; CInt 0; CInt 0; CInt 0; CInt 0]) ] |}.

(** A corpus of earlier situations in which the matching rows used
    [contact_hitting] only. *)
Definition corpus : DataFrame :=
  {| nrows := 3;
     columns :=
       [ ("inning", [CInt 3; CInt 3; CInt 7]);
         ("outs", [CInt 1; CInt 1; CInt 1]);
         ("pressure_index", [CFloat 1.2; CFloat 1.3; CFloat 1.2]);
         ("tactic", [CStr "contact_hitting"; CStr "contact_hitting";
                     CStr "power_hitting"]);
         ("success", [CBool true; CBool false; CBool true]) ] |}.

Definition analyzer : MLBTacticalAnalyzer :=
  {| current_game_state := None; historical_data := Some corpus |}.

Definition classifier_output : dict (dict Q) :=
  [ ("OFFENSIVE", [("power_hitting", 50); ("contact_hitting", 30)]);
    ("BASERUNNING", []);
    ("DEFENSIVE", [("strikeout_pitching", 20)]) ].

(** What [numeric_features] makes of [eighth_inning]. *)
Definition eighth_inning_prepared : frame Q :=
  {| nrows := 1;
     columns :=
       [ ("inning", [8]); ("outs", [1]); ("score_diff", [1]);
         ("num_runners", [1]); ("scoring_position", [1]);
         ("pressure_index", [2.0]); ("half_inning_top", [1]);
         ("result_Home Run", [1]) ] |}.

(** Momentum and historical patterns as [four_hits_one_out] and
    [corpus] produce them. *)
Definition hot_batting : momentum_analysis :=
  {| batting_team := {| recent_success := 4 # 5; pressure_handling := 0 |};
     pitching_team := {| recent_success := 1 # 5; pressure_handling := 0 |} |}.

Definition contact_only_history : historical_patterns :=
  {| success_rates :=
       [ ("OFFENSIVE", [("power_hitting", 0); ("contact_hitting", 50)]) ];
     sample_size := 2 |}.

Definition some_context : context :=
  {| game := {| ctx_inning := 3; ctx_outs := 1; ctx_score_diff := 0;
                ctx_pressure_index := 1.2 |};
     runner := {| ctx_runners := 0; ctx_scoring_position := false |} |}.

(** A reader of unsigned decimal numerals for [float] and [int]. *)
Definition digit_value (c : ascii) : option Z :=
  let n := nat_of_ascii c in
  if ((48 <=? n) && (n <=? 57))%nat then Some (Z.of_nat n - 48)%Z else None.

Fixpoint digits (s : string) (acc : Z) : option Z :=
  match s with
  | EmptyString => Some acc
  | String c s' =>
      match digit_value c with
      | Some d => digits s' (10 * acc + d)%Z
      | None => None
      end
  end.

Fixpoint before_dot (s : string) : string :=
  match s with
  | String c s' => if Ascii.eqb c "." then EmptyString
                   else String c (before_dot s')
  | EmptyString => EmptyString
  end.

Fixpoint after_dot (s : string) : option string :=
  match s with
  | String c s' => if Ascii.eqb c "." then Some s' else after_dot s'
  | EmptyString => None
  end.

Definition decimal (s : string) : option Q :=
  match s, digits (before_dot s) 0, after_dot s with
  | EmptyString, _, _ => None
  | _, Some whole, None => Some (inject_Z whole)
  | _, Some whole, Some frac =>
      match digits frac 0 with
      | Some f =>
          Some (inject_Z whole
                + inject_Z f / inject_Z (10 ^ Z.of_nat (String.length frac)))
      | None => None
      end
  | _, None, _ => None
  end.

#[export] Instance decimal_strings : StatsFetcher.StringParser := {
  StatsFetcher.float_of_str := decimal;
  StatsFetcher.int_of_str s :=
    match s with
    | EmptyString => None
    | _ => digits s 0
    end
}.

Definition pitching_document : StatsFetcher.stats_data :=
  [ ("era", StatsFetcher.JStr "3.45");
    ("inningsPitched", StatsFetcher.JStr "180.1");
    ("strikeOuts", StatsFetcher.JInt 200);
    ("baseOnBalls", StatsFetcher.JInt 50);
    ("hits", StatsFetcher.JInt 150);
    ("groundOuts", StatsFetcher.JInt 120);
    ("airOuts", StatsFetcher.JStr "100") ].

Definition hitting_document : StatsFetcher.stats_data :=
  [ ("avg", StatsFetcher.JStr ".310");
    ("ops", StatsFetcher.JStr ".905");
    ("homeRuns", StatsFetcher.JInt 31) ].

(** A service that has pitching documents for every season, and
    hitting documents for the 2023 regular season only. *)
Definition statsapi : StatsFetcher.PlayerStatsFetcher :=
  {| StatsFetcher.season_year := 2024;
     StatsFetcher._try_get_stats_with_retry player season group game_type :=
       if String.eqb group "pitching" then Some pitching_document
       else if (season =? 2023)%Z && String.eqb game_type "R"
            then Some hitting_document
            else None |}.

(** [eighth_inning] without its ['inning'] column. *)
Definition no_inning : DataFrame := drop eighth_inning ["inning"].

(** A record that resembles the first two rows of [corpus]. *)
Definition third_inning : DataFrame :=
  {| nrows := 1;
     columns :=
       [ ("inning", [CInt 3]);
         ("outs", [CInt 1]);
         ("pressure_index", [CFloat 1.2]) ] |}.

Definition no_corpus : MLBTacticalAnalyzer :=
  {| current_game_state := None; historical_data := None |}.

(** A second fitted model, which always answers [small_ball]. *)
Definition bunt_stump : stump :=
  {| stump_classes := ["small_ball"];
     stump_features := ["outs"];
     stump_feature := 0;
     stump_threshold := 1;
     stump_low := [1];
     stump_high := [1] |}.

Definition trained_bunt : TacticalPredictor stump :=
  {| model := Some bunt_stump;
     feature_names := Some (stump_features bunt_stump);
     scaler := None;
     tactics_to_category := _initialize_tactics_mapping |}.

(** What [predict_proba trained eighth_inning] returns. *)
Definition eighth_inning_probabilities : dict (dict Q) :=
  [ ("OFFENSIVE", [("power_hitting", 60.00); ("contact_hitting", 25.00)]);
    ("BASERUNNING", []);
    ("DEFENSIVE", [("strikeout_pitching", 15.00)]) ].

(** The records of two plays, the eighth-inning home run first. *)
Definition two_plays : DataFrame :=
  {| nrows := 2;
     columns :=
       [ ("inning", [CInt 8; CInt 3]);
         ("half_inning", [CStr "top"; CStr "bottom"]);
         ("result", [CStr "Home Run"; CStr "Single"]);
         ("outs", [CInt 1; CInt 0]);
         ("score_diff", [CInt 1; CInt 0]);
         ("num_runners", [CInt 1; CInt 0]);
         ("scoring_position", [CInt 1; CInt 0]);
         ("pressure_index", [CFloat 2.0; CFloat 1.0]);
         ("primary_tactic", [CStr "power_hitting"; CStr "contact_hitting"]);
         ("prob_power_hitting", [CFloat 1.2; CNaN]);
         ("prob_contact_hitting", [CNaN; CFloat 0.7]) ] |}.

(** The inner dictionaries of [eighth_inning_probabilities] in a
    store, and the outer dictionary that refers to them. *)
Definition probabilities_store : store :=
  [ [("power_hitting", 60.00); ("contact_hitting", 25.00)];
    [];
    [("strikeout_pitching", 15.00)] ].

Definition probabilities_by_address : dict nat :=
  [ ("OFFENSIVE", 0%nat); ("BASERUNNING", 1%nat); ("DEFENSIVE", 2%nat) ].

End Examples.

(** * Properties *)

Import Constants ProcessData.

(** ** Auxiliary facts on the numeric helpers *)

Lemma Qleb_true (x y : Q) : Py.Qleb x y = true <-> x <= y.
Proof. unfold Py.Qleb. apply Qle_bool_iff. Qed.

Lemma Qleb_false (x y : Q) : Py.Qleb x y = false <-> y < x.
Proof.
  unfold Py.Qleb. split; intros H.
  - apply Qnot_le_lt. intros Hle. apply Qle_bool_iff in Hle. congruence.
  - destruct (Qle_bool x y) eqn:E; [| reflexivity].
    apply Qle_bool_iff in E. apply Qle_not_lt in E. contradiction.
Qed.

Lemma Qltb_true (x y : Q) : Py.Qltb x y = true <-> x < y.
Proof.
  unfold Py.Qltb. rewrite negb_true_iff. apply (Qleb_false y x).
Qed.

Lemma Qltb_false (x y : Q) : Py.Qltb x y = false <-> y <= x.
Proof.
  unfold Py.Qltb. rewrite negb_false_iff. apply (Qleb_true y x).
Qed.

Lemma Qgeb_true (x y : Q) : Py.Qgeb x y = true <-> y <= x.
Proof. apply Qleb_true. Qed.

Lemma Qgtb_true (x y : Q) : Py.Qgtb x y = true <-> y < x.
Proof. apply Qltb_true. Qed.

Lemma py_min_le_r (a b : Q) : Py.min a b <= b.
Proof.
  unfold Py.min. destruct (Py.Qltb b a) eqn:E.
  - apply Qle_refl.
  - now apply Qltb_false in E.
Qed.

Lemma py_min_ge (a b c : Q) : c <= a -> c <= b -> c <= Py.min a b.
Proof. intros Ha Hb. unfold Py.min. now destruct (Py.Qltb b a). Qed.

Lemma inject_Z_le (x y : Z) : (x <= y)%Z -> inject_Z x <= inject_Z y.
Proof. intros H. now rewrite <- Zle_Qle. Qed.

(** ** Derived metrics *)

Lemma pressure_index_bounds (pd : play_data) :
  (0 <= outs pd)%Z -> 0 <= calc_pressure_index pd <= 2.
Proof.
  intros Ho. unfold calc_pressure_index.
  split; [| eapply Qle_trans; [apply py_min_le_r | lra]].
  apply py_min_ge; [| lra].
  apply inject_Z_le in Ho. change (inject_Z 0) with 0 in Ho.
  destruct (late_innings <=? inning pd)%Z, (Py.truthy (scoring_position pd));
    nra.
Qed.

Lemma game_stage_bounds (pd : play_data) :
  (1 <= inning pd)%Z -> (0 <= outs pd <= 3)%Z ->
  0 <= calc_game_stage pd <= 1.
Proof.
  intros Hi [Ho1 Ho2]. unfold calc_game_stage.
  assert (H1 : inject_Z 1 <= inject_Z (Z.min (inning pd) 9))
    by (apply inject_Z_le; lia).
  assert (H9 : inject_Z (Z.min (inning pd) 9) <= inject_Z 9)
    by (apply inject_Z_le; lia).
  apply inject_Z_le in Ho1, Ho2.
  change (inject_Z 0) with 0 in Ho1. change (inject_Z 3) with 3 in Ho2.
  change (inject_Z 1) with 1 in H1. change (inject_Z 9) with 9 in H9.
  set (i := inject_Z (Z.min (inning pd) 9)) in *.
  set (o := inject_Z (outs pd)) in *.
  assert (E : (i - 1 + o / 3) / 9 == (i - 1) * (1 # 9) + o * (1 # 27))
    by field.
  rewrite E. lra.
Qed.

Lemma leverage_index_bounds (pd : play_data) (pressure stage : Q) :
  0 <= pressure -> 0 <= calc_leverage_index pd pressure stage <= 3.
Proof.
  intros Hp. unfold calc_leverage_index.
  split; [| eapply Qle_trans; [apply py_min_le_r | lra]].
  apply py_min_ge; [| lra].
  destruct (Py.truthy (is_close_game pd)), (Py.Qgtb stage 0.7); nra.
Qed.

(** C3. For every play record with [inning >= 1] and [outs] in [0,3],
    the metrics computed by [calculate_advanced_metrics] satisfy
    [0 <= pressure_index <= 2], [0 <= leverage_index <= 3] and
    [0 <= game_stage <= 1]. *)
Theorem C3_metric_ranges (pd : play_data) :
  (1 <= inning pd)%Z -> (0 <= outs pd <= 3)%Z ->
  let m := calculate_advanced_metrics pd in
  (0 <= pressure_index m <= 2)
  /\ (0 <= leverage_index m <= 3)
  /\ (0 <= game_stage m <= 1).
Proof.
  intros Hi Ho. cbn [calculate_advanced_metrics pressure_index
                     leverage_index game_stage].
  pose proof (pressure_index_bounds pd (proj1 Ho)) as Hp.
  split; [exact Hp |]. split.
  - apply leverage_index_bounds, Hp.
  - now apply game_stage_bounds.
Qed.

(** ** Dictionaries *)

Section DictFacts.
Context {V : Type}.
Implicit Types (d : dict V) (k : string) (v : V).

Lemma dict_get_none d k : Dict.get d k = None <-> ~ In k (Dict.keys d).
Proof.
  induction d as [| [k' v'] d IH]; simpl.
  - tauto.
  - destruct (String.eqb_spec k k') as [-> | Hne].
    + split; [discriminate | intros H; exfalso; apply H; now left].
    + rewrite IH. split.
      * intros H [E | Hin]; [now symmetry in E | now apply H].
      * intros H Hin. apply H. now right.
Qed.

Lemma dict_get_in d k v : Dict.get d k = Some v -> In (k, v) d.
Proof.
  induction d as [| [k' v'] d IH]; simpl; [discriminate |].
  destruct (String.eqb_spec k k') as [-> | Hne].
  - intros [= ->]. now left.
  - intros H. right. now apply IH.
Qed.

Lemma dict_get_some d k :
  In k (Dict.keys d) -> exists v, Dict.get d k = Some v.
Proof.
  intros Hin. destruct (Dict.get d k) as [v |] eqn:E; [now exists v |].
  now apply dict_get_none in E.
Qed.

Lemma dict_set_not_nil d k v : Dict.set d k v <> [].
Proof.
  destruct d as [| [k' v'] d]; simpl; [discriminate |].
  destruct (String.eqb k k'); discriminate.
Qed.

Lemma dict_set_Forall (P : string * V -> Prop) d k v :
  (forall k', P (k', v)) -> Forall P d -> Forall P (Dict.set d k v).
Proof.
  intros Hv. induction 1 as [| [k' v'] d Hx Hd IH]; simpl.
  - constructor; [apply Hv | constructor].
  - destruct (String.eqb k k'); constructor; auto.
Qed.

End DictFacts.

Lemma mem_str_In (x : string) (l : list string) :
  mem_str x l = true <-> In x l.
Proof.
  unfold mem_str. rewrite existsb_exists. split.
  - intros [y [Hin E]]. apply String.eqb_eq in E. now subst.
  - intros Hin. exists x. split; [assumption | apply String.eqb_refl].
Qed.

Lemma forallb_mem_incl (l1 l2 : list string) :
  forallb (fun x => mem_str x l2) l1 = true -> incl l1 l2.
Proof.
  rewrite forallb_forall. intros H x Hin. apply mem_str_In. now apply H.
Qed.

(** ** The taxonomy *)

(** The keys of [ACTION_TO_TACTIC] are exactly the actions of the
    taxonomy. *)
Lemma action_to_tactic_keys (a : string) :
  In a (Dict.keys ACTION_TO_TACTIC) <-> In a taxonomy_actions.
Proof.
  split; intros Hin.
  - refine (forallb_mem_incl (Dict.keys ACTION_TO_TACTIC) taxonomy_actions
              _ a Hin).
    vm_compute. reflexivity.
  - refine (forallb_mem_incl taxonomy_actions (Dict.keys ACTION_TO_TACTIC)
              _ a Hin).
    vm_compute. reflexivity.
Qed.

(** No key of [ACTION_TO_TACTIC] holds an empty candidate list. *)
Lemma action_to_tactic_nonempty (a : string) (l : list tactic_info) :
  Dict.get ACTION_TO_TACTIC a = Some l -> l <> [].
Proof.
  intros H. apply dict_get_in in H.
  assert (Hall : forallb (fun kv => negb (Nat.eqb (List.length (snd kv)) 0))
                   ACTION_TO_TACTIC = true) by (vm_compute; reflexivity).
  rewrite forallb_forall in Hall. specialize (Hall _ H). clear H.
  intros ->. simpl in Hall. discriminate Hall.
Qed.

Lemma taxonomy_thresholds_shaped :
  forallb (fun kv => forallb (fun info => forallb threshold_shaped
                                           (info_contexts info)) (snd kv))
    ACTION_TO_TACTIC = true.
Proof. vm_compute. reflexivity. Qed.

(** ** The heuristic labeler *)

Lemma boost_ge_base (p f : Q) : 0.4 <= p -> 1 <= f -> 0.4 <= p * f.
Proof. intros Hp Hf. nra. Qed.

Ltac boost := apply boost_ge_base; [assumption | lra].

Lemma qnat_nonneg (n : nat) : 0 <= Py.qnat n.
Proof.
  unfold Py.qnat. change 0 with (inject_Z 0). apply inject_Z_le. lia.
Qed.

Lemma qnat_pos (n : nat) : (0 < n)%nat -> 0 < Py.qnat n.
Proof.
  intros H. unfold Py.qnat. change 0 with (inject_Z 0).
  rewrite <- Zlt_Qlt. lia.
Qed.

Lemma context_adjusted_ge_base (s : situation) (info : tactic_info) :
  0.4 <= context_adjusted s info.
Proof.
  unfold context_adjusted.
  destruct (0 <? List.length (info_contexts info))%nat eqn:Hlen; [| lra].
  apply Nat.ltb_lt in Hlen.
  set (score := Py.qnat _ / Py.qnat _).
  assert (Hscore : 0 <= score).
  { unfold score. apply Qle_shift_div_l; [now apply qnat_pos |].
    rewrite Qmult_0_l. apply qnat_nonneg. }
  assert (Hprob : 0.4 <= 0.4 + score * 0.6) by nra.
  destruct (Py.Qgeb _ _); [| exact Hprob].
  destruct (mem_str _ _); [boost |].
  destruct (mem_str _ _); [boost | exact Hprob].
Qed.

Lemma batter_adjusted_ge_base (s : situation) (tac : string) (p : Q) :
  0.4 <= p -> 0.4 <= batter_adjusted s tac p.
Proof.
  intros Hp. unfold batter_adjusted. destruct (batter s); [| exact Hp].
  destruct (_ && _); [boost |]. destruct (_ && _); [boost | exact Hp].
Qed.

Lemma pitcher_adjusted_ge_base (s : situation) (tac : string) (p : Q) :
  0.4 <= p -> 0.4 <= pitcher_adjusted s tac p.
Proof.
  intros Hp. unfold pitcher_adjusted. destruct (pitcher s); [| exact Hp].
  destruct (_ && _); [boost |]. destruct (_ && _); [boost | exact Hp].
Qed.

Lemma matchup_adjusted_ge_base (s : situation) (tac : string) (p : Q) :
  0.4 <= p -> 0.4 <= matchup_adjusted s tac p.
Proof.
  intros Hp. unfold matchup_adjusted. destruct (matchup s); [| exact Hp].
  destruct (_ <? _)%Z; [| exact Hp].
  destruct (Py.Qgtb _ _).
  - destruct (mem_str _ _); [boost | exact Hp].
  - destruct (Py.Qltb _ _); [| exact Hp].
    destruct (mem_str _ _); [boost | exact Hp].
Qed.

(** Every stored candidate probability is at least the base 0.4. *)
Lemma tactic_probability_ge_base (s : situation) (info : tactic_info) :
  0.4 <= tactic_probability s info.
Proof.
  unfold tactic_probability.
  pose proof (context_adjusted_ge_base s info) as H.
  destruct (Py.Qgeb _ _); [| exact H].
  now apply matchup_adjusted_ge_base, pitcher_adjusted_ge_base,
    batter_adjusted_ge_base.
Qed.

Lemma candidate_fold_Forall (s : situation) (l : list tactic_info)
    (acc : dict Q) :
  Forall (fun kv => 0.4 <= snd kv) acc ->
  Forall (fun kv => 0.4 <= snd kv)
    (fold_left (fun probabilities info =>
                  Dict.set probabilities (tactic info)
                    (tactic_probability s info)) l acc).
Proof.
  revert acc. induction l as [| info l IH]; intros acc Hacc; simpl.
  - exact Hacc.
  - apply IH, dict_set_Forall; [| exact Hacc].
    intros k'. simpl. apply tactic_probability_ge_base.
Qed.

Lemma candidate_fold_not_nil (s : situation) (l : list tactic_info)
    (acc : dict Q) :
  acc <> [] ->
  fold_left (fun probabilities info =>
               Dict.set probabilities (tactic info)
                 (tactic_probability s info)) l acc <> [].
Proof.
  revert acc. induction l as [| info l IH]; intros acc Hacc; simpl.
  - exact Hacc.
  - apply IH, dict_set_not_nil.
Qed.

Lemma candidate_probabilities_ge_base (s : situation)
    (l : list tactic_info) :
  Forall (fun kv => 0.4 <= snd kv) (candidate_probabilities s l).
Proof. apply candidate_fold_Forall. constructor. Qed.

Lemma candidate_probabilities_not_nil (s : situation)
    (l : list tactic_info) :
  l <> [] -> candidate_probabilities s l <> [].
Proof.
  destruct l as [| info l]; [congruence |]. intros _.
  unfold candidate_probabilities. simpl.
  apply candidate_fold_not_nil. discriminate.
Qed.

(** The shape of the labeler's answer on a mapped action. *)
Lemma labeler_mapped (s : situation) :
  In (result s) taxonomy_actions ->
  exists possible_tactics best,
    Dict.get ACTION_TO_TACTIC (result s) = Some possible_tactics
    /\ candidate_probabilities s possible_tactics <> []
    /\ max_item (candidate_probabilities s possible_tactics) = inr best
    /\ calculate_tactical_probabilities s
       = inr {| probabilities := candidate_probabilities s possible_tactics;
                primary_tactic := fst best |}.
Proof.
  intros Hin. apply action_to_tactic_keys, dict_get_some in Hin.
  destruct Hin as [l Hl]. pose proof (action_to_tactic_nonempty _ _ Hl) as Hne.
  pose proof (candidate_probabilities_not_nil s l Hne) as Hc.
  unfold calculate_tactical_probabilities. rewrite Hl.
  destruct (candidate_probabilities s l) as [| first rest] eqn:E;
    [congruence |].
  exists l, (fold_left better rest first).
  split; [reflexivity |]. split; [rewrite E; exact Hc |].
  rewrite E. split; reflexivity.
Qed.

(** C2. For every outcome action that no tactic of the taxonomy lists
    (equivalently, that is not a key of [ACTION_TO_TACTIC]), the labeler
    returns exactly the mapping [{'contact_hitting': 100.0}] and the
    primary tactic ['contact_hitting']. *)
Theorem C2_unmapped_action_fallback (s : situation) :
  ~ In (result s) taxonomy_actions ->
  Dict.get ACTION_TO_TACTIC (result s) = None
  /\ calculate_tactical_probabilities s
     = inr {| probabilities := [("contact_hitting", 100.0)];
              primary_tactic := "contact_hitting" |}.
Proof.
  intros Hnot.
  assert (Hget : Dict.get ACTION_TO_TACTIC (result s) = None).
  { apply dict_get_none. intros Hin. now apply Hnot, action_to_tactic_keys. }
  split; [exact Hget |].
  unfold calculate_tactical_probabilities. now rewrite Hget.
Qed.

(** C8. For every Situation Record whose result is a mapped action, the
    labeler returns a mapping, and no tactic in it has a final
    probability below 0.05. *)
Theorem C8_no_probability_below_floor (s : situation) :
  In (result s) taxonomy_actions ->
  exists r,
    calculate_tactical_probabilities s = inr r
    /\ forall tac p, In (tac, p) (probabilities r) -> ~ p < 0.05.
Proof.
  intros Hin. destruct (labeler_mapped s Hin) as (l & best & _ & _ & _ & Hr).
  eexists. split; [exact Hr |]. simpl. intros tac p Hp.
  pose proof (candidate_probabilities_ge_base s l) as Hall.
  rewrite Forall_forall in Hall. specialize (Hall _ Hp). simpl in Hall.
  lra.
Qed.

(** C10. For every Situation Record whose result has at least one
    mapped tactic, the labeler returns a non-empty mapping in which
    every candidate's probability is at least 0.4; the mapping is the
    one built by the candidate loop, which is never empty, so the
    empty-candidates fallback of the mapped branch is not taken. *)
Theorem C10_candidates_at_least_base (s : situation) :
  In (result s) taxonomy_actions ->
  exists possible_tactics r,
    Dict.get ACTION_TO_TACTIC (result s) = Some possible_tactics
    /\ calculate_tactical_probabilities s = inr r
    /\ probabilities r <> []
    /\ Forall (fun kv => 0.4 <= snd kv) (probabilities r)
    /\ candidate_probabilities s possible_tactics <> []
    /\ probabilities r = candidate_probabilities s possible_tactics.
Proof.
  intros Hin. destruct (labeler_mapped s Hin) as (l & best & Hl & Hne & _ & Hr).
  exists l. eexists. split; [exact Hl |]. split; [exact Hr |]. simpl.
  repeat split; try assumption.
  apply candidate_probabilities_ge_base.
Qed.

(** ** The classifier wrapper *)

Import Pandas ModelTraining Predictor Examples.

Lemma bind_inl {A B : Type} (c : Py.result A) (k : A -> Py.result B)
    (e : Py.exn) :
  Py.bind c k = inl e -> c = inl e \/ exists a, c = inr a /\ k a = inl e.
Proof.
  destruct c as [e' | a]; simpl; intros Hc.
  - left. now injection Hc as ->.
  - right. now exists a.
Qed.

Lemma bind_inr {A B : Type} (c : Py.result A) (k : A -> Py.result B)
    (b : B) :
  Py.bind c k = inr b -> exists a, c = inr a /\ k a = inr b.
Proof.
  destruct c as [e' | a]; simpl; intros Hc; [discriminate |]. now exists a.
Qed.

Lemma mapM_inl {A B : Type} (P : Py.exn -> Prop) (f : A -> Py.result B)
    (l : list A) (e : Py.exn) :
  (forall a e', f a = inl e' -> P e') -> Py.mapM f l = inl e -> P e.
Proof.
  intros Hf. induction l as [| a l IH]; simpl; [discriminate |].
  destruct (f a) as [e' | b] eqn:Ea; simpl.
  - intros [= <-]. now apply (Hf a).
  - destruct (Py.mapM f l) as [e' | bs]; simpl; [| discriminate].
    intros [= <-]. now apply IH.
Qed.

Section ClassifierFacts.
Context {classifier : Type} `{Classifier classifier} `{NumericParser}.
Implicit Types (self : TacticalPredictor classifier)
  (game_state : DataFrame).

Lemma column_inl {A : Type} (df : frame A) (col : string) (e : Py.exn) :
  column df col = inl e -> e = Py.KeyError.
Proof.
  unfold column. destruct (Dict.get _ _); [discriminate |]. now intros [= <-].
Qed.

Lemma iloc0_inl {A : Type} (series : list A) (e : Py.exn) :
  iloc0 series = inl e -> e = Py.IndexError.
Proof. destruct series; simpl; [now intros [= <-] | discriminate]. Qed.

Lemma runners_get_inl (key : string) (d x : cell) (e : Py.exn) :
  runners_get key d x = inl e -> e = Py.AttributeError.
Proof. destruct x; simpl; try discriminate; now intros [= <-]. Qed.

Lemma process_runners_column_inl (features : DataFrame) (e : Py.exn) :
  process_runners_column features = inl e -> Py.raised_by_sources e.
Proof.
  unfold process_runners_column.
  destruct (has_column features "runners"); [| discriminate].
  intros Hb. apply bind_inl in Hb as [Hc | (runners & _ & Hb)].
  { apply column_inl in Hc. now subst. }
  apply bind_inl in Hb as [Hc | (first & _ & Hb)].
  { apply iloc0_inl in Hc. now subst. }
  apply bind_inl in Hb as [Hc | (? & _ & Hb)]; [| discriminate].
  destruct first; try discriminate.
  apply bind_inl in Hc as [Hc | (? & _ & Hc)].
  { revert Hc. apply mapM_inl. intros a e' Ha.
    apply runners_get_inl in Ha. now subst. }
  apply bind_inl in Hc as [Hc | (? & _ & Hc)]; [| discriminate].
  revert Hc. apply mapM_inl. intros a e' Ha.
  apply runners_get_inl in Ha. now subst.
Qed.

Lemma numeric_features_inl game_state (e : Py.exn) :
  numeric_features game_state = inl e -> Py.raised_by_sources e.
Proof.
  unfold numeric_features. intros Hb.
  apply bind_inl in Hb as [Hc | (? & _ & Hb)]; [| discriminate].
  now apply process_runners_column_inl in Hc.
Qed.

Lemma select_inl {A : Type} (df : frame A) (cols : list string)
    (e : Py.exn) :
  select df cols = inl e -> e = Py.KeyError.
Proof.
  unfold select. intros Hb.
  apply bind_inl in Hb as [Hc | (? & _ & Hb)]; [| discriminate].
  revert Hc. apply (mapM_inl (fun e => e = Py.KeyError)).
  intros a e'. unfold select_label.
  destruct (filter _ _); [now intros [= <-] | discriminate].
Qed.

Lemma prepare_features_inl self game_state (e : Py.exn) :
  prepare_features self game_state = inl e -> Py.raised_by_sources e.
Proof.
  unfold prepare_features. intros Hb.
  apply bind_inl in Hb as [Hc | (features & _ & Hb)].
  { now apply numeric_features_inl in Hc. }
  destruct (feature_names self); [| discriminate].
  apply select_inl in Hb. now subst.
Qed.

(** Without a model, [predict_proba] raises: the error of the feature
    preparation if that fails, [AttributeError] otherwise. *)
Lemma predict_proba_without_model self game_state :
  model self = None ->
  predict_proba self game_state
  = match prepare_features self game_state with
    | inl e => inl e
    | inr _ => inl Py.AttributeError
    end.
Proof.
  intros Hm. unfold predict_proba. rewrite Hm.
  now destruct (prepare_features self game_state).
Qed.

(** C7 (amended). Calling [predict_proba], and hence
    [analyze_situation], before any model has been trained or loaded
    fails; the exception is never [ModelNotLoadedError]: it is
    [AttributeError], raised when the absent model is used, whenever
    the feature preparation that runs first succeeds, and the error of
    that preparation otherwise. *)
Theorem C7_untrained_predictor_fails self game_state :
  model self = None ->
  (exists e,
      predict_proba self game_state = inl e
      /\ analyze_situation self game_state = inl e
      /\ Py.raised_by_sources e)
  /\ (forall features,
        prepare_features self game_state = inr features ->
        predict_proba self game_state = inl Py.AttributeError
        /\ analyze_situation self game_state = inl Py.AttributeError).
Proof.
  intros Hm. pose proof (predict_proba_without_model self game_state Hm) as Hp.
  split.
  - destruct (prepare_features self game_state) as [e | features] eqn:Ef.
    + exists e. unfold analyze_situation. rewrite Hp.
      repeat split. now apply prepare_features_inl in Ef.
    + exists Py.AttributeError. unfold analyze_situation. rewrite Hp.
      repeat split. discriminate.
  - intros features Ef. rewrite Ef in Hp. unfold analyze_situation.
    rewrite Hp. split; reflexivity.
Qed.

Lemma dict_get_set_same {V : Type} (d : dict V) (k : string) (v : V) :
  Dict.get (Dict.set d k v) k = Some v.
Proof.
  induction d as [| [k' v'] d IH]; simpl.
  - now rewrite String.eqb_refl.
  - destruct (String.eqb k k') eqn:E; simpl; rewrite E; auto.
Qed.

Lemma foldM_ext {A B : Type} (f g : B -> A -> Py.result B) (l : list A)
    (b : B) :
  (forall b a, f b a = g b a) -> Py.foldM f l b = Py.foldM g l b.
Proof.
  intros Hfg. revert b. induction l as [| a l IH]; intros b; simpl.
  - reflexivity.
  - rewrite Hfg. destruct (g b a); simpl; [reflexivity | apply IH].
Qed.

Lemma record_probability_ext (p q : TacticalPredictor classifier)
    (acc : dict (dict Q)) (tp : string * Q) :
  tactics_to_category p = tactics_to_category q ->
  record_probability p acc tp = record_probability q acc tp.
Proof.
  intros Ht. destruct tp as [tac prob]. unfold record_probability.
  now rewrite Ht.
Qed.

(** [predict_proba] reads three attributes of the predictor only. *)
Lemma predict_proba_ext (p q : TacticalPredictor classifier) game_state :
  model p = model q ->
  feature_names p = feature_names q ->
  tactics_to_category p = tactics_to_category q ->
  predict_proba p game_state = predict_proba q game_state.
Proof.
  intros Hm Hf Ht. unfold predict_proba, prepare_features.
  rewrite Hm, Hf.
  destruct (Py.bind (numeric_features game_state) _) as [e | prepared];
    simpl; [reflexivity |].
  destruct (model q) as [m |]; [| reflexivity].
  destruct (sk_predict_proba m prepared) as [e | all]; [reflexivity |].
  simpl. destruct (iloc0 all) as [e | probabilities]; [reflexivity |].
  simpl. unfold group_by_category.
  rewrite (foldM_ext (record_probability p) (record_probability q));
    [reflexivity |].
  intros b a. now apply record_probability_ext.
Qed.

(** C5. For a predictor holding a trained model, [save_model]
    followed by [load_model] (into the same or another predictor
    object) succeeds and yields a predictor whose [predict_proba]
    output is identical on every Situation Record. *)
Theorem C5_save_load_round_trip self (other : TacticalPredictor classifier)
    (m : classifier) (filename : string) (fs : filesystem classifier) :
  model self = Some m ->
  tactics_to_category other = tactics_to_category self ->
  exists loaded,
    load_model other filename (save_model self filename fs)
    = (loaded, inr tt)
    /\ model loaded = model self
    /\ feature_names loaded = feature_names self
    /\ forall game_state,
         predict_proba loaded game_state = predict_proba self game_state.
Proof.
  intros Hm Ht. unfold load_model, save_model.
  rewrite dict_get_set_same. cbn [md_model md_feature_names model].
  destruct (model self) as [m' |] eqn:Em; [| discriminate].
  eexists. split; [reflexivity |].
  cbn [model feature_names]. split; [reflexivity |].
  split; [reflexivity |].
  intros game_state. apply predict_proba_ext; cbn; congruence.
Qed.

End ClassifierFacts.

(** C9 (the code departs from the claim). [_get_specific_actions]
    returns, for each tactic of the taxonomy, the whole taxonomy entry
    (its actions together with its context thresholds) and not the list
    of its actions; the recommendations built by [analyze_situation] on
    the eighth-inning record carry those entries. *)
Theorem C9_specific_actions_is_whole_entry (ctx : context) :
  map (fun e => _get_specific_actions (fst e) ctx) taxonomy_entries
  = map (fun e => TacticEntry (snd e)) taxonomy_entries
  /\ _get_specific_actions "power_hitting" ctx
     <> ActionList ["Home Run"; "Double"; "Triple"]
  /\ (exists a,
        analyze_situation Examples.trained Examples.eighth_inning = inr a
        /\ map (fun r => (rec_tactic r, specific_actions r))
             (recommendations a)
           = [ ("power_hitting",
                 TacticEntry
                   {| actions := ["Home Run"; "Double"; "Triple"];
                      contexts := [ ("min_runners", TInt 1);
                                    ("scoring_position", TBool true);
                                    ("min_pressure", TFloat 1.5) ] |});
               ("contact_hitting",
                 TacticEntry
                   {| actions := ["Single"; "Ground Ball"];
                      contexts := [ ("max_pressure", TFloat 1.5);
                                    ("max_outs", TInt 2) ] |});
               ("strikeout_pitching",
                 TacticEntry
                   {| actions := ["Strikeout"; "Strikeout Double Play"];
                      contexts := [ ("min_strikes", TInt 2) ] |}) ]).
Proof.
  split; [reflexivity |]. split; [discriminate |].
  eexists. split; [vm_compute; reflexivity | reflexivity].
Qed.

(** ** The inference enhancer *)

Lemma dict_get_map_values {V W : Type} (f : string -> V -> W) (d : dict V)
    (k : string) (v : V) :
  Dict.get d k = Some v ->
  Dict.get (map (fun kv => (fst kv, f (fst kv) (snd kv))) d) k
  = Some (f k v).
Proof.
  induction d as [| [k' v'] d IH]; simpl; [discriminate |].
  destruct (String.eqb_spec k k') as [-> | Hne]; [| exact IH].
  now intros [= ->].
Qed.

(** Every entry of the classifier output is replaced by its adjusted
    value. *)
Lemma adjust_probabilities_lookup (base_probs : dict (dict Q))
    (ctx : context) (historical : historical_patterns)
    (momentum : option momentum_analysis) (category tac : string)
    (tactics : dict Q) (prob : Q) :
  Dict.get base_probs category = Some tactics ->
  Dict.get tactics tac = Some prob ->
  exists tactics',
    Dict.get (_adjust_probabilities base_probs ctx historical momentum)
      category = Some tactics'
    /\ Dict.get tactics' tac
       = Some (adjust_one historical momentum category tac prob).
Proof.
  intros Hc Ht. eexists. split.
  - unfold _adjust_probabilities.
    apply (dict_get_map_values
             (fun c ts =>
                map (fun tp => (fst tp,
                                adjust_one historical momentum c (fst tp)
                                  (snd tp))) ts)).
    exact Hc.
  - apply (dict_get_map_values
             (fun t p => adjust_one historical momentum category t p)).
    exact Ht.
Qed.

(** C1 (amended). For every tactic probability in the classifier
    output, when momentum data and a historical corpus are available,
    the final adjusted probability is the documented one,
    [base * (1 + (rate - 50)/100) * (1 + momentum_factor)] clamped to
    [0,100] and rounded to 2 decimals, whenever the tactic's historical
    success rate is positive; when that rate is 0 the historical factor
    is left out and the result is [base * (1 + momentum_factor)],
    clamped and rounded. *)
Theorem C1_adjusted_probability (base_probs : dict (dict Q))
    (ctx : context) (historical : historical_patterns)
    (m : momentum_analysis) (category tac : string) (tactics : dict Q)
    (base : Q) :
  Dict.get base_probs category = Some tactics ->
  Dict.get tactics tac = Some base ->
  let rate := hist_success_of historical category tac in
  let momentum_factor := _calculate_momentum_factor m tac in
  exists tactics' final,
    Dict.get (_adjust_probabilities base_probs ctx historical (Some m))
      category = Some tactics'
    /\ Dict.get tactics' tac = Some final
    /\ (0 < rate ->
        final = documented_final_probability base rate momentum_factor)
    /\ (rate <= 0 ->
        final = Py.round2
                  (Py.min (Py.max (base * (1 + momentum_factor)) 0) 100)).
Proof.
  intros Hc Ht rate momentum_factor.
  destruct (adjust_probabilities_lookup base_probs ctx historical (Some m)
              category tac tactics base Hc Ht) as (tactics' & Hc' & Ht').
  exists tactics'. eexists. split; [exact Hc' |]. split; [exact Ht' |].
  unfold adjust_one, documented_final_probability.
  fold rate. fold momentum_factor. split; intros Hr.
  - apply Qgtb_true in Hr. now rewrite Hr.
  - apply Qltb_false in Hr. unfold Py.Qgtb. now rewrite Hr.
Qed.

(** C1 (as stated) fails. With the corpus of [Examples.analyzer] and the
    five recent plays of [Examples.four_hits_one_out], the historical
    success rate of [power_hitting] is 0 and its momentum factor is
    0.09: the code turns the base probability 50 into 54.5, the
    documented formula gives 27.25. *)
Lemma C1_counterexample :
  exists e rate momentum_factor tactics final,
    _enhance_predictions Examples.analyzer
      {| tactical_probabilities := Examples.classifier_output;
         top_tactics := [];
         context_analysis := Examples.some_context;
         recommendations := [] |}
      Examples.four_hits_one_out = inr e
    /\ momentum e <> None
    /\ historical_data Examples.analyzer <> None
    /\ rate = hist_success_of (historical e) "OFFENSIVE" "power_hitting"
    /\ option_map (fun m => _calculate_momentum_factor m "power_hitting")
         (momentum e) = Some momentum_factor
    /\ Dict.get (enhanced_probabilities e) "OFFENSIVE" = Some tactics
    /\ Dict.get tactics "power_hitting" = Some final
    /\ final == 54.5
    /\ documented_final_probability 50 rate momentum_factor == 27.25
    /\ ~ final == documented_final_probability 50 rate momentum_factor.
Proof.
  do 5 eexists.
  split; [vm_compute; reflexivity |].
  split; [discriminate |]. split; [discriminate |].
  split; [reflexivity |]. split; [reflexivity |].
  split; [reflexivity |]. split; [reflexivity |].
  split; [vm_compute; reflexivity |].
  split; [vm_compute; reflexivity |].
  vm_compute. discriminate.
Qed.

(** ** Schema reconciliation *)

Section Reconciliation.
Context {A : Type}.
Implicit Types (d : dict (list A)) (df : frame A).

Lemma dict_get_set {V : Type} (d : dict V) (k k' : string) (v : V) :
  Dict.get (Dict.set d k v) k'
  = if String.eqb k' k then Some v else Dict.get d k'.
Proof.
  induction d as [| [k0 v0] d IH]; simpl.
  - reflexivity.
  - destruct (String.eqb_spec k k0) as [-> | Hne]; simpl.
    + now destruct (String.eqb k' k0).
    + destruct (String.eqb_spec k' k0) as [-> | Hne'].
      * destruct (String.eqb_spec k0 k); [congruence | reflexivity].
      * exact IH.
Qed.

Lemma dict_set_keys_new {V : Type} (d : dict V) (k : string) (v : V) :
  ~ In k (Dict.keys d) -> Dict.keys (Dict.set d k v) = app (Dict.keys d) [k].
Proof.
  induction d as [| [k0 v0] d IH]; simpl; [reflexivity |].
  intros Hn. destruct (String.eqb_spec k k0) as [-> | Hne].
  - exfalso. apply Hn. now left.
  - simpl. f_equal. apply IH. intros Hin. apply Hn. now right.
Qed.

Lemma dict_set_keys_old {V : Type} (d : dict V) (k : string) (v : V) :
  In k (Dict.keys d) -> Dict.keys (Dict.set d k v) = Dict.keys d.
Proof.
  induction d as [| [k0 v0] d IH]; simpl; [tauto |].
  intros Hin. destruct (String.eqb_spec k k0) as [-> | Hne].
  - reflexivity.
  - simpl. f_equal. apply IH. destruct Hin; congruence.
Qed.

Lemma has_column_In df (col : string) :
  has_column df col = true <-> In col (labels df).
Proof.
  unfold has_column. rewrite existsb_exists. split.
  - intros [x [Hin E]]. apply String.eqb_eq in E. now subst.
  - intros Hin. exists col. split; [exact Hin | apply String.eqb_refl].
Qed.

Lemma has_column_false df (col : string) :
  has_column df col = false <-> ~ In col (labels df).
Proof.
  rewrite <- has_column_In. now destruct (has_column df col).
Qed.

(** In a frame whose labels are distinct, selecting a present label
    yields that one column. *)
Lemma filter_label_unique d (col : string) (series : list A) :
  NoDup (Dict.keys d) -> Dict.get d col = Some series ->
  filter (fun c => String.eqb (fst c) col) d = [(col, series)].
Proof.
  induction d as [| [k v] d IH]; simpl; [discriminate |].
  intros Hnd Hget. inversion Hnd as [| ? ? Hk Hd]; subst.
  rewrite (String.eqb_sym k col).
  destruct (String.eqb_spec col k) as [-> | Hne].
  - injection Hget as ->. f_equal.
    clear IH Hnd Hd. induction d as [| [k' v'] d IH]; [reflexivity |].
    simpl. destruct (String.eqb_spec k' k) as [-> | Hne].
    + exfalso. apply Hk. now left.
    + apply IH. intros Hin. apply Hk. now right.
  - now apply IH.
Qed.

Lemma select_label_unique df (col : string) (series : list A) :
  NoDup (labels df) -> Dict.get (columns df) col = Some series ->
  select_label df col = inr [(col, series)].
Proof.
  intros Hnd Hget. unfold select_label.
  now rewrite (filter_label_unique _ _ _ Hnd Hget).
Qed.

Lemma select_all df (cols : list string) (g : string -> list A) :
  NoDup (labels df) ->
  (forall col, In col cols -> Dict.get (columns df) col = Some (g col)) ->
  select df cols
  = inr {| nrows := nrows df; columns := map (fun col => (col, g col)) cols |}.
Proof.
  intros Hnd Hg. unfold select.
  assert (E : Py.mapM (select_label df) cols
              = inr (map (fun col => [(col, g col)]) cols)).
  { induction cols as [| col cols IH]; simpl; [reflexivity |].
    rewrite (select_label_unique df col (g col) Hnd);
      [| apply Hg; now left].
    simpl. rewrite IH; [reflexivity |]. intros c Hc. apply Hg. now right. }
  rewrite E. simpl. do 2 f_equal.
  clear. induction cols as [| col cols IH]; simpl; congruence.
Qed.

Lemma dict_get_tabulate (cols : list string) (g : string -> list A)
    (col : string) :
  In col cols -> Dict.get (map (fun c => (c, g c)) cols) col = Some (g col).
Proof.
  induction cols as [| c cols IH]; simpl; [tauto |].
  intros Hin. destruct (String.eqb_spec col c) as [-> | Hne];
    [reflexivity |].
  apply IH. destruct Hin; congruence.
Qed.

End Reconciliation.

(** The frame after the zero-fill loop: distinct labels are kept
    distinct, the index is unchanged, present columns are untouched and
    each missing stored name holds zeros. *)
Lemma zero_fill_loop (names : list string) (features : frame Q) :
  NoDup (labels features) ->
  let filled := fold_left ModelTraining.zero_fill names features in
  NoDup (labels filled)
  /\ nrows filled = nrows features
  /\ (forall col series, Dict.get (columns features) col = Some series ->
        Dict.get (columns filled) col = Some series)
  /\ (forall col, In col names ->
        Dict.get (columns features) col = None ->
        Dict.get (columns filled) col = Some (repeat 0 (nrows features))).
Proof.
  revert features. induction names as [| name names IH]; intros features Hnd.
  - simpl. repeat split; try assumption; [auto | intros col []].
  - cbn [fold_left]. set (f1 := ModelTraining.zero_fill features name).
    assert (H1 : NoDup (labels f1) /\ nrows f1 = nrows features
                 /\ (forall col series,
                       Dict.get (columns features) col = Some series ->
                       Dict.get (columns f1) col = Some series)
                 /\ (Dict.get (columns features) name = None ->
                     Dict.get (columns f1) name
                     = Some (repeat 0 (nrows features)))).
    { unfold f1, ModelTraining.zero_fill.
      destruct (has_column features name) eqn:Eh.
      - repeat split; try assumption; [auto |].
        intros Hn. apply has_column_In in Eh.
        apply dict_get_none in Hn. contradiction.
      - apply has_column_false in Eh. unfold assign_scalar, assign.
        unfold labels in *. cbn [nrows columns]. repeat split.
        + change (map fst (Dict.set (columns features) name
                             (repeat 0 (nrows features))))
            with (Dict.keys (Dict.set (columns features) name
                               (repeat 0 (nrows features)))).
          rewrite dict_set_keys_new by exact Eh.
          apply NoDup_app; [exact Hnd | repeat constructor; intros [] |].
          intros x Hx [<- | []]. contradiction.
        + intros col series Hg. rewrite dict_get_set.
          destruct (String.eqb_spec col name) as [-> | _]; [| exact Hg].
          exfalso. apply Eh. apply dict_get_in in Hg.
          now apply (in_map fst) in Hg.
        + intros _. rewrite dict_get_set. now rewrite String.eqb_refl. }
    destruct H1 as (Hnd1 & Hn1 & Hkeep1 & Hnew1).
    destruct (IH f1 Hnd1) as (Hnd2 & Hn2 & Hkeep2 & Hnew2).
    repeat split.
    + exact Hnd2.
    + now rewrite Hn2.
    + intros col series Hg. now apply Hkeep2, Hkeep1.
    + intros col Hin Hnone.
      destruct (String.eqb_spec col name) as [-> | Hne].
      * now apply Hkeep2, Hnew1.
      * destruct Hin as [-> | Hin]; [congruence |].
        destruct (Dict.get (columns f1) col) as [series |] eqn:E1.
        -- (* only [name] was added *)
           exfalso. revert E1. unfold f1, ModelTraining.zero_fill.
           destruct (has_column features name); [congruence |].
           unfold assign_scalar, assign. cbn [columns].
           rewrite dict_get_set.
           destruct (String.eqb_spec col name); congruence.
        -- rewrite <- Hn1. now apply Hnew2.
Qed.

(** Every tactic of the taxonomy is mapped by [__init__] to one of the
    three categories. *)
Lemma taxonomy_tactic_category (tac : string) :
  Dict.mem tac taxonomy_entries = true ->
  exists category,
    Dict.get _initialize_tactics_mapping tac = Some category
    /\ In category (Dict.keys TACTICAL_CATEGORIES).
Proof.
  unfold Dict.mem. intros Hmem.
  destruct (Dict.get taxonomy_entries tac) as [entry |] eqn:E;
    [| discriminate].
  apply dict_get_in in E. apply (in_map fst) in E. clear Hmem. simpl in E.
  repeat (destruct E as [<- | E];
          [eexists; split; [vm_compute; reflexivity | simpl; tauto] |]).
  destruct E.
Qed.

Lemma same_labels_refl (l : list string) : same_labels l l = true.
Proof.
  induction l as [| x l IH]; simpl; [reflexivity |].
  now rewrite String.eqb_refl.
Qed.

Section ReconciliationFacts.
Context {classifier : Type} `{Classifier classifier} `{NumericParser}.
Implicit Types (self : TacticalPredictor classifier)
  (game_state : DataFrame).

(** The grouping loop does not raise when every class of the model is
    a tactic of the taxonomy. *)
Lemma group_by_category_total self (classes : list string)
    (probs : list Q) :
  tactics_to_category self = _initialize_tactics_mapping ->
  Forall (fun c => Dict.mem c taxonomy_entries = true) classes ->
  exists out, group_by_category self classes probs = inr out.
Proof.
  intros Ht Hcl. unfold group_by_category.
  set (start := map (fun category : string => (category, @nil (string * Q)))
                  (Dict.keys TACTICAL_CATEGORIES)).
  assert (Hfold : forall l (acc : dict (dict Q)),
             Forall (fun tp => Dict.mem (fst tp) taxonomy_entries = true) l ->
             Dict.keys acc = Dict.keys TACTICAL_CATEGORIES ->
             exists acc', Py.foldM (record_probability self) l acc
                          = inr acc').
  { induction l as [| [tac prob] l IH]; intros acc Hl Hk; simpl.
    - now exists acc.
    - inversion Hl as [| ? ? Htac Hl']; subst. simpl in Htac.
      destruct (taxonomy_tactic_category tac Htac) as (cat & Hcat & Hin).
      rewrite Ht, Hcat.
      destruct (Py.Qgeb prob 0.05); simpl; [| now apply IH].
      rewrite <- Hk in Hin. destruct (dict_get_some acc cat Hin) as [inner Hi].
      rewrite Hi. simpl. apply IH; [exact Hl' |].
      rewrite dict_set_keys_old; assumption. }
  destruct (Hfold (combine classes probs) start) as [acc' Hacc'].
  - apply Forall_forall. intros [tac prob] Hin. simpl.
    apply in_combine_l in Hin. rewrite Forall_forall in Hcl.
    now apply Hcl.
  - reflexivity.
  - rewrite Hacc'. simpl. eexists. reflexivity.
Qed.

(** C4. [predict_proba] on a Situation Record that lacks columns
    present at training time does not fail: for a predictor holding a
    model and the feature names it was fitted with, and a record with
    at least one row whose prepared columns are distinct, the features
    handed to the model carry exactly the stored names in the stored
    order (extra columns are dropped), each stored name absent from
    the record is a column of zeros, each present one keeps its
    values, and [predict_proba] returns a result. *)
Theorem C4_schema_reconciliation self (m : classifier)
    (names : list string) game_state (prepared : frame Q) :
  model self = Some m ->
  feature_names self = Some names ->
  feature_names_in_ m = names ->
  names <> [] ->
  tactics_to_category self = _initialize_tactics_mapping ->
  Forall (fun c => Dict.mem c taxonomy_entries = true) (classes_ m) ->
  numeric_features game_state = inr prepared ->
  NoDup (labels prepared) ->
  (0 < nrows prepared)%nat ->
  exists features out,
    prepare_features self game_state = inr features
    /\ labels features = names
    /\ nrows features = nrows prepared
    /\ (forall col, In col names ->
          column features col
          = inr (match Dict.get (columns prepared) col with
                 | Some series => series
                 | None => repeat 0 (nrows prepared)
                 end))
    /\ predict_proba self game_state = inr out.
Proof.
  intros Hm Hf Hfit Hne Ht Hcl Hnum Hnd Hrows.
  destruct (zero_fill_loop names prepared Hnd)
    as (Hnd' & Hn' & Hkeep & Hnew).
  set (filled := fold_left zero_fill names prepared) in *.
  set (g := fun col =>
              match Dict.get (columns prepared) col with
              | Some series => series
              | None => repeat 0 (nrows prepared)
              end).
  assert (Hg : forall col, In col names ->
                 Dict.get (columns filled) col = Some (g col)).
  { intros col Hin. unfold g.
    destruct (Dict.get (columns prepared) col) as [series |] eqn:E.
    - now apply Hkeep.
    - now apply Hnew. }
  pose proof (select_all filled names g Hnd' Hg) as Hsel.
  set (features := {| nrows := nrows filled;
                      columns := map (fun col => (col, g col)) names |})
    in Hsel.
  assert (Hprep : prepare_features self game_state = inr features).
  { unfold prepare_features. rewrite Hnum. simpl. rewrite Hf. exact Hsel. }
  assert (Hlab : labels features = names).
  { unfold labels, features. cbn [columns]. rewrite map_map. simpl.
    apply map_id. }
  assert (Hpred : exists out, predict_proba self game_state = inr out).
  { unfold predict_proba. rewrite Hprep. simpl. rewrite Hm.
    unfold sk_predict_proba.
    assert (Hempty : empty features = false).
    { unfold empty, features. cbn [nrows columns]. rewrite Hn'.
      rewrite length_map.
      destruct (nrows prepared); [lia |]. destruct names; [congruence |].
      reflexivity. }
    rewrite Hempty, Hlab, Hfit, same_labels_refl.
    unfold rows. cbn [nrows features]. rewrite Hn'.
    destruct (nrows prepared) as [| n]; [lia |]. simpl.
    apply group_by_category_total; assumption. }
  destruct Hpred as [out Hout].
  exists features, out. split; [exact Hprep |]. split; [exact Hlab |].
  split; [exact Hn' |]. split; [| exact Hout].
  intros col Hin. unfold column, features. cbn [columns].
  now rewrite (dict_get_tabulate names g col Hin).
Qed.

(** A record without a ['runners'] column always gets through the
    first part of the feature preparation. *)
Lemma numeric_features_total game_state :
  has_column game_state "runners" = false ->
  exists prepared,
    numeric_features game_state = inr prepared
    /\ nrows prepared = nrows game_state.
Proof.
  intros Hr. unfold numeric_features, process_runners_column.
  set (dropped := drop (drop game_state _) _).
  assert (Hd : has_column dropped "runners" = false).
  { apply has_column_false. intros Hin. apply has_column_false in Hr.
    apply Hr. unfold dropped, labels, drop in Hin. cbn [columns] in Hin.
    apply in_map_iff in Hin as [c [Hc Hin]].
    apply filter_In in Hin as [Hin _]. apply filter_In in Hin as [Hin _].
    unfold labels. rewrite <- Hc. now apply in_map. }
  rewrite Hd. simpl. eexists. split; [reflexivity |].
  cbn [all_numeric nrows].
  repeat match goal with
         | |- context [if ?b then _ else _] => destruct b
         end;
    unfold get_dummies;
    repeat match goal with
           | |- context [Dict.get ?d ?k] => destruct (Dict.get d k)
           end; reflexivity.
Qed.

End ReconciliationFacts.

(** ** Momentum *)

Lemma py_sum_shift (l : list Q) (a : Q) :
  fold_left Qplus l a == a + Py.sum l.
Proof.
  unfold Py.sum. revert a. induction l as [| x l IH]; intros a; simpl.
  - ring.
  - rewrite (IH (a + x)), (IH (0 + x)). ring.
Qed.

Lemma py_sum_cons (x : Q) (l : list Q) : Py.sum (x :: l) == x + Py.sum l.
Proof.
  unfold Py.sum at 1. simpl. rewrite py_sum_shift. ring.
Qed.

Lemma qnat_S (n : nat) : Py.qnat (S n) == 1 + Py.qnat n.
Proof.
  unfold Py.qnat. rewrite Nat2Z.inj_succ, <- Z.add_1_l, inject_Z_plus.
  reflexivity.
Qed.

Lemma qnat_add (n m : nat) : Py.qnat (n + m) == Py.qnat n + Py.qnat m.
Proof.
  unfold Py.qnat. now rewrite Nat2Z.inj_add, inject_Z_plus.
Qed.

Lemma qnat_le (n m : nat) : (n <= m)%nat -> Py.qnat n <= Py.qnat m.
Proof. intros Hle. unfold Py.qnat. apply inject_Z_le. lia. Qed.

(** The number behind a flag. *)
Lemma flag_number (c : cell) (b : bool) :
  flag_of c = Some b ->
  exists q, cell_number c = inr (Some q) /\ q == (if b then 1 else 0).
Proof.
  destruct c as [z | q | b' | | |]; simpl; try discriminate.
  - destruct z as [| [| |] |]; try discriminate; intros [= <-];
      eexists; split; reflexivity.
  - destruct (Qeq_bool q 0) eqn:E0.
    + intros [= <-]. exists q. split; [reflexivity |].
      now apply Qeq_bool_eq.
    + destruct (Qeq_bool q 1) eqn:E1; [| discriminate].
      intros [= <-]. exists q. split; [reflexivity |].
      now apply Qeq_bool_eq.
  - intros [= <-]. eexists. split; reflexivity.
Qed.

(** The total of a column of flags is the number of flags set. *)
Lemma series_sum_flags (series : list cell) :
  forallb is_flag series = true ->
  exists total,
    series_sum series = inr total
    /\ total == Py.qnat (List.length (filter is_set series)).
Proof.
  unfold series_sum. intros Hall.
  assert (Hm : exists ns,
             Py.mapM cell_number series = inr ns
             /\ Py.sum (map (fun n => match n with Some q => q | None => 0 end)
                          ns)
                == Py.qnat (List.length (filter is_set series))).
  { induction series as [| c series IH]; simpl.
    - exists []. split; reflexivity.
    - simpl in Hall. apply andb_true_iff in Hall as [Hc Hall].
      destruct (IH Hall) as (ns & Hns & Hsum). unfold is_flag in Hc.
      destruct (flag_of c) as [b |] eqn:Ef; [| discriminate].
      destruct (flag_number c b Ef) as (q & Hq & Hqb).
      rewrite Hq, Hns. simpl. exists (Some q :: ns). split; [reflexivity |].
      cbn [map]. rewrite py_sum_cons, Hsum, Hqb.
      unfold is_set. rewrite Ef. destruct b; simpl.
      + now rewrite qnat_S.
      + ring. }
  destruct Hm as (ns & Hns & Hsum). rewrite Hns. simpl.
  eexists. split; [reflexivity | exact Hsum].
Qed.

(** Counting the set flags of a column by index. *)
Lemma count_by_index (series : list cell) :
  list_sum (map (fun i => if is_set (nth i series CNaN) then 1 else 0)%nat
              (seq 0 (List.length series)))
  = List.length (filter is_set series).
Proof.
  induction series as [| c series IH]; [reflexivity |].
  cbn [List.length seq map list_sum filter nth].
  rewrite <- seq_shift, map_map.
  change (map (fun i => if is_set (nth (S i) (c :: series) CNaN)
                        then 1 else 0)%nat (seq 0 (List.length series)))
    with (map (fun i => if is_set (nth i series CNaN) then 1 else 0)%nat
            (seq 0 (List.length series))).
  match goal with
  | |- list_sum (?a :: ?l) = _ =>
      change (list_sum (a :: l)) with (a + list_sum l)%nat
  end.
  rewrite IH. now destruct (is_set c).
Qed.

Lemma list_sum_pointwise {A : Type} (f g : A -> nat) (l : list A) :
  list_sum (map (fun x => f x + g x)%nat l)
  = (list_sum (map f l) + list_sum (map g l))%nat.
Proof. induction l as [| x l IH]; simpl; [reflexivity | lia]. Qed.

Lemma list_sum_zero {A : Type} (l : list A) :
  list_sum (map (fun _ => 0%nat) l) = 0%nat.
Proof. induction l; simpl; auto. Qed.

Lemma list_sum_indicator {A : Type} (p : A -> bool) (l : list A) :
  list_sum (map (fun x => if p x then 1 else 0)%nat l)
  = List.length (filter p l).
Proof.
  induction l as [| x l IH]; simpl; [reflexivity |].
  rewrite IH. now destruct (p x).
Qed.

(** The cell a row of the frame holds under a label. *)
Lemma row_get (cols : list (string * list cell)) (i : nat) (k : string) :
  Dict.get (map (fun c => (fst c, nth i (snd c) CNaN)) cols) k
  = match Dict.get cols k with
    | Some series => Some (nth i series CNaN)
    | None => None
    end.
Proof.
  induction cols as [| [k' v] cols IH]; simpl; [reflexivity |].
  now destruct (String.eqb k k').
Qed.

Lemma well_formed_column (df : DataFrame) (k : string) (series : list cell) :
  well_formed df -> Dict.get (columns df) k = Some series ->
  List.length series = nrows df.
Proof.
  intros Hwf Hget. apply dict_get_in in Hget.
  unfold well_formed in Hwf. rewrite Forall_forall in Hwf.
  exact (Hwf _ Hget).
Qed.

Lemma positive_flag (c : cell) :
  is_flag c = true ->
  match cell_number c with
  | inr (Some q) => Py.Qgtb q 0
  | _ => false
  end = is_set c.
Proof.
  unfold is_flag, is_set. destruct (flag_of c) as [b |] eqn:Ef;
    [| discriminate].
  intros _. destruct (flag_number c b Ef) as (q & Hq & Hqb). rewrite Hq.
  destruct b.
  - apply Qgtb_true. rewrite Hqb. reflexivity.
  - apply Qltb_false. rewrite Hqb. apply Qle_refl.
Qed.

(** Among flags, a play is positive exactly when one of its indicator
    cells is set. *)
Lemma positive_play_flags (indicators : list string) (play : dict cell) :
  forallb is_flag (indicator_cells indicators play) = true ->
  positive_play indicators play
  = existsb is_set (indicator_cells indicators play).
Proof.
  unfold positive_play, indicator_cells.
  induction indicators as [| ind l IH]; simpl; [reflexivity |].
  rewrite forallb_app, existsb_app. intros Hall.
  apply andb_true_iff in Hall as [Hc Hall]. rewrite (IH Hall). f_equal.
  destruct (Dict.get play ind) as [c |]; simpl; [| reflexivity].
  simpl in Hc. rewrite andb_true_r in Hc. rewrite orb_false_r.
  now apply positive_flag.
Qed.

Lemma count_at_most_one {A : Type} (p : A -> bool) (l : list A) :
  (List.length (filter p l) <= 1)%nat ->
  List.length (filter p l) = if existsb p l then 1%nat else 0%nat.
Proof.
  induction l as [| x l IH]; simpl; [reflexivity |].
  destruct (p x); simpl.
  - intros Hle. assert (Hz : List.length (filter p l) = 0%nat) by lia.
    now rewrite Hz.
  - exact IH.
Qed.

Lemma exclusive_count (indicators : list string) (play : dict cell) :
  exclusive_flags indicators play = true ->
  List.length (filter is_set (indicator_cells indicators play))
  = if positive_play indicators play then 1%nat else 0%nat.
Proof.
  unfold exclusive_flags. intros Hx.
  apply andb_true_iff in Hx as [Hall Hle]. apply Nat.leb_le in Hle.
  rewrite (positive_play_flags _ _ Hall). now apply count_at_most_one.
Qed.

Section ColumnsAndRows.
Variable df : DataFrame.
Hypothesis Hwf : well_formed df.

Let row (i : nat) : dict cell :=
  map (fun c => (fst c, nth i (snd c) CNaN)) (columns df).

Let set_in_column (indicator : string) : nat :=
  match Dict.get (columns df) indicator with
  | Some series => List.length (filter is_set series)
  | None => 0%nat
  end.

(** Counting the set indicator cells column by column or play by
    play gives the same number. *)
Lemma count_columns_rows (indicators : list string) :
  list_sum (map set_in_column indicators)
  = list_sum
      (map (fun i => List.length
                       (filter is_set (indicator_cells indicators (row i))))
         (seq 0 (nrows df))).
Proof.
  induction indicators as [| ind l IH].
  - simpl. now rewrite list_sum_zero.
  - cbn [map]. 
    change (list_sum (set_in_column ind :: map set_in_column l))
      with (set_in_column ind + list_sum (map set_in_column l))%nat.
    rewrite IH.
    rewrite (map_ext
               (fun i => List.length
                           (filter is_set (indicator_cells (ind :: l) (row i))))
               (fun i =>
                  (match Dict.get (columns df) ind with
                   | Some series =>
                       if is_set (nth i series CNaN) then 1 else 0
                   | None => 0
                   end
                   + List.length
                       (filter is_set (indicator_cells l (row i))))%nat)).
    2:{ intros i. unfold indicator_cells. cbn [flat_map].
        rewrite filter_app, length_app. f_equal.
        unfold row. rewrite row_get.
        destruct (Dict.get (columns df) ind) as [series |];
          [| reflexivity].
        simpl. now destruct (is_set (nth i series CNaN)). }
    rewrite list_sum_pointwise. f_equal.
    unfold set_in_column.
    destruct (Dict.get (columns df) ind) as [series |] eqn:E.
    + rewrite <- (well_formed_column df ind series Hwf E).
      symmetry. apply count_by_index.
    + now rewrite list_sum_zero.
Qed.

Lemma iterrows_rows : iterrows df = map row (seq 0 (nrows df)).
Proof. reflexivity. Qed.

(** When every play holds flags under the indicators, so does every
    indicator column. *)
Lemma column_of_flags (indicators : list string) (ind : string)
    (series : list cell) :
  forallb (fun play => forallb is_flag (indicator_cells indicators play))
    (iterrows df) = true ->
  In ind indicators ->
  Dict.get (columns df) ind = Some series ->
  forallb is_flag series = true.
Proof.
  intros Hall Hin Hget. apply forallb_forall. intros c Hc.
  destruct (In_nth series c CNaN Hc) as (i & Hi & Hnth).
  rewrite (well_formed_column df ind series Hwf Hget) in Hi.
  rewrite forallb_forall in Hall.
  assert (Hrow : In (row i) (iterrows df)).
  { rewrite iterrows_rows. apply in_map, in_seq. lia. }
  specialize (Hall _ Hrow). rewrite forallb_forall in Hall. apply Hall.
  unfold indicator_cells. apply in_flat_map. exists ind.
  split; [exact Hin |]. unfold row. rewrite row_get, Hget, Hnth.
  now left.
Qed.

(** The column totals add up to the number of set indicator cells. *)
Lemma indicator_totals_flags (all indicators : list string) :
  forallb (fun play => forallb is_flag (indicator_cells all play))
    (iterrows df) = true ->
  incl indicators all ->
  exists totals,
    indicator_totals df indicators = inr totals
    /\ Py.sum totals == Py.qnat (list_sum (map set_in_column indicators)).
Proof.
  intros Hall. unfold indicator_totals.
  induction indicators as [| ind l IH]; intros Hincl.
  - exists []. split; reflexivity.
  - destruct IH as (totals & Ht & Hsum).
    { intros x Hx. apply Hincl. now right. }
    cbn [filter map].
    change (list_sum (set_in_column ind :: map set_in_column l))
      with (set_in_column ind + list_sum (map set_in_column l))%nat.
    unfold set_in_column at 1.
    destruct (has_column df ind) eqn:Eh.
    + apply has_column_In in Eh.
      destruct (dict_get_some (columns df) ind Eh) as [series Hget].
      rewrite Hget.
      assert (Hflags : forallb is_flag series = true).
      { apply (column_of_flags all ind series Hall); [| exact Hget].
        apply Hincl. now left. }
      destruct (series_sum_flags series Hflags) as (total & Hs & Htot).
      cbn [Py.mapM]. unfold column at 1. rewrite Hget. cbn [Py.bind].
      rewrite Hs. cbn [Py.bind]. rewrite Ht. cbn [Py.bind].
      exists (total :: totals). split; [reflexivity |].
      now rewrite py_sum_cons, Htot, Hsum, qnat_add.
    + apply has_column_false in Eh. apply dict_get_none in Eh.
      rewrite Eh. exists totals. split; [exact Ht |].
      now rewrite Hsum.
Qed.

End ColumnsAndRows.

Lemma py_min_l (a b : Q) : a <= b -> Py.min a b = a.
Proof.
  intros Hle. unfold Py.min. apply Qltb_false in Hle. now rewrite Hle.
Qed.

Lemma well_formed_tail (n : nat) (df : DataFrame) :
  well_formed df -> well_formed (tail n df).
Proof.
  unfold well_formed, tail. cbn [nrows columns]. intros Hwf.
  apply Forall_map. cbn [snd]. revert Hwf. apply Forall_impl.
  intros c Hc. rewrite length_skipn, Hc. lia.
Qed.

Lemma empty_tail (n : nat) (df : DataFrame) :
  (0 < n)%nat -> empty df = false -> empty (tail n df) = false.
Proof.
  unfold empty, tail. cbn [nrows columns]. rewrite length_map.
  intros Hn He. apply orb_false_iff in He as [Hr Hc]. rewrite Hc.
  apply Nat.eqb_neq in Hr. rewrite orb_false_r. apply Nat.eqb_neq. lia.
Qed.

(** The ratio computed for a frame of plays that hold exclusive 0/1
    flags under the side's indicators. *)
Lemma recent_success_exclusive (recent_plays : DataFrame)
    (team_type : string) (indicators : list string) :
  success_indicators team_type = inr indicators ->
  well_formed recent_plays ->
  empty recent_plays = false ->
  forallb (exclusive_flags indicators) (iterrows recent_plays) = true ->
  exists ratio,
    _calculate_recent_success recent_plays team_type = inr ratio
    /\ ratio == fraction_of_positive_plays recent_plays indicators.
Proof.
  intros Hind Hwf Hempty Hx.
  assert (Hflags : forallb (fun play => forallb is_flag
                                          (indicator_cells indicators play))
                     (iterrows recent_plays) = true).
  { rewrite forallb_forall in Hx. apply forallb_forall. intros play Hp.
    specialize (Hx _ Hp). unfold exclusive_flags in Hx.
    now apply andb_true_iff in Hx as [Hx _]. }
  destruct (indicator_totals_flags recent_plays Hwf indicators indicators
              Hflags (incl_refl _)) as (totals & Ht & Hsum).
  rewrite (count_columns_rows recent_plays Hwf) in Hsum.
  rewrite (map_ext_in _
             (fun i => if positive_play indicators
                            (map (fun c => (fst c, nth i (snd c) CNaN))
                               (columns recent_plays))
                       then 1%nat else 0%nat)) in Hsum.
  2:{ intros i Hi. apply exclusive_count. rewrite forallb_forall in Hx.
      apply Hx. unfold iterrows.
      apply (in_map (fun i => map (fun c => (fst c, nth i (snd c) CNaN))
                                (columns recent_plays))), Hi. }
  rewrite <- (map_map
                (fun i => map (fun c => (fst c, nth i (snd c) CNaN))
                            (columns recent_plays))
                (fun play => if positive_play indicators play
                             then 1%nat else 0%nat)) in Hsum.
  rewrite list_sum_indicator in Hsum.
  change (map _ (seq 0 (nrows recent_plays))) with (iterrows recent_plays)
    in Hsum.
  set (positive := List.length (filter (positive_play indicators)
                                  (iterrows recent_plays))) in *.
  assert (Hrows : (0 < nrows recent_plays)%nat).
  { unfold empty in Hempty. apply orb_false_iff in Hempty as [Hr _].
    apply Nat.eqb_neq in Hr. lia. }
  assert (Hle : (positive <= nrows recent_plays)%nat).
  { unfold positive. etransitivity; [apply filter_length_le |].
    unfold iterrows. now rewrite length_map, length_seq. }
  unfold _calculate_recent_success. rewrite Hempty, Hind. cbn [Py.bind].
  rewrite Ht. cbn [Py.bind].
  assert (Hratio : Py.sum totals / Py.qnat (nrows recent_plays) <= 1.0).
  { apply Qle_shift_div_r; [now apply qnat_pos |].
    rewrite Hsum. setoid_replace (1.0 * Py.qnat (nrows recent_plays))
                    with (Py.qnat (nrows recent_plays)) by ring.
    now apply qnat_le. }
  rewrite (py_min_l _ _ Hratio). eexists. split; [reflexivity |].
  unfold fraction_of_positive_plays. fold positive. now rewrite Hsum.
Qed.

(** C6 (amended). Over the last 5 plays, when every play holds 0/1
    flags under the side's indicators and at most one of them is set,
    the recent-success ratio of a side equals the fraction of those
    plays with a positive indicator of that side (hit, walk or run
    scored for batting; strikeout, out or double play for pitching); in
    particular, for 5 recent plays with 4 batting hits and 1 pitching
    out the ratios are 0.8 and 0.2. *)
Theorem C6_recent_success_ratio :
  (forall (game_state : DataFrame) (team_type : string)
          (indicators : list string),
      success_indicators team_type = inr indicators ->
      well_formed game_state ->
      empty game_state = false ->
      forallb (exclusive_flags indicators) (iterrows (tail 5 game_state))
      = true ->
      exists ratio,
        _calculate_recent_success (tail 5 game_state) team_type = inr ratio
        /\ ratio
           == fraction_of_positive_plays (tail 5 game_state) indicators)
  /\ success_indicators "batting" = inr ["hit"; "walk"; "run_scored"]
  /\ success_indicators "pitching" = inr ["strikeout"; "out"; "double_play"]
  /\ (exists m,
        _analyze_momentum four_hits_one_out = inr (Some m)
        /\ recent_success (batting_team m) == 0.8
        /\ recent_success (pitching_team m) == 0.2).
Proof.
  split.
  - intros game_state team_type indicators Hind Hwf Hempty Hx.
    apply recent_success_exclusive; try assumption.
    + now apply well_formed_tail.
    + apply empty_tail; [lia | assumption].
  - split; [reflexivity |]. split; [reflexivity |].
    eexists. split; [vm_compute; reflexivity |].
    split; vm_compute; reflexivity.
Qed.

(** C6 (as stated) fails. In [run_scoring_hit] one of the five recent
    plays is a hit that also scores a run: one play in five has a
    positive batting indicator, and the code returns 2/5. *)
Lemma C6_counterexample :
  exists ratio,
    _calculate_recent_success (tail 5 run_scoring_hit) "batting" = inr ratio
    /\ ratio == 0.4
    /\ fraction_of_positive_plays (tail 5 run_scoring_hit)
         ["hit"; "walk"; "run_scored"] == 0.2
    /\ ~ ratio == fraction_of_positive_plays (tail 5 run_scoring_hit)
                    ["hit"; "walk"; "run_scored"].
Proof.
  eexists. split; [vm_compute; reflexivity |].
  split; [vm_compute; reflexivity |].
  split; [vm_compute; reflexivity |].
  vm_compute. discriminate.
Qed.

(** ** The statements above at concrete inputs *)

Lemma C1_adjusted_probability_witness :
  let rate := hist_success_of contact_only_history "OFFENSIVE"
                "contact_hitting" in
  let momentum_factor := _calculate_momentum_factor hot_batting
                           "contact_hitting" in
  exists tactics' final,
    Dict.get (_adjust_probabilities classifier_output some_context
                contact_only_history (Some hot_batting)) "OFFENSIVE"
    = Some tactics'
    /\ Dict.get tactics' "contact_hitting" = Some final
    /\ (0 < rate ->
        final = documented_final_probability 30 rate momentum_factor)
    /\ (rate <= 0 ->
        final = Py.round2
                  (Py.min (Py.max (30 * (1 + momentum_factor)) 0) 100)).
Proof.
  apply (C1_adjusted_probability classifier_output some_context
           contact_only_history hot_batting "OFFENSIVE" "contact_hitting"
           [("power_hitting", 50); ("contact_hitting", 30)] 30);
    reflexivity.
Defined.

Lemma C2_unmapped_action_fallback_witness :
  Dict.get ACTION_TO_TACTIC (result unknown_event) = None
  /\ calculate_tactical_probabilities unknown_event
     = inr {| probabilities := [("contact_hitting", 100.0)];
              primary_tactic := "contact_hitting" |}.
Proof.
  apply (C2_unmapped_action_fallback unknown_event).
  intros Hin. apply mem_str_In in Hin. vm_compute in Hin. discriminate.
Defined.

Lemma C3_metric_ranges_witness :
  let m := calculate_advanced_metrics home_run_play in
  (0 <= pressure_index m <= 2)
  /\ (0 <= leverage_index m <= 3)
  /\ (0 <= game_stage m <= 1).
Proof.
  apply (C3_metric_ranges home_run_play); simpl; lia.
Defined.

Lemma C4_schema_reconciliation_witness :
  exists features out,
    prepare_features trained eighth_inning = inr features
    /\ labels features = stump_features late_inning_stump
    /\ nrows features = nrows eighth_inning_prepared
    /\ (forall col, In col (stump_features late_inning_stump) ->
          column features col
          = inr (match Dict.get (columns eighth_inning_prepared) col with
                 | Some series => series
                 | None => repeat 0 (nrows eighth_inning_prepared)
                 end))
    /\ predict_proba trained eighth_inning = inr out.
Proof.
  apply (C4_schema_reconciliation trained late_inning_stump
           (stump_features late_inning_stump) eighth_inning
           eighth_inning_prepared).
  - reflexivity.
  - reflexivity.
  - reflexivity.
  - discriminate.
  - reflexivity.
  - repeat constructor.
  - vm_compute. reflexivity.
  - repeat constructor; simpl; intuition discriminate.
  - simpl. lia.
Defined.

Lemma C5_save_load_round_trip_witness :
  exists loaded,
    load_model (__init__ (classifier := stump)) default_filename
      (save_model trained default_filename [])
    = (loaded, inr tt)
    /\ model loaded = model trained
    /\ feature_names loaded = feature_names trained
    /\ forall game_state,
         predict_proba loaded game_state = predict_proba trained game_state.
Proof.
  apply (C5_save_load_round_trip trained __init__ late_inning_stump
           default_filename []); reflexivity.
Defined.

Lemma C6_recent_success_ratio_witness :
  exists ratio,
    _calculate_recent_success (tail 5 four_hits_one_out) "batting"
    = inr ratio
    /\ ratio == fraction_of_positive_plays (tail 5 four_hits_one_out)
                  ["hit"; "walk"; "run_scored"].
Proof.
  apply (proj1 C6_recent_success_ratio four_hits_one_out "batting"
           ["hit"; "walk"; "run_scored"]).
  - reflexivity.
  - repeat constructor.
  - reflexivity.
  - vm_compute. reflexivity.
Defined.

Lemma C7_untrained_predictor_fails_witness :
  (exists e,
      predict_proba (__init__ (classifier := stump)) eighth_inning = inl e
      /\ analyze_situation (__init__ (classifier := stump)) eighth_inning
         = inl e
      /\ Py.raised_by_sources e)
  /\ (forall features,
        prepare_features (__init__ (classifier := stump)) eighth_inning
        = inr features ->
        predict_proba (__init__ (classifier := stump)) eighth_inning
        = inl Py.AttributeError
        /\ analyze_situation (__init__ (classifier := stump)) eighth_inning
           = inl Py.AttributeError).
Proof.
  apply (C7_untrained_predictor_fails (__init__ (classifier := stump))
           eighth_inning).
  reflexivity.
Defined.

(** C7 (as stated) fails: on the eighth-inning record an untrained
    predictor raises [AttributeError], not [ModelNotLoadedError]. *)
Lemma C7_counterexample :
  predict_proba (__init__ (classifier := stump)) eighth_inning
  = inl Py.AttributeError
  /\ predict_proba (__init__ (classifier := stump)) eighth_inning
     <> inl Py.ModelNotLoadedError
  /\ analyze_situation (__init__ (classifier := stump)) eighth_inning
     <> inl Py.ModelNotLoadedError.
Proof.
  split; [vm_compute; reflexivity |].
  split; vm_compute; discriminate.
Qed.

Lemma C8_no_probability_below_floor_witness :
  exists r,
    calculate_tactical_probabilities home_run = inr r
    /\ forall tac p, In (tac, p) (probabilities r) -> ~ p < 0.05.
Proof.
  apply (C8_no_probability_below_floor home_run).
  apply mem_str_In. reflexivity.
Defined.

Lemma C10_candidates_at_least_base_witness :
  exists possible_tactics r,
    Dict.get ACTION_TO_TACTIC (result home_run) = Some possible_tactics
    /\ calculate_tactical_probabilities home_run = inr r
    /\ probabilities r <> []
    /\ Forall (fun kv => 0.4 <= snd kv) (probabilities r)
    /\ candidate_probabilities home_run possible_tactics <> []
    /\ probabilities r = candidate_probabilities home_run possible_tactics.
Proof.
  apply (C10_candidates_at_least_base home_run).
  apply mem_str_In. reflexivity.
Defined.


(** * Further properties of the sources *)

(** ** process_data.py: runners and derived metrics *)

Lemma existsb_pointwise {A : Type} (f g : A -> bool) (l : list A) :
  (forall x, f x = g x) -> existsb f l = existsb g l.
Proof.
  intros Hfg. induction l as [| x l IH]; simpl; [reflexivity |].
  now rewrite Hfg, IH.
Qed.

Lemma existsb_orb {A : Type} (f g : A -> bool) (l : list A) :
  existsb (fun x => f x || g x) l = existsb f l || existsb g l.
Proof.
  induction l as [| x l IH]; simpl; [reflexivity |].
  rewrite IH. now destruct (f x), (g x), (existsb f l), (existsb g l).
Qed.

(** X1. [process_runners_flat]: the number of runners is the length of
    the list, the runs scored are between 0 and that number, the three
    occupancy flags are 0 or 1, and the scoring-position flag is set
    exactly when the second-base or the third-base flag is. *)
Theorem X1_runners_flat (runners : list ProcessData.runner) :
  let flat := process_runners_flat runners in
  flat_num_runners flat = Z.of_nat (List.length runners)
  /\ (0 <= flat_runs_scored flat <= flat_num_runners flat)%Z
  /\ In (runner_on_first flat) [0; 1]%Z
  /\ In (runner_on_second flat) [0; 1]%Z
  /\ In (runner_on_third flat) [0; 1]%Z
  /\ flat_scoring_position flat
     = Z.max (runner_on_second flat) (runner_on_third flat).
Proof.
  cbn -[In Z.max]. split; [reflexivity |]. split.
  { pose proof (filter_length_le scores runners). lia. }
  assert (Hflag : forall b, In (int_of_bool b) [0; 1]%Z).
  { intros []; simpl; auto. }
  repeat (split; [apply Hflag |]).
  rewrite (existsb_pointwise (starts_at ["2B"; "3B"])
             (fun r => starts_at ["2B"] r || starts_at ["3B"] r)).
  - rewrite existsb_orb.
    now destruct (existsb (starts_at ["2B"]) runners),
      (existsb (starts_at ["3B"]) runners).
  - intros r. unfold starts_at. destruct (movement_start r) as [b |];
      [| reflexivity].
    simpl. now rewrite !orb_false_r.
Qed.

Lemma truthy_spec (z : Z) : Py.truthy z = true <-> z <> 0%Z.
Proof.
  unfold Py.truthy. rewrite negb_true_iff. apply Z.eqb_neq.
Qed.

Lemma outs_cases (o : Z) :
  (0 <= o <= 3)%Z -> o = 0%Z \/ o = 1%Z \/ o = 2%Z \/ o = 3%Z.
Proof. lia. Qed.

(** X2. The high-pressure situations of [calculate_advanced_metrics]
    ([pressure_index >= 1.5], the threshold used by the labeler): for
    outs in [0,3] they are exactly the plays of the seventh inning or
    later, the plays with a runner in scoring position and at least one
    out, and the plays with three outs. *)
Theorem X2_high_pressure_situations (pd : play_data) :
  (0 <= outs pd <= 3)%Z ->
  (high_pressure <= pressure_index (calculate_advanced_metrics pd)
   <-> (late_innings <= inning pd)%Z
       \/ (scoring_position pd <> 0%Z /\ (1 <= outs pd)%Z)
       \/ outs pd = 3%Z).
Proof.
  intros Ho. cbn [calculate_advanced_metrics pressure_index].
  unfold calc_pressure_index.
  destruct (Z.leb_spec late_innings (inning pd)) as [Hi | Hi];
    destruct (Py.truthy (scoring_position pd)) eqn:Hs;
    [ apply truthy_spec in Hs | | apply truthy_spec in Hs | ];
    try (assert (Hs' : scoring_position pd = 0%Z)
          by (destruct (Z.eq_dec (scoring_position pd) 0) as [E | E];
              [exact E | apply truthy_spec in E; congruence]));
    destruct (outs_cases _ Ho) as [E | [E | [E | E]]]; rewrite E;
    (split;
     [ intros Hp;
       first [ left; exact Hi
             | right; left; split; [exact Hs | lia]
             | right; right; reflexivity
             | exfalso; revert Hp; vm_compute; intros Hp; now apply Hp ]
     | intros Hr;
       first [ vm_compute; discriminate
             | exfalso; unfold late_innings in *;
               destruct Hr as [Hr | [[Hr1 Hr2] | Hr]];
               first [lia | congruence] ] ]).
Qed.

Lemma pressure_index_at_least_one (pd : play_data) :
  (0 <= outs pd)%Z -> 1 <= calc_pressure_index pd.
Proof.
  intros Ho. unfold calc_pressure_index. apply py_min_ge; [| lra].
  apply inject_Z_le in Ho. change (inject_Z 0) with 0 in Ho.
  destruct (late_innings <=? inning pd)%Z, (Py.truthy (scoring_position pd));
    nra.
Qed.

(** X3. For a play with a non-negative number of runners and outs in
    [0,3], the metrics of [calculate_advanced_metrics] are ordered:
    [0 <= run_expectancy <= offensive_opportunity <= scoring_threat],
    the defensive pressure is non-negative, and the leverage index is
    never below the pressure index (which is at least 1). *)
Theorem X3_metrics_ordering (pd : play_data) :
  (0 <= num_runners pd)%Z -> (0 <= outs pd <= 3)%Z ->
  let m := calculate_advanced_metrics pd in
  0 <= run_expectancy m
  /\ run_expectancy m <= offensive_opportunity m
  /\ offensive_opportunity m <= scoring_threat m
  /\ 0 <= defensive_pressure m
  /\ 1 <= pressure_index m
  /\ pressure_index m <= leverage_index m.
Proof.
  intros Hn [Ho1 Ho2].
  cbn [calculate_advanced_metrics run_expectancy offensive_opportunity
       scoring_threat defensive_pressure pressure_index leverage_index].
  pose proof (pressure_index_at_least_one pd Ho1) as Hp1.
  pose proof (pressure_index_bounds pd Ho1) as [_ Hp2].
  set (p := calc_pressure_index pd) in *.
  apply inject_Z_le in Hn, Ho1, Ho2.
  change (inject_Z 0) with 0 in Hn, Ho1. change (inject_Z 3) with 3 in Ho2.
  set (n := inject_Z (num_runners pd)) in *.
  set (o := inject_Z (outs pd)) in *.
  assert (Er : (3 - o) / 3 == (3 - o) * (1 # 3)) by field.
  assert (Ed : (o + 1) / 3 == (o + 1) * (1 # 3)) by field.
  assert (Hr : 0 <= (3 - o) * (1 # 3)) by lra.
  assert (Hnr : 0 <= n * ((3 - o) * (1 # 3))) by nra.
  repeat split.
  - rewrite Er. destruct (Py.truthy (scoring_position pd)); nra.
  - rewrite Er. destruct (Py.truthy (scoring_position pd)); nra.
  - rewrite Er.
    destruct (Py.truthy (scoring_position pd)),
      (Py.truthy (is_close_game pd)); nra.
  - rewrite Ed. assert (0 <= n * p) by nra. nra.
  - exact Hp1.
  - unfold calc_leverage_index. apply py_min_ge; [| lra].
    destruct (Py.truthy (is_close_game pd)),
      (Py.Qgtb (calc_game_stage pd) 0.7); nra.
Qed.

Lemma inject_Z_lt (x y : Z) : (x < y)%Z -> inject_Z x < inject_Z y.
Proof. intros Hlt. now rewrite <- Zlt_Qlt. Qed.

Lemma win_probability_added_shape (pd : play_data) :
  exists d,
    0 < d
    /\ win_probability_added (calculate_advanced_metrics pd)
       == 0.5 + inject_Z (score_diff pd) * d
    /\ (inning pd = 9%Z -> d == 0.1).
Proof.
  cbn [calculate_advanced_metrics win_probability_added].
  destruct (Z.leb_spec 10 (inning pd)) as [Hi | Hi].
  - exists (1 # 20). split; [reflexivity |]. split; [field | lia].
  - set (r := Z.max (10 - inning pd) 1).
    assert (Hr : 0 < inject_Z r).
    { change 0 with (inject_Z 0). apply inject_Z_lt. lia. }
    exists (0.1 / inject_Z r). split; [| split].
    + apply Qlt_shift_div_l; [exact Hr | lra].
    + field. intros E. rewrite E in Hr. now apply Qlt_irrefl in Hr.
    + intros E. unfold r. rewrite E. reflexivity.
Qed.

(** X4. [win_probability_added] is 0.5 in a tied game, above 0.5
    exactly when [score_diff] (away minus home) is positive and below
    when it is negative; it is not confined to [0,1]: in the ninth
    inning it exceeds 1 as soon as [score_diff > 5] and is negative as
    soon as [score_diff < -5]. *)
Theorem X4_win_probability_added (pd : play_data) :
  let w := win_probability_added (calculate_advanced_metrics pd) in
  (score_diff pd = 0%Z -> w == 0.5)
  /\ ((0 < score_diff pd)%Z -> 0.5 < w)
  /\ ((score_diff pd < 0)%Z -> w < 0.5)
  /\ (inning pd = 9%Z -> (5 < score_diff pd)%Z -> 1 < w)
  /\ (inning pd = 9%Z -> (score_diff pd < -5)%Z -> w < 0).
Proof.
  intros w. destruct (win_probability_added_shape pd) as (d & Hd & Hw & H9).
  fold w in Hw. repeat split.
  - intros E. rewrite Hw, E. change (inject_Z 0) with 0. ring.
  - intros Hs. apply inject_Z_lt in Hs. change (inject_Z 0) with 0 in Hs.
    rewrite Hw. nra.
  - intros Hs. apply inject_Z_lt in Hs. change (inject_Z 0) with 0 in Hs.
    rewrite Hw. nra.
  - intros E Hs. apply inject_Z_lt in Hs. change (inject_Z 5) with 5 in Hs.
    rewrite Hw, (H9 E). lra.
  - intros E Hs. apply inject_Z_lt in Hs.
    change (inject_Z (-5)) with (-5 # 1) in Hs.
    rewrite Hw, (H9 E). lra.
Qed.

(** X5. [count_leverage] lies in [0,1] for balls in [0,4] and strikes
    in [0,3], and it vanishes with no ball or with three strikes. *)
Theorem X5_count_leverage (pd : play_data) :
  (0 <= balls pd <= 4)%Z -> (0 <= strikes pd <= 3)%Z ->
  let c := count_leverage (calculate_advanced_metrics pd) in
  0 <= c <= 1
  /\ (balls pd = 0%Z \/ strikes pd = 3%Z -> c == 0).
Proof.
  intros [Hb1 Hb2] [Hs1 Hs2]. cbn [calculate_advanced_metrics count_leverage].
  apply inject_Z_le in Hb1, Hb2, Hs1, Hs2.
  change (inject_Z 0) with 0 in Hb1, Hs1.
  change (inject_Z 4) with 4 in Hb2. change (inject_Z 3) with 3 in Hs2.
  assert (E : forall b s : Q,
             b / 4 * (1 - s / 3) == (b * (1 # 4)) * ((3 - s) * (1 # 3)))
    by (intros; field).
  split.
  - rewrite E. split; nra.
  - intros [Hb | Hs].
    + rewrite Hb. change (inject_Z 0) with 0. field.
    + rewrite Hs. change (inject_Z 3) with 3. field.
Qed.

(** ** process_data.py: the labeler *)

Lemma distinct_NoDup (l : list string) : distinct l = true -> NoDup l.
Proof.
  induction l as [| x l IH]; simpl; intros Hd; constructor.
  - apply andb_true_iff in Hd as [Hx _]. apply negb_true_iff in Hx.
    intros Hin. apply mem_str_In in Hin. unfold mem_str in Hin. congruence.
  - apply andb_true_iff in Hd as [_ Hd]. now apply IH.
Qed.

Lemma dict_set_new {V : Type} (d : dict V) (k : string) (v : V) :
  ~ In k (Dict.keys d) -> Dict.set d k v = app d [(k, v)].
Proof.
  induction d as [| [k' v'] d IH]; simpl; [reflexivity |].
  intros Hn. destruct (String.eqb_spec k k') as [-> | Hne].
  - exfalso. apply Hn. now left.
  - f_equal. apply IH. intros Hin. apply Hn. now right.
Qed.

Lemma dict_get_unique {V : Type} (d : dict V) (k : string) (v : V) :
  NoDup (Dict.keys d) -> In (k, v) d -> Dict.get d k = Some v.
Proof.
  induction d as [| [k' v'] d IH]; simpl; [tauto |].
  intros Hnd [E | Hin]; inversion Hnd as [| ? ? Hk Hd]; subst.
  - injection E as -> ->. now rewrite String.eqb_refl.
  - destruct (String.eqb_spec k k') as [-> | Hne]; [| now apply IH].
    exfalso. apply Hk. now apply (in_map fst) in Hin.
Qed.

(** With distinct tactic names the candidate loop stores one entry per
    candidate, in order. *)
Lemma candidate_probabilities_entries (s : situation)
    (infos : list tactic_info) :
  NoDup (map tactic infos) ->
  candidate_probabilities s infos
  = map (fun info => (tactic info, tactic_probability s info)) infos.
Proof.
  unfold candidate_probabilities.
  assert (Hgen : forall acc : dict Q,
             NoDup (app (Dict.keys acc) (map tactic infos)) ->
             fold_left
               (fun probabilities info =>
                  Dict.set probabilities (tactic info)
                    (tactic_probability s info)) infos acc
             = app acc (map (fun info => (tactic info,
                                          tactic_probability s info)) infos)).
  { induction infos as [| info infos IH]; intros acc Hnd; simpl.
    - now rewrite app_nil_r.
    - simpl in Hnd. rewrite dict_set_new.
      + rewrite IH.
        * now rewrite <- app_assoc.
        * unfold Dict.keys in *. rewrite map_app. simpl.
          rewrite <- app_assoc. exact Hnd.
      + apply NoDup_remove_2 in Hnd. intros Hin. apply Hnd.
        apply in_or_app. now left. }
  intros Hnd. now rewrite (Hgen [] Hnd).
Qed.

(** The tactic names of each candidate list are distinct. *)
Lemma action_to_tactic_distinct (a : string) (infos : list tactic_info) :
  Dict.get ACTION_TO_TACTIC a = Some infos -> NoDup (map tactic infos).
Proof.
  intros Hget. apply dict_get_in in Hget.
  assert (Hall : forallb (fun kv => distinct (map tactic (snd kv)))
                   ACTION_TO_TACTIC = true) by (vm_compute; reflexivity).
  rewrite forallb_forall in Hall. apply distinct_NoDup.
  exact (Hall _ Hget).
Qed.

Lemma better_fold (rest : list (string * Q)) (first : string * Q) :
  let best := fold_left better rest first in
  In best (first :: rest)
  /\ snd first <= snd best
  /\ forall x, In x rest -> snd x <= snd best.
Proof.
  revert first. induction rest as [| y rest IH]; intros first; simpl.
  - split; [now left |]. split; [apply Qle_refl | tauto].
  - destruct (IH (better first y)) as (Hin & Hle & Hall).
    assert (Hb : In (better first y) [first; y]
                 /\ snd first <= snd (better first y)
                 /\ snd y <= snd (better first y)).
    { unfold better. destruct (Py.Qltb (snd first) (snd y)) eqn:E.
      - apply Qltb_true in E. simpl. repeat split; auto.
        + now apply Qlt_le_weak.
        + apply Qle_refl.
      - apply Qltb_false in E. simpl. repeat split; auto. apply Qle_refl. }
    destruct Hb as (Hb1 & Hb2 & Hb3). split; [| split].
    + destruct Hin as [Hin | Hin]; [| now right; right].
      rewrite <- Hin. destruct Hb1 as [<- | [<- | []]]; simpl; auto.
    + eapply Qle_trans; eassumption.
    + intros x [<- | Hx]; [eapply Qle_trans; eassumption | now apply Hall].
Qed.

(** The labeler's answer on a mapped action, entry by entry. *)
Lemma labeler_mapped_entries (s : situation) :
  In (result s) taxonomy_actions ->
  exists infos best,
    Dict.get ACTION_TO_TACTIC (result s) = Some infos
    /\ NoDup (map tactic infos)
    /\ max_item (map (fun info => (tactic info, tactic_probability s info))
                   infos) = inr best
    /\ calculate_tactical_probabilities s
       = inr {| probabilities :=
                  map (fun info => (tactic info, tactic_probability s info))
                    infos;
                primary_tactic := fst best |}.
Proof.
  intros Hin.
  destruct (labeler_mapped s Hin) as (infos & best & Hget & _ & Hmax & Hr).
  pose proof (action_to_tactic_distinct _ _ Hget) as Hnd.
  rewrite (candidate_probabilities_entries s infos Hnd) in Hmax, Hr.
  now exists infos, best.
Qed.

(** X6. On a mapped action the labeler keeps every candidate: the
    returned mapping has exactly the tactics mapped to the action, in
    taxonomy order, each with the probability computed for it, and the
    primary tactic is one of them whose probability no other exceeds. *)
Theorem X6_labeler_keeps_candidates_and_takes_maximum (s : situation) :
  In (result s) taxonomy_actions ->
  exists infos r p,
    Dict.get ACTION_TO_TACTIC (result s) = Some infos
    /\ calculate_tactical_probabilities s = inr r
    /\ probabilities r
       = map (fun info => (tactic info, tactic_probability s info)) infos
    /\ In (primary_tactic r) (map tactic infos)
    /\ Dict.get (probabilities r) (primary_tactic r) = Some p
    /\ forall tac q, In (tac, q) (probabilities r) -> q <= p.
Proof.
  intros Hin.
  destruct (labeler_mapped_entries s Hin)
    as (infos & best & Hget & Hnd & Hmax & Hr).
  set (entries := map (fun info => (tactic info, tactic_probability s info))
                    infos) in *.
  assert (Hkeys : Dict.keys entries = map tactic infos).
  { unfold entries, Dict.keys. rewrite map_map. reflexivity. }
  exists infos. eexists. exists (snd best).
  split; [exact Hget |]. split; [exact Hr |]. cbn [probabilities primary_tactic].
  split; [reflexivity |].
  unfold max_item in Hmax. destruct entries as [| first rest] eqn:E;
    [discriminate |].
  injection Hmax as Hbest.
  destruct (better_fold rest first) as (Hb1 & Hb2 & Hb3).
  rewrite Hbest in Hb1, Hb2, Hb3.
  split; [| split].
  - rewrite <- Hkeys. now apply (in_map fst) in Hb1.
  - apply dict_get_unique; [now rewrite Hkeys |].
    now destruct best.
  - intros tac q [Hq | Hq]; [rewrite Hq in Hb2; exact Hb2 |].
    exact (Hb3 _ Hq).
Qed.

Lemma context_score_bounds (s : situation) (ctxs : dict threshold) :
  (0 < List.length ctxs)%nat ->
  0 <= Py.qnat (context_match_count s ctxs) / Py.qnat (List.length ctxs) <= 1.
Proof.
  intros Hlen. pose proof (qnat_pos _ Hlen) as Hpos. split.
  - apply Qle_shift_div_l; [exact Hpos |]. rewrite Qmult_0_l.
    apply qnat_nonneg.
  - apply Qle_shift_div_r; [exact Hpos |]. rewrite Qmult_1_l.
    unfold Py.qnat. apply inject_Z_le. unfold context_match_count.
    pose proof (filter_length_le
                  (fun kv => context_matches s (fst kv) (snd kv)) ctxs).
    lia.
Qed.

Ltac split_tests :=
  repeat match goal with
         | |- context [match ?o with Some _ => _ | None => _ end] =>
             destruct o
         | |- context [if ?b then _ else _] => destruct b
         end.

(** The probability stored for a candidate, by tactic. *)
Lemma tactic_probability_upper (s : situation) (info : tactic_info) :
  tactic_probability s info <= 1.656.
Proof.
  unfold tactic_probability, context_adjusted, batter_adjusted,
    pitcher_adjusted, matchup_adjusted, mem_str.
  destruct (0 <? List.length (info_contexts info))%nat eqn:Hlen.
  - apply Nat.ltb_lt in Hlen.
    pose proof (context_score_bounds s (info_contexts info) Hlen) as Hsc.
    set (score := Py.qnat _ / Py.qnat _) in *.
    cbn [existsb].
    destruct (String.eqb (tactic info) "power_hitting") eqn:E1;
      [apply String.eqb_eq in E1; try rewrite E1; cbn [String.eqb Ascii.eqb
         Bool.eqb andb orb]; split_tests; lra |].
    destruct (String.eqb (tactic info) "patient_hitting") eqn:E2;
      [apply String.eqb_eq in E2; try rewrite E2; cbn [String.eqb Ascii.eqb
         Bool.eqb andb orb]; split_tests; lra |].
    destruct (String.eqb (tactic info) "contact_hitting") eqn:E3;
      [apply String.eqb_eq in E3; try rewrite E3; cbn [String.eqb Ascii.eqb
         Bool.eqb andb orb]; split_tests; lra |].
    destruct (String.eqb (tactic info) "defensive_outs") eqn:E4;
      [apply String.eqb_eq in E4; try rewrite E4; cbn [String.eqb Ascii.eqb
         Bool.eqb andb orb]; split_tests; lra |].
    destruct (String.eqb (tactic info) "strikeout_pitching") eqn:E5;
      [apply String.eqb_eq in E5; try rewrite E5; cbn [String.eqb Ascii.eqb
         Bool.eqb andb orb]; split_tests; lra |].
    cbn [andb orb]. split_tests; lra.
  - cbn [existsb].
    destruct (String.eqb (tactic info) "power_hitting") eqn:E1;
      [apply String.eqb_eq in E1; try rewrite E1; cbn [String.eqb Ascii.eqb
         Bool.eqb andb orb]; split_tests; lra |].
    destruct (String.eqb (tactic info) "contact_hitting") eqn:E3;
      [apply String.eqb_eq in E3; try rewrite E3; cbn [String.eqb Ascii.eqb
         Bool.eqb andb orb]; split_tests; lra |].
    destruct (String.eqb (tactic info) "defensive_outs") eqn:E4;
      [apply String.eqb_eq in E4; try rewrite E4; cbn [String.eqb Ascii.eqb
         Bool.eqb andb orb]; split_tests; lra |].
    destruct (String.eqb (tactic info) "strikeout_pitching") eqn:E5;
      [apply String.eqb_eq in E5; try rewrite E5; cbn [String.eqb Ascii.eqb
         Bool.eqb andb orb]; split_tests; lra |].
    cbn [andb orb]. split_tests; lra.
Qed.

Lemma tactic_probability_plain (s : situation) (info : tactic_info) :
  batter s = None -> pitcher s = None -> matchup s = None ->
  pressure_index s < high_pressure ->
  tactic_probability s info <= 1.
Proof.
  intros Hb Hp Hm Hpr.
  unfold tactic_probability, context_adjusted, batter_adjusted,
    pitcher_adjusted, matchup_adjusted.
  rewrite Hb, Hp, Hm.
  assert (Hlow : Py.Qgeb (pressure_index s) high_pressure = false)
    by now apply Qleb_false.
  rewrite Hlow.
  destruct (0 <? List.length (info_contexts info))%nat eqn:Hlen.
  - apply Nat.ltb_lt in Hlen.
    pose proof (context_score_bounds s (info_contexts info) Hlen) as Hsc.
    set (score := Py.qnat _ / Py.qnat _) in *.
    split_tests; lra.
  - split_tests; lra.
Qed.

(** X7. The labeler's scores are not normalised: on a mapped action
    every returned probability lies between 0.4 and 1.656 (the base 1.0
    boosted by 1.2, 1.2 and 1.15), and stays at or below 1 when the
    record carries no player statistics and its pressure index is
    below 1.5. *)
Theorem X7_labeler_score_range (s : situation) :
  In (result s) taxonomy_actions ->
  exists r,
    calculate_tactical_probabilities s = inr r
    /\ (forall tac p, In (tac, p) (probabilities r) -> 0.4 <= p <= 1.656)
    /\ (batter s = None -> pitcher s = None -> matchup s = None ->
        pressure_index s < high_pressure ->
        forall tac p, In (tac, p) (probabilities r) -> p <= 1).
Proof.
  intros Hin.
  destruct (labeler_mapped_entries s Hin) as (infos & best & _ & _ & _ & Hr).
  eexists. split; [exact Hr |]. cbn [probabilities]. split.
  - intros tac q Hq. apply in_map_iff in Hq as (info & [= <- <-] & _).
    split; [apply tactic_probability_ge_base |
            apply tactic_probability_upper].
  - intros Hb Hp Hm Hpr tac q Hq.
    apply in_map_iff in Hq as (info & [= <- <-] & _).
    now apply tactic_probability_plain.
Qed.

(** ** stats_fetcher.py and the table of [process_game_state] *)

Lemma ratio_bounds (a b : Z) :
  (0 <= a)%Z -> (a <= b)%Z -> (0 < b)%Z ->
  0 <= inject_Z a / inject_Z b <= 1.
Proof.
  intros Ha Hab Hb.
  assert (Hpos : 0 < inject_Z b).
  { change 0 with (inject_Z 0). now apply inject_Z_lt. }
  split.
  - apply Qle_shift_div_l; [exact Hpos |]. rewrite Qmult_0_l.
    change 0 with (inject_Z 0). now apply inject_Z_le.
  - apply Qle_shift_div_r; [exact Hpos |]. rewrite Qmult_1_l.
    now apply inject_Z_le.
Qed.

Section StatsFacts.
Context `{StatsFetcher.StringParser}.

Lemma pitcher_rates_of_stats (sd : StatsFetcher.stats_data) :
  StatsFetcher.nonnegative_counts sd ->
  let p := StatsFetcher.pitcher_of_stats sd in
  0 <= StatsFetcher.strikeout_rate p <= 1
  /\ 0 <= StatsFetcher.walk_rate p <= 1
  /\ 0 <= StatsFetcher.ground_ball_rate p <= 1.
Proof.
  unfold StatsFetcher.nonnegative_counts. intros Hnn.
  repeat (apply Forall_cons_iff in Hnn as [? Hnn]).
  cbn [StatsFetcher.pitcher_of_stats StatsFetcher.strikeout_rate
       StatsFetcher.walk_rate StatsFetcher.ground_ball_rate].
  repeat split;
    match goal with
    | |- context [if (0 <? ?t)%Z then _ else _] =>
        destruct (Z.ltb_spec 0 t); [apply ratio_bounds; lia | lra]
    end.
Qed.

(** X8. Rates of [get_pitcher_stats]: when the counts read from the
    service are non-negative, the strikeout, walk and ground-ball rates
    returned lie in [0,1] (they are shares of batters faced or of outs,
    and 0 by default).  The labeler's pitcher tests
    [pitcher_k_rate > 9.0] and [pitcher_gb_rate > 1.5] therefore never
    hold for the statistics that [process_game_state] copies from the
    fetcher: the pitcher adjustment leaves every probability as it
    is. *)
Theorem X8_pitcher_rates_never_boost (self : StatsFetcher.PlayerStatsFetcher)
    (pitcher_id : Z) :
  (forall season group game_type sd,
      StatsFetcher._try_get_stats_with_retry self pitcher_id season group
        game_type = Some sd ->
      StatsFetcher.nonnegative_counts sd) ->
  let p := StatsFetcher.get_pitcher_stats self pitcher_id in
  0 <= StatsFetcher.strikeout_rate p <= 1
  /\ 0 <= StatsFetcher.walk_rate p <= 1
  /\ 0 <= StatsFetcher.ground_ball_rate p <= 1
  /\ forall (s : situation) (tac : string) (prob : Q),
       pitcher s = Some (pitcher_update p) ->
       pitcher_adjusted s tac prob = prob.
Proof.
  intros Hnn p.
  assert (Hrates : 0 <= StatsFetcher.strikeout_rate p <= 1
                   /\ 0 <= StatsFetcher.walk_rate p <= 1
                   /\ 0 <= StatsFetcher.ground_ball_rate p <= 1).
  { unfold p, StatsFetcher.get_pitcher_stats.
    destruct (StatsFetcher.lookup_with_fallbacks self pitcher_id "pitching")
      as [sd |] eqn:El; [| simpl; lra].
    destruct (StatsFetcher.missing (Some sd)); [simpl; lra |].
    apply pitcher_rates_of_stats.
    unfold StatsFetcher.lookup_with_fallbacks in El.
    repeat match type of El with
           | context [if ?b then _ else _] => destruct b
           end; eapply Hnn; exact El. }
  destruct Hrates as (Hk & Hw & Hg). repeat split; try tauto.
  intros s tac prob Hs. unfold pitcher_adjusted. rewrite Hs.
  cbn [pitcher_update pitcher_k_rate pitcher_gb_rate].
  assert (Ek : Py.Qgtb (StatsFetcher.strikeout_rate p) 9.0 = false)
    by (apply Qltb_false; lra).
  assert (Eg : Py.Qgtb (StatsFetcher.ground_ball_rate p) 1.5 = false)
    by (apply Qltb_false; lra).
  now rewrite Ek, Eg, !andb_false_r.
Qed.

Lemma valid_events_taxonomy : valid_events = taxonomy_actions.
Proof. reflexivity. Qed.

Lemma process_play_kept (fetcher : option StatsFetcher.PlayerStatsFetcher)
    (play : raw_play) :
  kept play = true ->
  exists row,
    process_play fetcher play = inr (Some row)
    /\ row_situation row = fst (play_record fetcher play)
    /\ row_runners row = process_runners_flat (runners play)
    /\ calculate_tactical_probabilities (row_situation row)
       = inr {| probabilities := row_probabilities row;
                primary_tactic := row_primary_tactic row |}
    /\ In (result (row_situation row)) taxonomy_actions
    /\ Forall (fun kv => 0.4 <= snd kv <= 1.656) (row_probabilities row).
Proof.
  intros Hk. unfold process_play.
  destruct (play_record fetcher play) as [s flat] eqn:Er.
  assert (Eres : result s = result_event play).
  { unfold play_record in Er. injection Er as <- _. reflexivity. }
  assert (Eflat : flat = process_runners_flat (runners play)).
  { unfold play_record in Er. injection Er as _ <-. reflexivity. }
  rewrite Eres. unfold kept in Hk. rewrite Hk.
  assert (Hin : In (result s) taxonomy_actions).
  { rewrite Eres, <- valid_events_taxonomy. apply mem_str_In. exact Hk. }
  destruct (labeler_mapped_entries s Hin) as (infos & best & _ & _ & _ & Hr).
  rewrite Hr. cbn [Py.bind probabilities primary_tactic].
  eexists. split; [reflexivity |].
  cbn [row_situation row_runners row_probabilities row_primary_tactic fst].
  split; [reflexivity |]. split; [exact Eflat |]. split; [exact Hr |].
  split; [exact Hin |].
  apply Forall_forall. intros kv Hkv.
  apply in_map_iff in Hkv as (info & <- & _). cbn [snd].
  split; [apply tactic_probability_ge_base | apply tactic_probability_upper].
Qed.

(** X9. On a feed whose plays carry the keys read with a plain
    subscript (inning, halfInning, event, outs), the loop of
    [process_game_state] never raises.  The rows it collects are, in
    feed order, the records of exactly the plays whose event is one of
    [VALID_EVENTS]; each of these events is an action of the taxonomy,
    and each row carries the label and probabilities the labeler
    computes for its record, all of them between 0.4 and 1.656: the
    labeler's fallback [{'contact_hitting': 100.0}] never enters the
    table. *)
Theorem X9_process_game_state_rows
    (fetcher : option StatsFetcher.PlayerStatsFetcher)
    (plays : list raw_play) :
  exists rows,
    process_game_state fetcher plays = inr rows
    /\ map row_situation rows
       = map (fun play => fst (play_record fetcher play)) (filter kept plays)
    /\ map row_runners rows
       = map (fun play => process_runners_flat (runners play))
           (filter kept plays)
    /\ Forall
         (fun row =>
            calculate_tactical_probabilities (row_situation row)
            = inr {| probabilities := row_probabilities row;
                     primary_tactic := row_primary_tactic row |}
            /\ In (result (row_situation row)) taxonomy_actions
            /\ Forall (fun kv => 0.4 <= snd kv <= 1.656)
                 (row_probabilities row))
         rows.
Proof.
  induction plays as [| play plays IH].
  - exists []. repeat split; constructor.
  - destruct IH as (rows & Hrows & Hs & Hf & Hall).
    cbn [process_game_state filter]. rewrite Hrows.
    destruct (kept play) eqn:Hk.
    + destruct (process_play_kept fetcher play Hk)
        as (row & Hrow & H1 & H2 & H3 & H4 & H5).
      rewrite Hrow. cbn [Py.bind]. exists (row :: rows).
      split; [reflexivity |]. cbn [map].
      split; [now rewrite H1, Hs |]. split; [now rewrite H2, Hf |].
      constructor; [now repeat split | exact Hall].
    + assert (Hskip : process_play fetcher play = inr None).
      { unfold process_play.
        destruct (play_record fetcher play) as [s flat] eqn:Er.
        assert (Eres : result s = result_event play).
        { unfold play_record in Er. injection Er as <- _. reflexivity. }
        rewrite Eres. unfold kept in Hk. now rewrite Hk. }
      rewrite Hskip. cbn [Py.bind]. exists rows. now repeat split.
Qed.

(** X10. No matchup adjustment in the table: [get_matchup_history]
    always reports 0 at-bats, so for every record built by
    [process_game_state]'s [play_record], with or without a fetcher,
    the labeler's matchup adjustment ([matchup_abs > 10]) leaves every
    probability unchanged. *)
Theorem X10_matchup_adjustment_never_applies
    (fetcher : option StatsFetcher.PlayerStatsFetcher) (raw : raw_play)
    (tac : string) (prob : Q) :
  matchup_adjusted (fst (play_record fetcher raw)) tac prob = prob.
Proof.
  unfold matchup_adjusted, play_record. cbn [fst play matchup].
  destruct fetcher as [f |]; [| reflexivity].
  destruct (present_id (matchup_batter_id raw)); [| reflexivity].
  destruct (present_id (matchup_pitcher_id raw)); reflexivity.
Qed.

End StatsFacts.

(** ** stats_fetcher.py: conversions and fallbacks *)

Lemma replace_dot_no_dot (s : string) :
  StatsFetcher.has_dot s = false -> StatsFetcher.replace_dot s = s.
Proof.
  induction s as [| c s IH]; simpl; [reflexivity |].
  destruct (Ascii.eqb c "."); simpl; [discriminate |].
  intros Hs. now rewrite IH.
Qed.

Lemma replace_dot_app (a b : string) :
  StatsFetcher.has_dot a = false ->
  StatsFetcher.replace_dot (a ++ b) = (a ++ StatsFetcher.replace_dot b)%string.
Proof.
  induction a as [| c a IH]; simpl; [reflexivity |].
  destruct (Ascii.eqb c "."); simpl; [discriminate |].
  intros Ha. now rewrite IH.
Qed.

Lemma has_dot_app (a b : string) :
  StatsFetcher.has_dot (a ++ b)
  = StatsFetcher.has_dot a || StatsFetcher.has_dot b.
Proof.
  induction a as [| c a IH]; simpl; [reflexivity |].
  now rewrite IH, orb_assoc.
Qed.

Lemma lstrip_dash_app (a b : string) :
  a <> EmptyString -> StatsFetcher.lstrip_dash a = a ->
  StatsFetcher.lstrip_dash (a ++ b) = (a ++ b)%string.
Proof.
  destruct a as [| c a]; [congruence |]. simpl. intros _.
  destruct (Ascii.eqb c "-") eqn:E; [| reflexivity].
  intros Hs. exfalso.
  assert (Hlen : forall s, (String.length (StatsFetcher.lstrip_dash s)
                            <= String.length s)%nat).
  { induction s as [| c' s IHs]; simpl; [lia |].
    destruct (Ascii.eqb c' "-"); simpl; lia. }
  specialize (Hlen a). rewrite Hs in Hlen. simpl in Hlen. lia.
Qed.

Section ConversionFacts.
Context `{StatsFetcher.StringParser}.

(** X11. What [_safe_convert_stat] hands to [float]: for a string with
    one decimal point, a non-empty part before it that does not start
    with ['-'], and that is not one of the no-statistics markers, the
    point is replaced by ['0.'], so the value read is that of the
    integer part followed by 0, point, and the decimals ('3.45' is read
    as 30.45); a leading ['-'] is dropped first, so the sign is lost. *)
Theorem X11_safe_convert_stat_inserts_zero (a b : string) (default : Q) :
  a <> EmptyString ->
  StatsFetcher.lstrip_dash a = a ->
  StatsFetcher.has_dot a = false ->
  StatsFetcher.has_dot b = false ->
  ~ In (a ++ "." ++ b)%string StatsFetcher.no_stat_markers ->
  ~ In ("-" ++ a ++ "." ++ b)%string StatsFetcher.no_stat_markers ->
  let read := match StatsFetcher.float_of_str (a ++ "0." ++ b) with
              | Some q => q
              | None => default
              end in
  StatsFetcher._safe_convert_stat (StatsFetcher.JStr (a ++ "." ++ b)) default
  = read
  /\ StatsFetcher._safe_convert_stat
       (StatsFetcher.JStr ("-" ++ a ++ "." ++ b)) default
     = read.
Proof.
  intros Hne Hstrip Ha Hb Hm1 Hm2 read.
  assert (Hclean : StatsFetcher.cleaned (a ++ "." ++ b)
                   = (a ++ "0." ++ b)%string).
  { unfold StatsFetcher.cleaned. rewrite has_dot_app. simpl.
    rewrite orb_true_r. rewrite (lstrip_dash_app a _ Hne Hstrip).
    rewrite (replace_dot_app a _ Ha). simpl.
    now rewrite (replace_dot_no_dot b Hb). }
  assert (Hclean' : StatsFetcher.cleaned ("-" ++ a ++ "." ++ b)
                    = (a ++ "0." ++ b)%string).
  { unfold StatsFetcher.cleaned in *. simpl.
    rewrite has_dot_app in *. simpl in *. rewrite orb_true_r in *.
    exact Hclean. }
  assert (Hnot : forall s, ~ In s StatsFetcher.no_stat_markers ->
                   existsb (String.eqb s) StatsFetcher.no_stat_markers
                   = false).
  { intros s Hs. destruct (existsb _ _) eqn:E; [| reflexivity].
    exfalso. apply Hs. apply existsb_exists in E as (x & Hx & Ex).
    apply String.eqb_eq in Ex. now subst. }
  unfold StatsFetcher._safe_convert_stat.
  rewrite (Hnot _ Hm1), (Hnot _ Hm2), Hclean, Hclean'. now split.
Qed.

(** X12. The lookups of [get_batter_stats] in their order: the current
    season is used when it has a document; else the previous season
    with regular games; else the previous season with any game type;
    and when all three are missing the all-zero default statistics are
    returned. *)
Theorem X12_batter_stats_fallback_order
    (self : StatsFetcher.PlayerStatsFetcher) (batter_id : Z) :
  let year := StatsFetcher.season_year self in
  let current :=
    StatsFetcher._try_get_stats_with_retry self batter_id year "hitting" "R" in
  let previous :=
    StatsFetcher._try_get_stats_with_retry self batter_id (year - 1)
      "hitting" "R" in
  let any :=
    StatsFetcher._try_get_stats_with_retry self batter_id (year - 1)
      "hitting" "ANY" in
  let stats := StatsFetcher.get_batter_stats self batter_id in
  (forall sd, current = Some sd -> sd <> [] ->
              stats = StatsFetcher.batter_of_stats sd)
  /\ (forall sd, StatsFetcher.missing current = true ->
                 previous = Some sd -> sd <> [] ->
                 stats = StatsFetcher.batter_of_stats sd)
  /\ (forall sd, StatsFetcher.missing current = true ->
                 StatsFetcher.missing previous = true ->
                 any = Some sd -> sd <> [] ->
                 stats = StatsFetcher.batter_of_stats sd)
  /\ (StatsFetcher.missing current = true ->
      StatsFetcher.missing previous = true ->
      StatsFetcher.missing any = true ->
      stats = StatsFetcher.DEFAULT_BATTER_STATS).
Proof.
  intros year current previous any stats.
  unfold stats, StatsFetcher.get_batter_stats,
    StatsFetcher.lookup_with_fallbacks.
  fold year. fold current. fold previous. fold any.
  clearbody current previous any.
  assert (Hfound : forall sd : StatsFetcher.stats_data, sd <> [] ->
                     StatsFetcher.missing (Some sd) = false).
  { intros [| x sd] Hsd; [congruence | reflexivity]. }
  repeat split.
  - intros sd -> Hsd. now rewrite !(Hfound sd Hsd).
  - intros sd Hc -> Hsd. now rewrite Hc, !(Hfound sd Hsd).
  - intros sd Hc Hp -> Hsd. now rewrite Hc, Hp, !(Hfound sd Hsd).
  - intros Hc Hp Ha. now rewrite Hc, Hp, Ha.
Qed.

End ConversionFacts.

(** ** model_training.py: the shape of predictions *)

Lemma insert_desc_perm (x : string * Q) (l : list (string * Q)) :
  Permutation (insert_desc x l) (x :: l).
Proof.
  induction l as [| y l IH]; simpl; [reflexivity |].
  destruct (Py.Qgeb (snd x) (snd y)); [reflexivity |].
  rewrite IH. apply perm_swap.
Qed.

Lemma sorted_desc_perm (d : dict Q) : Permutation (sorted_desc d) d.
Proof.
  induction d as [| x d IH]; simpl; [reflexivity |].
  rewrite insert_desc_perm. now constructor.
Qed.

Lemma insert_desc_sorted (x : string * Q) (l : list (string * Q)) :
  Sorted desc l -> Sorted desc (insert_desc x l).
Proof.
  induction 1 as [| y l Hs IH Hhd]; simpl.
  - repeat constructor.
  - destruct (Py.Qgeb (snd x) (snd y)) eqn:E.
    + apply Qgeb_true in E. repeat constructor; assumption.
    + apply Qleb_false in E. constructor; [exact IH |].
      destruct l as [| z l]; simpl.
      * constructor. unfold desc. now apply Qlt_le_weak.
      * destruct (Py.Qgeb (snd x) (snd z)); constructor.
        -- unfold desc. now apply Qlt_le_weak.
        -- now inversion Hhd.
Qed.

Lemma sorted_desc_sorted (d : dict Q) : Sorted desc (sorted_desc d).
Proof.
  induction d as [| x d IH]; simpl; [constructor |].
  now apply insert_desc_sorted.
Qed.

Lemma round_half_even_ge_floor (x : Q) : (Qfloor x <= Py.round_half_even x)%Z.
Proof.
  unfold Py.round_half_even. cbv zeta. set (f := Qfloor x).
  destruct (Py.Qltb (x - inject_Z f) (1 # 2)); [lia |].
  destruct (Py.Qltb (1 # 2) (x - inject_Z f)); [lia |].
  destruct (Z.even f); lia.
Qed.

(** Rounding to two decimals does not go below an integer bound. *)
Lemma round2_ge (n : Z) (x : Q) : inject_Z n <= x -> inject_Z n <= Py.round2 x.
Proof.
  intros Hx. unfold Py.round2.
  assert (Hf : (n * 100 <= Qfloor (x * 100))%Z).
  { rewrite <- (Qfloor_Z (n * 100)). apply Qfloor_resp_le.
    rewrite inject_Z_mult. change (inject_Z 100) with 100. nra. }
  pose proof (round_half_even_ge_floor (x * 100)) as Hr.
  set (y := x * 100) in *. clearbody y.
  apply Qle_shift_div_l; [reflexivity |].
  change 100 with (inject_Z 100). rewrite <- inject_Z_mult.
  apply inject_Z_le. lia.
Qed.

Lemma dict_set_in {V : Type} (d : dict V) (k k' : string) (v x : V) :
  In (k', x) (Dict.set d k v) -> (k' = k /\ x = v) \/ In (k', x) d.
Proof.
  induction d as [| [k0 v0] d IH]; simpl.
  - intros [[= <- <-] | []]. now left.
  - destruct (String.eqb_spec k k0) as [-> | Hne]; simpl.
    + intros [[= <- <-] | Hin]; [now left | now right; right].
    + intros [E | Hin]; [now right; left |].
      destruct (IH Hin) as [Hl | Hr]; [now left | now right; right].
Qed.

Section PredictionShape.
Context {classifier : Type} `{Classifier classifier} `{NumericParser}.
Implicit Types (self : TacticalPredictor classifier) (game_state : DataFrame).

(** What the grouping loop keeps true of every stored entry. *)
Let stored self (classes : list string) (category tac : string) (v : Q)
    : Prop :=
  5 <= v
  /\ In tac classes
  /\ match Dict.get (tactics_to_category self) tac with
     | Some c => c
     | None => "OTHER"
     end = category.

Lemma record_probability_invariant self (classes : list string)
    (acc acc' : dict (dict Q)) (tac : string) (prob : Q) :
  In tac classes ->
  (forall category entries, In (category, entries) acc ->
     forall t v, In (t, v) entries -> stored self classes category t v) ->
  record_probability self acc (tac, prob) = inr acc' ->
  Dict.keys acc' = Dict.keys acc
  /\ forall category entries, In (category, entries) acc' ->
       forall t v, In (t, v) entries -> stored self classes category t v.
Proof.
  intros Hc Hacc. unfold record_probability.
  destruct (Py.Qgeb prob 0.05) eqn:Ep; [| intros [= <-]; now split].
  set (cat := match Dict.get (tactics_to_category self) tac with
              | Some c => c
              | None => "OTHER"
              end).
  destruct (Dict.get acc cat) as [inner |] eqn:Ei; [| discriminate].
  intros [= <-]. split.
  - apply dict_set_keys_old. apply dict_get_in in Ei.
    now apply (in_map fst) in Ei.
  - intros category entries Hin t v Htv.
    apply dict_set_in in Hin as [[-> ->] | Hin]; [| now apply (Hacc _ _ Hin)].
    apply dict_set_in in Htv as [[-> ->] | Htv].
    + split; [| split; [exact Hc | reflexivity]].
      apply (round2_ge 5). apply Qgeb_true in Ep.
      change (inject_Z 5) with 5. lra.
    + apply dict_get_in in Ei. now apply (Hacc _ _ Ei).
Qed.

Lemma group_by_category_shape self (classes : list string) (probs : list Q)
    (out : dict (dict Q)) :
  group_by_category self classes probs = inr out ->
  Dict.keys out = Dict.keys TACTICAL_CATEGORIES
  /\ forall category entries, In (category, entries) out ->
       Sorted desc entries
       /\ forall t v, In (t, v) entries -> stored self classes category t v.
Proof.
  unfold group_by_category. intros Hg.
  apply bind_inr in Hg as (acc' & Hfold & [= <-]).
  set (start := map (fun category : string => (category, @nil (string * Q)))
                  (Dict.keys TACTICAL_CATEGORIES)) in Hfold.
  assert (Hinv : forall l (acc : dict (dict Q)),
             (forall tp, In tp l -> In (fst tp) classes) ->
             (forall category entries, In (category, entries) acc ->
                forall t v, In (t, v) entries ->
                            stored self classes category t v) ->
             Py.foldM (record_probability self) l acc = inr acc' ->
             Dict.keys acc' = Dict.keys acc
             /\ forall category entries, In (category, entries) acc' ->
                  forall t v, In (t, v) entries ->
                              stored self classes category t v).
  { induction l as [| [tac prob] l IH]; intros acc Hl Hacc; simpl.
    - intros [= <-]. now split.
    - intros Hb. apply bind_inr in Hb as (acc1 & H1 & Hrest).
      destruct (record_probability_invariant self classes acc acc1 tac prob)
        as (Hk1 & Hacc1); try assumption.
      { apply (Hl (tac, prob)). now left. }
      destruct (IH acc1) as (Hk & Hfin); try assumption.
      { intros tp Htp. apply Hl. now right. }
      split; [congruence | exact Hfin]. }
  destruct (Hinv (combine classes probs) start) as (Hk & Hfin).
  - intros [t q] Hin. now apply in_combine_l in Hin.
  - intros category entries Hin. unfold start in Hin.
    apply in_map_iff in Hin as (c & [= _ <-] & _). intros t v [].
  - exact Hfold.
  - split.
    + unfold Dict.keys in *. rewrite map_map. cbn [fst].
      change (map (fun x : string * dict Q => fst x) acc')
        with (map fst acc').
      rewrite Hk. unfold start. rewrite map_map. cbn [fst]. apply map_id.
    + intros category entries Hin.
      apply in_map_iff in Hin as ([c e] & [= <- <-] & Hin). cbn [snd].
      split; [apply sorted_desc_sorted |].
      intros t v Htv. apply (Hfin c e Hin).
      eapply Permutation_in; [apply sorted_desc_perm | exact Htv].
Qed.

(** X13. The shape of every result of [predict_proba]: its keys are
    the three categories of the taxonomy in their order; within a
    category the entries come in non-increasing order of percentage;
    every reported percentage is at least 5, its tactic is a class of
    the model, and it is filed under the category [__init__] recorded
    for that tactic. *)
Theorem X13_predict_proba_shape self game_state (out : dict (dict Q)) :
  predict_proba self game_state = inr out ->
  Dict.keys out = ["OFFENSIVE"; "BASERUNNING"; "DEFENSIVE"]
  /\ exists m,
       model self = Some m
       /\ forall category entries, In (category, entries) out ->
            Sorted desc entries
            /\ forall tac v, In (tac, v) entries ->
                 5 <= v
                 /\ In tac (classes_ m)
                 /\ Dict.get (tactics_to_category self) tac = Some category.
Proof.
  unfold predict_proba. intros Hp.
  apply bind_inr in Hp as (features & _ & Hp).
  destruct (model self) as [m |]; [| discriminate].
  apply bind_inr in Hp as (all & _ & Hp).
  apply bind_inr in Hp as (probabilities & _ & Hp).
  destruct (group_by_category_shape self (classes_ m) probabilities out Hp)
    as (Hk & Hall).
  split; [exact Hk |]. exists m. split; [reflexivity |].
  intros category entries Hin. destruct (Hall _ _ Hin) as (Hs & He).
  split; [exact Hs |]. intros tac v Htv.
  destruct (He _ _ Htv) as (Hv & Hc & Hcat).
  split; [exact Hv |]. split; [exact Hc |].
  destruct (Dict.get (tactics_to_category self) tac) as [c |];
    [now rewrite Hcat |].
  exfalso. apply (in_map fst) in Hin. cbn [fst] in Hin.
  change (map fst out) with (Dict.keys out) in Hin. rewrite Hk in Hin.
  rewrite <- Hcat in Hin. simpl in Hin.
  repeat destruct Hin as [Hin | Hin]; try discriminate. exact Hin.
Qed.

End PredictionShape.

Lemma sorted_firstn {A : Type} (R : A -> A -> Prop) (n : nat) (l : list A) :
  Sorted R l -> Sorted R (firstn n l).
Proof.
  revert l. induction n as [| n IH]; intros l Hs; simpl; [constructor |].
  destruct Hs as [| x l Hs Hhd]; [constructor |].
  constructor; [now apply IH |].
  destruct Hhd as [| y l Hxy]; destruct n; simpl; constructor. exact Hxy.
Qed.

Lemma in_firstn {A : Type} (n : nat) (l : list A) (x : A) :
  In x (firstn n l) -> In x l.
Proof.
  revert l. induction n as [| n IH]; intros [| y l]; simpl; try tauto.
  intros [E | Hin]; [now left | right; now apply IH].
Qed.

Lemma all_probs_source (tactical_probs : dict (dict Q)) (acc : dict Q)
    (t : string) (v : Q) :
  In (t, v)
    (fold_left
       (fun acc category =>
          fold_left (fun acc tp => Dict.set acc (fst tp) (snd tp))
            (snd category) acc)
       tactical_probs acc) ->
  In (t, v) acc
  \/ exists category entries,
       In (category, entries) tactical_probs /\ In (t, v) entries.
Proof.
  revert acc. induction tactical_probs as [| [c e] rest IH]; intros acc;
    simpl; [now left |].
  intros Hin. apply IH in Hin as [Hin | (c' & e' & Hc & He)].
  - assert (Hinner : forall l (a : dict Q),
               In (t, v) (fold_left
                            (fun acc tp => Dict.set acc (fst tp) (snd tp))
                            l a) ->
               In (t, v) a \/ In (t, v) l).
    { induction l as [| [k x] l IHl]; intros a; simpl; [now left |].
      intros Hl. apply IHl in Hl as [Hl | Hl]; [| now right; right].
      apply dict_set_in in Hl as [[-> ->] | Hl]; [right; now left | now left]. }
    apply Hinner in Hin as [Hin | Hin]; [now left |].
    right. exists c, e. split; [now left | exact Hin].
  - right. exists c', e'. split; [now right | exact He].
Qed.

Section AnalysisShape.
Context {classifier : Type} `{Classifier classifier} `{NumericParser}.
Implicit Types (self : TacticalPredictor classifier) (game_state : DataFrame).

(** X14. Every result of [analyze_situation] carries the output of
    [predict_proba] unchanged, at most three top tactics in
    non-increasing order of percentage, each taken from some category
    of that output, and one recommendation per top tactic, in the same
    order, with the same tactic and percentage. *)
Theorem X14_analyze_situation_shape self game_state (a : analysis) :
  analyze_situation self game_state = inr a ->
  predict_proba self game_state = inr (tactical_probabilities a)
  /\ (List.length (top_tactics a) <= 3)%nat
  /\ Sorted desc (top_tactics a)
  /\ (forall tac v, In (tac, v) (top_tactics a) ->
        exists category entries,
          In (category, entries) (tactical_probabilities a)
          /\ In (tac, v) entries)
  /\ map (fun r => (rec_tactic r, rec_probability r)) (recommendations a)
     = top_tactics a.
Proof.
  unfold analyze_situation. intros Ha.
  apply bind_inr in Ha as (tactical_probs & Hp & Ha).
  apply bind_inr in Ha as (ctx & _ & Ha).
  set (top := firstn 3 _) in Ha. injection Ha as <-.
  cbn [tactical_probabilities top_tactics recommendations].
  unfold top. clear top.
  split; [exact Hp |]. split; [apply firstn_le_length |].
  split; [apply sorted_firstn, sorted_desc_sorted |]. split.
  - intros tac v Hin. apply in_firstn in Hin.
    apply (Permutation_in _ (sorted_desc_perm _)) in Hin.
    apply all_probs_source in Hin as [[] | Hsrc]. exact Hsrc.
  - rewrite map_map. cbn [rec_tactic rec_probability].
    rewrite <- (map_id (firstn 3 _)) at 2. apply map_ext.
    now intros [t v].
Qed.

(** X15. The schema reconciliation of [predict_proba] does not extend
    to [analyze_situation]: on a record without an ['inning'] column,
    for which [predict_proba] returns a result (the column, if the
    model was fitted with it, is zero-filled), [analyze_situation]
    fails with [KeyError] when it summarises the context. *)
Theorem X15_analyze_situation_needs_inning self game_state
    (out : dict (dict Q)) :
  has_column game_state "inning" = false ->
  predict_proba self game_state = inr out ->
  analyze_situation self game_state = inl Py.KeyError.
Proof.
  intros Hcol Hp. unfold analyze_situation. rewrite Hp. cbn [Py.bind].
  unfold _analyze_context, column0, column.
  apply has_column_false, dict_get_none in Hcol. now rewrite Hcol.
Qed.

End AnalysisShape.

(** X16. The reasoning attached to a recommendation is never the
    fallback text ["Based on general game situation"]: a reason about
    the score is always present. *)
Theorem X16_reasoning_never_falls_back (tac : string) (ctx : context) :
  _get_recommendation_reasoning tac ctx <> "Based on general game situation".
Proof.
  unfold _get_recommendation_reasoning, category_reason, join.
  cbn [TACTICAL_CATEGORIES flat_map fst snd String.eqb Ascii.eqb Bool.eqb
       andb].
  destruct (7 <=? ctx_inning (game ctx))%Z;
    destruct (Py.Qgtb (ctx_pressure_index (game ctx)) 1.5);
    destruct (ctx_scoring_position (runner ctx));
    destruct (Z.abs (ctx_score_diff (game ctx)) <=? 2)%Z;
    destruct (0 <? ctx_score_diff (game ctx))%Z;
    repeat match goal with
           | |- context [Dict.mem tac ?d] => destruct (Dict.mem tac d)
           end;
    cbn; discriminate.
Qed.

(** ** model_training.py: persistence *)

Section Persistence.
Context {classifier : Type} `{Classifier classifier} `{NumericParser}.
Implicit Types (self other : TacticalPredictor classifier)
  (fs : filesystem classifier).

Lemma load_after_store self (filename : string) fs
    (m : classifier) (names : option (list string)) :
  Dict.get fs filename
  = Some {| md_model := Some m; md_feature_names := names |} ->
  load_model self filename fs
  = ({| model := Some m; feature_names := names; scaler := scaler self;
        tactics_to_category := tactics_to_category self |}, inr tt).
Proof. intros Hget. unfold load_model. now rewrite Hget. Qed.

(** X17. Model files are independent and the last save wins: after
    saving a trained predictor under one name and then any predictor
    under a different name, loading the first name restores the first
    model and feature names; after two saves under the same name,
    loading restores the second. *)
Theorem X17_saves_do_not_interfere self other (loader : TacticalPredictor classifier)
    (m m' : classifier) (f g : string) fs :
  model self = Some m ->
  model other = Some m' ->
  (f <> g ->
   exists loaded,
     load_model loader f (save_model other g (save_model self f fs))
     = (loaded, inr tt)
     /\ model loaded = Some m
     /\ feature_names loaded = feature_names self)
  /\ (exists loaded,
        load_model loader f (save_model other f (save_model self f fs))
        = (loaded, inr tt)
        /\ model loaded = Some m'
        /\ feature_names loaded = feature_names other).
Proof.
  intros Hm Hm'. split.
  - intros Hfg. eexists. split.
    + apply load_after_store. unfold save_model.
      rewrite dict_get_set. destruct (String.eqb_spec f g); [congruence |].
      rewrite dict_get_set_same. now rewrite Hm.
    + split; reflexivity.
  - eexists. split.
    + apply load_after_store. unfold save_model.
      rewrite dict_get_set_same. now rewrite Hm'.
    + split; reflexivity.
Qed.

(** X18. [load_model] is not atomic.  Loading a file that was saved by
    a predictor without a model raises [AttributeError] (at the print
    of the model's classes), but only after both attributes have been
    overwritten: the loading predictor loses the model it had, and its
    next [predict_proba] fails. *)
Theorem X18_failed_load_overwrites self other (f : string) fs :
  model other = None ->
  exists after,
    load_model self f (save_model other f fs) = (after, inl Py.AttributeError)
    /\ model after = None
    /\ feature_names after = feature_names other
    /\ forall game_state, exists e, predict_proba after game_state = inl e.
Proof.
  intros Hm. unfold load_model, save_model. rewrite dict_get_set_same.
  cbn [md_model md_feature_names model]. rewrite Hm.
  eexists. split; [reflexivity |]. cbn [model feature_names].
  split; [reflexivity |]. split; [reflexivity |].
  intros game_state.
  rewrite predict_proba_without_model by reflexivity.
  destruct (prepare_features _ game_state) as [e | features]; eauto.
Qed.

End Persistence.

(** ** predictor.py: adjusted probabilities *)

Lemma round_half_even_le (n : Z) (y : Q) :
  y <= inject_Z n -> (Py.round_half_even y <= n)%Z.
Proof.
  intros Hy. unfold Py.round_half_even. cbv zeta.
  pose proof (Qfloor_le y) as Hfl. pose proof (Qlt_floor y) as Hlt.
  assert (Hf : (Qfloor y <= n)%Z).
  { rewrite <- (Qfloor_Z n). now apply Qfloor_resp_le. }
  set (f := Qfloor y) in *.
  assert (Hhalf : 1 # 2 <= y - inject_Z f -> (f + 1 <= n)%Z).
  { intros Hr. destruct (Z.eq_dec f n) as [E | E]; [| lia].
    exfalso. rewrite E in Hr. lra. }
  destruct (Py.Qltb (y - inject_Z f) (1 # 2)) eqn:E1; [exact Hf |].
  apply Qltb_false in E1.
  destruct (Py.Qltb (1 # 2) (y - inject_Z f)); [now apply Hhalf |].
  destruct (Z.even f); [exact Hf | now apply Hhalf].
Qed.

Lemma round2_le (n : Z) (x : Q) : x <= inject_Z n -> Py.round2 x <= inject_Z n.
Proof.
  intros Hx. unfold Py.round2.
  assert (Hr : (Py.round_half_even (x * 100) <= n * 100)%Z).
  { apply round_half_even_le. rewrite inject_Z_mult.
    change (inject_Z 100) with 100. nra. }
  set (y := x * 100) in *. clearbody y.
  apply Qle_shift_div_r; [reflexivity |].
  change 100 with (inject_Z 100). rewrite <- inject_Z_mult.
  now apply inject_Z_le.
Qed.

Lemma clamp_bounds (x : Q) :
  0 <= Py.min (Py.max x 0) 100 <= 100.
Proof.
  assert (Hmax : 0 <= Py.max x 0).
  { unfold Py.max. destruct (Py.Qgtb 0 x) eqn:E; [apply Qle_refl |].
    now apply Qltb_false in E. }
  split; [apply py_min_ge; [exact Hmax | lra] | apply py_min_le_r].
Qed.

Lemma adjust_one_bounds (historical : historical_patterns)
    (momentum : option momentum_analysis) (category tac : string) (prob : Q) :
  0 <= adjust_one historical momentum category tac prob <= 100.
Proof.
  unfold adjust_one. set (x := Py.min _ 100).
  assert (Hx : 0 <= x <= 100) by apply clamp_bounds. clearbody x. split.
  - apply (round2_ge 0). now change (inject_Z 0) with 0.
  - apply (round2_le 100). now change (inject_Z 100) with 100.
Qed.

(** X19. [_adjust_probabilities] keeps the categories and, within each,
    the tactics, in the same order, and every adjusted value lies in
    [0,100], whatever the momentum and the historical rates. *)
Theorem X19_adjusted_probabilities_keep_keys_and_range
    (base_probs : dict (dict Q)) (ctx : context)
    (historical : historical_patterns)
    (momentum : option momentum_analysis) :
  let adjusted := _adjust_probabilities base_probs ctx historical momentum in
  map (fun c => (fst c, Dict.keys (snd c))) adjusted
  = map (fun c => (fst c, Dict.keys (snd c))) base_probs
  /\ forall category entries tac v,
       In (category, entries) adjusted -> In (tac, v) entries ->
       0 <= v <= 100.
Proof.
  unfold _adjust_probabilities. split.
  - rewrite map_map. apply map_ext. intros [c e]. cbn [fst snd].
    f_equal. unfold Dict.keys. rewrite map_map. reflexivity.
  - intros category entries tac v Hin Htv.
    apply in_map_iff in Hin as ([c e] & [= <- <-] & _).
    apply in_map_iff in Htv as ([t p] & [= <- <-] & _).
    apply adjust_one_bounds.
Qed.

Lemma Qltb_comp (x x' y y' : Q) :
  x == x' -> y == y' -> Py.Qltb x y = Py.Qltb x' y'.
Proof.
  intros Hx Hy. unfold Py.Qltb. f_equal. now apply Qleb_comp.
Qed.

Lemma round_half_even_comp (x x' : Q) :
  x == x' -> Py.round_half_even x = Py.round_half_even x'.
Proof.
  intros Hx. unfold Py.round_half_even. cbv zeta.
  rewrite (Qfloor_comp _ _ Hx).
  rewrite (Qltb_comp (x - inject_Z (Qfloor x')) (x' - inject_Z (Qfloor x'))
             (1 # 2) (1 # 2)) by (try rewrite Hx; reflexivity).
  rewrite (Qltb_comp (1 # 2) (1 # 2) (x - inject_Z (Qfloor x'))
             (x' - inject_Z (Qfloor x'))) by (try rewrite Hx; reflexivity).
  reflexivity.
Qed.

Lemma round_half_even_Z (k : Z) : Py.round_half_even (inject_Z k) = k.
Proof.
  unfold Py.round_half_even. cbv zeta. rewrite Qfloor_Z.
  assert (E : Py.Qltb (inject_Z k - inject_Z k) (1 # 2) = true).
  { apply Qltb_true. setoid_replace (inject_Z k - inject_Z k) with 0 by ring.
    reflexivity. }
  now rewrite E.
Qed.

(** Rounding a value that has two decimals already changes nothing. *)
Lemma round2_idempotent (y : Q) : Py.round2 (Py.round2 y) = Py.round2 y.
Proof.
  unfold Py.round2. set (k := Py.round_half_even (y * 100)).
  f_equal. f_equal.
  transitivity (Py.round_half_even (inject_Z k));
    [apply round_half_even_comp; field | apply round_half_even_Z].
Qed.

Lemma clamp_inside (v : Q) :
  0 <= v <= 100 -> Py.min (Py.max v 0) 100 = v.
Proof.
  intros [H0 H100]. unfold Py.max.
  assert (E : Py.Qgtb 0 v = false) by now apply Qltb_false.
  rewrite E. now apply py_min_l.
Qed.

(** X20. Without enrichment the classifier output comes back unchanged:
    with no historical rates (what an analyzer without corpus reports
    for every record) and no momentum, [_adjust_probabilities] returns
    exactly the mapping it was given, provided the percentages are
    values rounded to 2 decimals between 0 and 100, as [predict_proba]
    produces them. *)
Theorem X20_no_enrichment_is_identity (self : MLBTacticalAnalyzer)
    (game_state : DataFrame) (base_probs : dict (dict Q)) (ctx : context) :
  historical_data self = None ->
  (forall category entries tac v,
      In (category, entries) base_probs -> In (tac, v) entries ->
      0 <= v <= 100 /\ exists y, v = Py.round2 y) ->
  exists nothing,
    _analyze_historical_patterns self game_state = inr nothing
    /\ success_rates nothing = []
    /\ _adjust_probabilities base_probs ctx nothing None = base_probs.
Proof.
  intros Hnone Hvals. unfold _analyze_historical_patterns. rewrite Hnone.
  eexists. split; [reflexivity |]. split; [reflexivity |].
  unfold _adjust_probabilities.
  rewrite <- (map_id base_probs) at 2. apply map_ext_in.
  intros [c e] Hc. cbn [fst snd]. apply (f_equal (pair c)).
  rewrite <- (map_id e) at 2. apply map_ext_in.
  intros [t v] Ht. cbn [fst snd]. apply (f_equal (pair t)).
  destruct (Hvals c e t v Hc Ht) as (Hv & y & Hy).
  unfold adjust_one, hist_success_of. cbn [success_rates Dict.get].
  change (Py.Qgtb 0 0) with false. cbv iota.
  rewrite (clamp_inside v Hv). rewrite Hy. apply round2_idempotent.
Qed.

(** ** predictor.py: momentum and historical rates *)

Lemma momentum_weight_cases (tac : string) :
  let weight := match Dict.get momentum_weights tac with
                | Some w => w
                | None => 0.1
                end in
  (tac = "patient_hitting" /\ weight = -0.1)
  \/ (tac <> "patient_hitting" /\ 0.1 <= weight <= 0.2).
Proof.
  unfold momentum_weights. cbn [Dict.get].
  destruct (String.eqb_spec tac "aggressive_hitting") as [-> | _];
    [right; split; [discriminate | lra] |].
  destruct (String.eqb_spec tac "patient_hitting") as [-> | Hp];
    [left; now split |].
  destruct (String.eqb_spec tac "power_hitting") as [-> | _];
    [right; split; [discriminate | lra] |].
  destruct (String.eqb_spec tac "small_ball") as [-> | _];
    [right; split; [discriminate | lra] |].
  destruct (String.eqb_spec tac "defensive_pressure") as [-> | _];
    [right; split; [discriminate | lra] |].
  destruct (String.eqb_spec tac "strikeout_hunting") as [-> | _];
    [right; split; [discriminate | lra] |].
  right. split; [exact Hp | lra].
Qed.

(** X21. The momentum factor: for recent-success ratios in [0,1] it
    lies in [-0.2, 0.2]; it is 0 when both sides have the same ratio;
    and when the batting side is ahead it is positive for every tactic
    except [patient_hitting], for which it is negative. *)
Theorem X21_momentum_factor (m : momentum_analysis) (tac : string) :
  let b := recent_success (batting_team m) in
  let p := recent_success (pitching_team m) in
  let factor := _calculate_momentum_factor m tac in
  (0 <= b <= 1 -> 0 <= p <= 1 -> -0.2 <= factor <= 0.2)
  /\ (b == p -> factor == 0)
  /\ (p < b -> tac <> "patient_hitting" -> 0 < factor)
  /\ (p < b -> tac = "patient_hitting" -> factor < 0).
Proof.
  intros b p factor. unfold factor, _calculate_momentum_factor.
  fold b. fold p.
  destruct (momentum_weight_cases tac) as [[Et Ew] | [Et Ew]];
    cbv zeta in Ew.
  - rewrite Ew. split; [intros Hb Hp; split; nra |].
    split; [intros Hbp; rewrite Hbp; ring |].
    split; [intros _ Hne; contradiction | intros Hlt _; nra].
  - set (w := match Dict.get momentum_weights tac with
              | Some w => w
              | None => 0.1
              end) in *.
    clearbody w. split; [intros Hb Hp; split; nra |].
    split; [intros Hbp; rewrite Hbp; ring |].
    split; [intros Hlt _; nra | intros _ He; contradiction].
Qed.

Lemma has_column_tail (n : nat) (df : DataFrame) (col : string) :
  has_column (tail n df) col = has_column df col.
Proof.
  unfold has_column, labels, tail. cbn [columns]. now rewrite map_map.
Qed.

Lemma recent_success_without_indicators (recent_plays : DataFrame)
    (team_type : string) (ratio : Q) :
  without_indicators recent_plays = true ->
  _calculate_recent_success recent_plays team_type = inr ratio ->
  ratio == 0.
Proof.
  unfold without_indicators, indicator_columns. cbn [forallb].
  intros Hw. repeat (apply andb_true_iff in Hw as [?Hc Hw]).
  repeat match goal with
         | Hc : negb _ = true |- _ => apply negb_true_iff in Hc
         end.
  unfold _calculate_recent_success.
  destruct (empty recent_plays); [now intros [= <-] |].
  unfold success_indicators.
  destruct (String.eqb team_type "batting");
    [| destruct (String.eqb team_type "pitching"); [| discriminate]];
    cbn [Py.bind]; unfold indicator_totals; cbn [filter];
    repeat match goal with
           | Hc : has_column recent_plays _ = false |- _ =>
               rewrite Hc; clear Hc
           end;
    cbn [Py.mapM Py.bind]; intros [= <-];
    rewrite py_min_l; unfold Py.sum; cbn [fold_left];
    try (unfold Qdiv; rewrite Qmult_0_l; reflexivity);
    unfold Qdiv; rewrite Qmult_0_l; discriminate.
Qed.

(** X22. [_calculate_recent_success] never returns more than 1, and on
    a frame that has none of the six indicator columns (hit, walk,
    run_scored, strikeout, out, double_play) it returns 0 for either
    side. *)
Theorem X22_recent_success_range (recent_plays : DataFrame)
    (team_type : string) (ratio : Q) :
  _calculate_recent_success recent_plays team_type = inr ratio ->
  ratio <= 1
  /\ (without_indicators recent_plays = true -> ratio == 0).
Proof.
  intros Hr. split.
  - revert Hr. unfold _calculate_recent_success.
    destruct (empty recent_plays); [intros [= <-]; lra |].
    intros Hb. apply bind_inr in Hb as (inds & _ & Hb).
    apply bind_inr in Hb as (totals & _ & [= <-]).
    eapply Qle_trans; [apply py_min_le_r | lra].
  - intros Hw. exact (recent_success_without_indicators _ _ _ Hw Hr).
Qed.

Lemma py_max_comp (x x' b : Q) : x == x' -> Py.max x b == Py.max x' b.
Proof.
  intros Hx. unfold Py.max, Py.Qgtb.
  rewrite (Qltb_comp x x' b b Hx (Qeq_refl b)).
  now destruct (Py.Qltb x' b).
Qed.

Lemma py_min_comp (x x' b : Q) : x == x' -> Py.min x b == Py.min x' b.
Proof.
  intros Hx. unfold Py.min.
  rewrite (Qltb_comp b b x x' (Qeq_refl b) Hx).
  now destruct (Py.Qltb b x').
Qed.

Lemma round2_comp (x x' : Q) : x == x' -> Py.round2 x = Py.round2 x'.
Proof.
  intros Hx. unfold Py.round2. do 2 f_equal.
  apply round_half_even_comp. now rewrite Hx.
Qed.

Lemma adjust_one_zero_factor (historical : historical_patterns)
    (m : momentum_analysis) (category tac : string) (prob : Q) :
  _calculate_momentum_factor m tac == 0 ->
  adjust_one historical (Some m) category tac prob
  = adjust_one historical None category tac prob.
Proof.
  intros Hf. unfold adjust_one. cbv zeta.
  apply round2_comp, py_min_comp, py_max_comp.
  rewrite Hf. ring.
Qed.

(** X23. Momentum is inert without indicator columns: when the frame
    of plays is not empty and has none of the six indicator columns,
    the momentum analysis that [_analyze_momentum] returns for it
    gives a zero factor for every tactic, and [_adjust_probabilities]
    with that momentum returns what it returns without momentum. *)
Theorem X23_momentum_inert_without_indicators (game_state : DataFrame)
    (m : momentum_analysis) :
  without_indicators game_state = true ->
  _analyze_momentum game_state = inr (Some m) ->
  (forall tac, _calculate_momentum_factor m tac == 0)
  /\ forall base_probs ctx historical,
       _adjust_probabilities base_probs ctx historical (Some m)
       = _adjust_probabilities base_probs ctx historical None.
Proof.
  intros Hw Hm.
  assert (Hw5 : without_indicators (tail 5 game_state) = true).
  { revert Hw. unfold without_indicators, indicator_columns.
    cbn [forallb]. now rewrite !has_column_tail. }
  unfold _analyze_momentum in Hm.
  destruct (empty game_state); [discriminate |].
  apply bind_inr in Hm as (bs & Hbs & Hm).
  apply bind_inr in Hm as (bp & _ & Hm).
  apply bind_inr in Hm as (ps & Hps & Hm).
  apply bind_inr in Hm as (pp & _ & [= <-]).
  apply (recent_success_without_indicators _ _ _ Hw5) in Hbs, Hps.
  assert (Hzero : forall tac,
             _calculate_momentum_factor
               {| batting_team :=
                    {| recent_success := bs; pressure_handling := bp |};
                  pitching_team :=
                    {| recent_success := ps; pressure_handling := pp |} |}
               tac == 0).
  { intros tac. unfold _calculate_momentum_factor.
    cbn [batting_team pitching_team recent_success].
    rewrite Hbs, Hps. ring. }
  split; [exact Hzero |].
  intros base_probs ctx historical. unfold _adjust_probabilities.
  apply map_ext. intros [c e]. cbn [fst snd]. apply (f_equal (pair c)).
  apply map_ext. intros [t v]. cbn [fst snd]. apply (f_equal (pair t)).
  apply adjust_one_zero_factor, Hzero.
Qed.

Lemma mapM_inr {A B : Type} (f : A -> Py.result B) (l : list A)
    (bs : list B) :
  Py.mapM f l = inr bs -> Forall2 (fun a b => f a = inr b) l bs.
Proof.
  revert bs. induction l as [| a l IH]; intros bs; simpl.
  - intros [= <-]. constructor.
  - intros Hb. apply bind_inr in Hb as (b & Hfa & Hb).
    apply bind_inr in Hb as (bs' & Hl & [= <-]).
    constructor; [exact Hfa | now apply IH].
Qed.

Lemma count_and_le (succ : list cell) (uses both : list bool) :
  Py.mapM (fun sb => cell_and (fst sb) (snd sb)) (combine succ uses)
  = inr both ->
  (List.length (filter (fun b => b) both)
   <= List.length (filter (fun b => b) uses))%nat.
Proof.
  revert uses both. induction succ as [| c succ IH]; intros uses both.
  - simpl. intros [= <-]. simpl. lia.
  - destruct uses as [| u uses]; simpl; [intros [= <-]; simpl; lia |].
    intros Hb. apply bind_inr in Hb as (b & Hc & Hb).
    apply bind_inr in Hb as (bs & Hrest & [= <-]).
    specialize (IH uses bs Hrest).
    assert (Hbu : b = true -> u = true).
    { destruct c; simpl in Hc; try discriminate; injection Hc as <-;
        intros Hand; apply andb_true_iff in Hand; tauto. }
    simpl. destruct b, u; simpl; try lia.
    all: discriminate (Hbu eq_refl).
Qed.

Lemma tactic_rate_range (similar : DataFrame) (tactic_name : string) (r : Q) :
  tactic_rate similar tactic_name = inr r -> 0 <= r <= 100.
Proof.
  unfold tactic_rate. intros Hb.
  apply bind_inr in Hb as (succ & _ & Hb).
  apply bind_inr in Hb as (tacs & _ & Hb).
  apply bind_inr in Hb as (both & Hboth & [= <-]).
  apply count_and_le in Hboth.
  set (success := List.length (filter (fun b => b) both)) in *.
  set (total := List.length
                  (filter (fun b => b)
                     (map (cell_eq (CStr tactic_name)) tacs))) in *.
  assert (Hrate : 0 <= (if (0 <? total)%nat
                        then Py.qnat success / Py.qnat total * 100
                        else 0) <= 100).
  { destruct (Nat.ltb_spec 0 total) as [Hpos | _]; [| lra].
    assert (Hq : 0 <= Py.qnat success / Py.qnat total <= 1).
    { pose proof (qnat_pos _ Hpos) as Ht. split.
      - apply Qle_shift_div_l; [exact Ht |]. rewrite Qmult_0_l.
        apply qnat_nonneg.
      - apply Qle_shift_div_r; [exact Ht |]. rewrite Qmult_1_l.
        now apply qnat_le. }
    nra. }
  split.
  - apply (round2_ge 0). change (inject_Z 0) with 0. tauto.
  - apply (round2_le 100). change (inject_Z 100) with 100. tauto.
Qed.

Lemma keep_length {B : Type} (mask : list bool) (l : list B) :
  (List.length (Pandas.keep mask l) <= List.length l)%nat.
Proof.
  revert l. induction mask as [| b mask IH]; intros [| x l]; simpl; try lia.
  specialize (IH l). destruct b; simpl; lia.
Qed.

(** X24. Historical patterns: whenever [_analyze_historical_patterns]
    returns, every success rate it reports is a percentage between 0
    and 100, the sample size does not exceed the number of rows of the
    corpus, and the rates are either absent altogether or listed for
    every category and tactic of the taxonomy, in taxonomy order;
    without a corpus they are absent and the sample size is 0. *)
Theorem X24_historical_patterns (self : MLBTacticalAnalyzer)
    (game_state : DataFrame) (h : historical_patterns) :
  _analyze_historical_patterns self game_state = inr h ->
  (forall category rates tac r,
      In (category, rates) (success_rates h) -> In (tac, r) rates ->
      0 <= r <= 100)
  /\ (sample_size h
      <= match historical_data self with
         | Some corpus => nrows corpus
         | None => 0
         end)%nat
  /\ (success_rates h = []
      \/ map (fun c => (fst c, Dict.keys (snd c))) (success_rates h)
         = map (fun c => (fst c, Dict.keys (snd c))) TACTICAL_CATEGORIES)
  /\ (historical_data self = None ->
      success_rates h = [] /\ sample_size h = 0%nat).
Proof.
  unfold _analyze_historical_patterns.
  destruct (historical_data self) as [corpus |] eqn:Ecorpus.
  2:{ intros [= <-]. cbn. repeat split; try tauto; try lia. }
  assert (Hnothing :
            forall h0, h0 = {| success_rates := []; sample_size := 0 |} ->
              (forall category rates tac r,
                  In (category, rates) (success_rates h0) ->
                  In (tac, r) rates -> 0 <= r <= 100)
              /\ (sample_size h0 <= nrows corpus)%nat
              /\ (success_rates h0 = []
                  \/ map (fun c => (fst c, Dict.keys (snd c)))
                       (success_rates h0)
                     = map (fun c => (fst c, Dict.keys (snd c)))
                         TACTICAL_CATEGORIES)
              /\ (Some corpus = None ->
                  success_rates h0 = [] /\ sample_size h0 = 0%nat)).
  { intros h0 ->. cbn. repeat split; try tauto; try lia; try discriminate. }
  destruct (empty game_state); [intros [= <-]; now apply Hnothing |].
  intros Hb. apply bind_inr in Hb as (found & Hfind & Hb).
  destruct found as [similar |]; [| injection Hb as <-; now apply Hnothing].
  apply bind_inr in Hb as (rates & Hrates & [= <-]).
  cbn [success_rates sample_size]. apply mapM_inr in Hrates.
  clear Hnothing. set (cats := TACTICAL_CATEGORIES) in *. clearbody cats.
  split; [| split; [| split; [| discriminate]]].
  - intros category crates tac r Hin Htr.
    assert (Hcat : exists c, In c cats
                   /\ Forall2 (fun t tr => Py.bind (tactic_rate similar t)
                                             (fun r => inr (t, r)) = inr tr)
                        (Dict.keys (snd c)) crates).
    { clear Htr. induction Hrates as [| c cr cs rs Hc _ IH]; [destruct Hin |].
      destruct Hin as [-> | Hin].
      - exists c. split; [now left |].
        apply bind_inr in Hc as (cr' & Hcr & [= _ <-]).
        now apply mapM_inr in Hcr.
      - destruct (IH Hin) as (c' & Hc' & Hf). exists c'.
        split; [now right | exact Hf]. }
    destruct Hcat as (c & _ & Hf). clear Hin Hrates.
    induction Hf as [| t tr ts trs Ht _ IH]; [destruct Htr |].
    destruct Htr as [-> | Htr]; [| now apply IH].
    apply bind_inr in Ht as (r' & Hr' & [= _ <-]).
    now apply tactic_rate_range in Hr'.
  - unfold _find_similar_situations in Hfind. rewrite Ecorpus in Hfind.
    destruct (empty game_state); [discriminate |].
    repeat (apply bind_inr in Hfind as (? & _ & Hfind)).
    destruct (empty _); [discriminate |]. injection Hfind as <-.
    unfold filter_rows. cbn [nrows].
    etransitivity; [apply keep_length | now rewrite length_seq].
  - right. clear Hfind.
    induction Hrates as [| c cr cs rs Hc _ IH]; [reflexivity |].
    cbn [map]. rewrite IH. f_equal.
    apply bind_inr in Hc as (cr' & Hcr & [= <-]). cbn [fst snd]. f_equal.
    apply mapM_inr in Hcr. clear IH.
    set (ks := Dict.keys (snd c)) in *. clearbody ks.
    induction Hcr as [| t tr ts trs Ht _ IHt]; [reflexivity |].
    unfold Dict.keys in *. cbn [map]. rewrite IHt. f_equal.
    apply bind_inr in Ht as (r' & _ & [= <-]). reflexivity.
Qed.

(** ** model_training.py: what the prepared features leave out *)

Lemma labels_drop {A : Type} (df : frame A) (cols : list string)
    (c : string) :
  In c (labels (drop df cols)) -> In c (labels df) /\ ~ In c cols.
Proof.
  unfold labels, drop. cbn [columns]. intros Hin.
  apply in_map_iff in Hin as ([k v] & <- & Hin).
  apply filter_In in Hin as [Hin Hk]. cbn [fst] in *. split.
  - now apply (in_map fst) in Hin.
  - intros Hc. apply negb_true_iff in Hk.
    assert (Ht : existsb (String.eqb k) cols = true).
    { apply existsb_exists. exists k. split; [exact Hc | apply String.eqb_refl]. }
    congruence.
Qed.

Lemma labels_assign {A : Type} (df : frame A) (k : string) (v : list A)
    (c : string) :
  In c (labels (assign df k v)) -> In c (labels df) \/ c = k.
Proof.
  unfold labels, assign. cbn [columns].
  induction (columns df) as [| [k0 v0] d IH]; simpl.
  - intros [<- | []]. now right.
  - destruct (String.eqb k k0); simpl; [tauto |].
    intros [<- | Hin]; [left; now left |].
    destruct (IH Hin) as [Hl | Hr]; [left; now right | now right].
Qed.

Lemma labels_get_dummies (df : DataFrame) (col c : string) :
  In c (labels (get_dummies df col)) ->
  (In c (labels df) /\ c <> col) \/ exists v, c = (col ++ "_" ++ v)%string.
Proof.
  unfold get_dummies. destruct (Dict.get (columns df) col) as [series |] eqn:E.
  - unfold labels. cbn [columns]. rewrite map_app. intros Hin.
    apply in_app_or in Hin as [Hin | Hin].
    + left. apply in_map_iff in Hin as ([k v] & <- & Hin).
      apply filter_In in Hin as [Hin Hk]. cbn [fst] in *. split.
      * now apply (in_map fst) in Hin.
      * apply negb_true_iff in Hk. now apply String.eqb_neq in Hk.
    + right. rewrite map_map in Hin. cbn [fst] in Hin.
      apply in_map_iff in Hin as (v & <- & _). now exists v.
  - intros Hin. left. split; [exact Hin |]. intros ->.
    apply dict_get_none in E. contradiction.
Qed.

Section Leakage.
Context `{NumericParser}.


End Leakage.

(** ** model_training.py: the row that the analysis describes *)

Import FirstRow.

Lemma with_label_map {A B : Type} (g : string * list A -> string * list B)
    (col : string) (d : list (string * list A)) :
  (forall c, fst (g c) = fst c) ->
  with_label col (map g d) = map g (with_label col d).
Proof.
  intros Hg. unfold with_label. induction d as [| c d IH]; simpl.
  - reflexivity.
  - rewrite Hg. destruct (String.eqb (fst c) col); simpl; now rewrite IH.
Qed.

Lemma get_with_label {A : Type} (d : list (string * list A)) (col : string) :
  Dict.get d col
  = match with_label col d with
    | [] => None
    | c :: _ => Some (snd c)
    end.
Proof.
  induction d as [| [k v] d IH]; simpl; [reflexivity |].
  rewrite String.eqb_sym. destruct (String.eqb k col); simpl;
    [reflexivity | exact IH].
Qed.

Lemma has_column_with_label {A : Type} (df : frame A) (col : string) :
  has_column df col
  = match with_label col (columns df) with
    | [] => false
    | _ => true
    end.
Proof.
  unfold has_column, labels, with_label.
  induction (columns df) as [| [k v] d IH]; simpl; [reflexivity |].
  rewrite String.eqb_sym. destruct (String.eqb k col); simpl;
    [reflexivity | exact IH].
Qed.

Lemma with_label_absent {A : Type} (d : list (string * list A))
    (col : string) :
  ~ In col (map fst d) -> with_label col d = [].
Proof.
  intros Hn. unfold with_label. induction d as [| [k v] d IH]; simpl;
    [reflexivity |].
  destruct (String.eqb_spec k col) as [-> | _].
  - exfalso. apply Hn. now left.
  - apply IH. intros Hin. apply Hn. now right.
Qed.

Lemma with_label_rest {A : Type} (d : list (string * list A))
    (col c : string) :
  with_label col (filter (fun x => negb (String.eqb (fst x) c)) d)
  = if String.eqb col c then [] else with_label col d.
Proof.
  unfold with_label. induction d as [| [k v] d IH]; simpl.
  - now destruct (String.eqb col c).
  - destruct (String.eqb_spec k c) as [-> | Hkc]; simpl.
    + rewrite IH. rewrite (String.eqb_sym c col).
      now destruct (String.eqb col c).
    + rewrite IH. destruct (String.eqb_spec k col) as [-> | Hk].
      * destruct (String.eqb_spec col c) as [-> | _];
          [contradiction | reflexivity].
      * reflexivity.
Qed.

Lemma with_label_set_new {A : Type} (d : list (string * list A))
    (col c : string) (v : list A) :
  with_label c d = [] ->
  with_label col (Dict.set d c v)
  = app (with_label col d) (if String.eqb c col then [(c, v)] else []).
Proof.
  unfold with_label. induction d as [| [k w] d IH]; simpl.
  - intros _. now destruct (String.eqb c col).
  - rewrite (String.eqb_sym c k).
    destruct (String.eqb k c) eqn:Ekc; [discriminate |].
    intros Hd. simpl. rewrite (IH Hd).
    now destruct (String.eqb k col).
Qed.

(** *** [head] and the steps of [prepare_features] *)

Lemma labels_head {A : Type} (df : frame A) :
  labels (head 1 df) = labels df.
Proof. unfold labels, head. cbn [columns]. now rewrite map_map. Qed.

Lemma has_column_head {A : Type} (df : frame A) (col : string) :
  has_column (head 1 df) col = has_column df col.
Proof. unfold has_column. now rewrite labels_head. Qed.

Lemma filter_labels_map {A : Type} (p : string -> bool) (n : nat)
    (d : list (string * list A)) :
  filter (fun c => p (fst c)) (map (fun c => (fst c, firstn n (snd c))) d)
  = map (fun c => (fst c, firstn n (snd c))) (filter (fun c => p (fst c)) d).
Proof.
  induction d as [| c d IH]; simpl; [reflexivity |].
  destruct (p (fst c)); simpl; now rewrite IH.
Qed.

Lemma drop_head {A : Type} (df : frame A) (cols : list string) :
  drop (head 1 df) cols = head 1 (drop df cols).
Proof.
  unfold drop, head. cbn [columns nrows]. f_equal.
  apply (filter_labels_map
           (fun k => negb (existsb (String.eqb k) cols))).
Qed.

Lemma get_head {A : Type} (df : frame A) (col : string) :
  Dict.get (columns (head 1 df)) col
  = option_map (firstn 1) (Dict.get (columns df) col).
Proof.
  unfold head. cbn [columns].
  induction (columns df) as [| [k v] d IH]; simpl; [reflexivity |].
  destruct (String.eqb col k); [reflexivity | exact IH].
Qed.

Lemma dict_set_map {V W : Type} (g : V -> W) (d : dict V) (k : string)
    (v : V) :
  Dict.set (map (fun c => (fst c, g (snd c))) d) k (g v)
  = map (fun c => (fst c, g (snd c))) (Dict.set d k v).
Proof.
  induction d as [| [k0 v0] d IH]; simpl; [reflexivity |].
  destruct (String.eqb k k0); simpl; [reflexivity | now rewrite IH].
Qed.

Lemma assign_head {A : Type} (df : frame A) (k : string) (v : list A) :
  assign (head 1 df) k (firstn 1 v) = head 1 (assign df k v).
Proof.
  unfold assign, head. cbn [columns nrows]. f_equal.
  apply (dict_set_map (firstn 1)).
Qed.

Lemma iloc0_firstn {A : Type} (series : list A) :
  iloc0 (firstn 1 series) = iloc0 series.
Proof. now destruct series. Qed.

Lemma mapM_firstn {A B : Type} (f : A -> Py.result B) (l : list A)
    (bs : list B) (n : nat) :
  Py.mapM f l = inr bs -> Py.mapM f (firstn n l) = inr (firstn n bs).
Proof.
  revert bs n. induction l as [| a l IH]; intros bs n; simpl.
  - intros [= <-]. now rewrite !firstn_nil.
  - intros Hb. apply bind_inr in Hb as (b & Hfa & Hb).
    apply bind_inr in Hb as (bs' & Hl & [= <-]).
    destruct n as [| n]; simpl; [reflexivity |].
    rewrite Hfa. simpl. now rewrite (IH bs' n Hl).
Qed.

Lemma process_runners_column_head (f f' : DataFrame) :
  process_runners_column f = inr f' ->
  process_runners_column (head 1 f) = inr (head 1 f').
Proof.
  unfold process_runners_column. rewrite has_column_head.
  destruct (has_column f "runners"); [| now intros [= <-]].
  unfold column. rewrite get_head.
  destruct (Dict.get (columns f) "runners") as [rs |]; simpl;
    [| discriminate].
  destruct rs as [| r0 rs]; [discriminate |].
  cbn [Py.bind iloc0 firstn].
  intros Hb. apply bind_inr in Hb as (f1 & Hf1 & [= <-]).
  destruct r0; try (injection Hf1 as <-; cbn [Py.bind];
                    now rewrite drop_head).
  apply bind_inr in Hf1 as (nr & Hnr & Hf1).
  apply bind_inr in Hf1 as (sp & Hsp & [= <-]).
  apply (mapM_firstn _ _ _ 1) in Hnr, Hsp.
  change (firstn 1 (CDict d :: rs)) with [CDict d] in Hnr, Hsp.
  rewrite Hnr. cbn [Py.bind]. rewrite Hsp. cbn [Py.bind].
  now rewrite !assign_head, drop_head.
Qed.

Lemma process_runners_column_nrows (f f' : DataFrame) :
  process_runners_column f = inr f' -> nrows f' = nrows f.
Proof.
  unfold process_runners_column.
  destruct (has_column f "runners"); [| now intros [= <-]].
  intros Hb. apply bind_inr in Hb as (rs & _ & Hb).
  apply bind_inr in Hb as (r0 & _ & Hb).
  apply bind_inr in Hb as (f1 & Hf1 & [= <-]).
  cbn [drop nrows].
  destruct r0; try (now injection Hf1 as <-).
  apply bind_inr in Hf1 as (nr & _ & Hf1).
  now apply bind_inr in Hf1 as (sp & _ & [= <-]).
Qed.

Lemma process_runners_column_labels (f f' : DataFrame) (c : string) :
  process_runners_column f = inr f' -> In c (labels f') ->
  In c (labels f) \/ c = "num_runners" \/ c = "scoring_position".
Proof.
  unfold process_runners_column.
  destruct (has_column f "runners"); [| intros [= <-]; tauto].
  intros Hb. apply bind_inr in Hb as (rs & _ & Hb).
  apply bind_inr in Hb as (r0 & _ & Hb).
  apply bind_inr in Hb as (f1 & Hf1 & [= <-]).
  intros Hc. apply labels_drop in Hc as [Hc _].
  destruct r0; try (injection Hf1 as <-; tauto).
  apply bind_inr in Hf1 as (nr & _ & Hf1).
  apply bind_inr in Hf1 as (sp & _ & [= <-]).
  apply labels_assign in Hc as [Hc | ->]; [| tauto].
  apply labels_assign in Hc as [Hc | ->]; tauto.
Qed.

(** *** The categories of a column *)

Lemma ltb_irrefl (x : string) : String.ltb x x = false.
Proof.
  unfold String.ltb. pose proof (String.compare_antisym x x) as Hc.
  destruct (String.compare x x); simpl in Hc; congruence.
Qed.

Lemma ltb_trans (x y z : string) :
  String.ltb x y = true -> String.ltb y z = true -> String.ltb x z = true.
Proof.
  unfold String.ltb. intros Hxy Hyz.
  destruct (String.compare x y) eqn:Exy; try discriminate.
  destruct (String.compare y z) eqn:Eyz; try discriminate.
  apply OrderedTypeEx.String_as_OT.cmp_lt in Exy, Eyz.
  pose proof (OrderedTypeEx.String_as_OT.lt_trans _ _ _ Exy Eyz) as Hxz.
  apply OrderedTypeEx.String_as_OT.cmp_lt in Hxz.
  unfold OrderedTypeEx.String_as_OT.cmp in Hxz. now rewrite Hxz.
Qed.

Lemma ltb_total (x y : string) :
  String.eqb x y = false -> String.ltb x y = false -> String.ltb y x = true.
Proof.
  unfold String.ltb. intros Hne Hlt.
  rewrite (String.compare_antisym y x).
  destruct (String.compare x y) eqn:E; simpl; try reflexivity;
    try discriminate.
  apply String.compare_eq_iff in E. apply String.eqb_neq in Hne.
  contradiction.
Qed.

Lemma insert_sorted_In (x y : string) (l : list string) :
  In y (insert_sorted x l) -> y = x \/ In y l.
Proof.
  induction l as [| z l IH]; simpl.
  - intros [<- | []]. now left.
  - destruct (String.eqb x z); [now right |].
    destruct (String.ltb x z); simpl.
    + intros [<- | H]; [now left | now right].
    + intros [<- | H]; [right; now left |].
      destruct (IH H) as [-> | Hl]; [now left | right; now right].
Qed.

Lemma In_insert_sorted (x y : string) (l : list string) :
  y = x \/ In y l -> In y (insert_sorted x l).
Proof.
  induction l as [| z l IH]; simpl.
  - intros [-> | []]. now left.
  - destruct (String.eqb_spec x z) as [-> | Hne].
    + intros [-> | H]; [now left | exact H].
    + destruct (String.ltb x z); simpl.
      * intros [-> | H]; [now left | now right].
      * intros [-> | [-> | H]]; [right; apply IH; now left | now left |].
        right. apply IH. now right.
Qed.

Lemma insert_sorted_sorted (x : string) (l : list string) :
  StronglySorted (fun a b => String.ltb a b = true) l ->
  StronglySorted (fun a b => String.ltb a b = true) (insert_sorted x l).
Proof.
  induction l as [| z l IH]; simpl; intros Hs.
  - constructor; constructor.
  - destruct (String.eqb x z) eqn:Exz; [exact Hs |].
    destruct (String.ltb x z) eqn:Elt.
    + constructor; [exact Hs |].
      apply StronglySorted_inv in Hs as [_ Hz].
      constructor; [exact Elt |].
      apply Forall_forall. intros w Hw.
      rewrite Forall_forall in Hz. apply (ltb_trans x z w Elt), Hz, Hw.
    + pose proof Hs as Hs'. apply StronglySorted_inv in Hs' as [Hl Hz].
      constructor; [now apply IH |].
      apply Forall_forall. intros w Hw.
      apply insert_sorted_In in Hw as [-> | Hw].
      * now apply ltb_total.
      * rewrite Forall_forall in Hz. now apply Hz.
Qed.

Lemma sorted_NoDup (l : list string) :
  StronglySorted (fun a b => String.ltb a b = true) l -> NoDup l.
Proof.
  induction 1 as [| a l Hs IH Ha]; constructor; [| exact IH].
  intros Hin. rewrite Forall_forall in Ha. specialize (Ha a Hin).
  now rewrite ltb_irrefl in Ha.
Qed.

Lemma categories_fold (series : list cell) (acc : list string) :
  StronglySorted (fun a b => String.ltb a b = true) acc ->
  let cats :=
    fold_left
      (fun acc c => match c with CStr s => insert_sorted s acc | _ => acc end)
      series acc in
  StronglySorted (fun a b => String.ltb a b = true) cats
  /\ forall x, In x acc \/ In (CStr x) series -> In x cats.
Proof.
  revert acc. induction series as [| c series IH]; intros acc Hs; simpl.
  - split; [exact Hs |]. intros x [H | []]. exact H.
  - destruct c;
      try (destruct (IH acc Hs) as [H1 H2]; split; [exact H1 |];
           intros x [H | [H | H]]; [apply H2; now left | discriminate
                                   | apply H2; now right]).
    destruct (IH (insert_sorted s acc) (insert_sorted_sorted s acc Hs))
      as [H1 H2].
    split; [exact H1 |]. intros x [H | [H | H]].
    + apply H2. left. apply In_insert_sorted. now right.
    + injection H as ->. apply H2. left. apply In_insert_sorted. now left.
    + apply H2. now right.
Qed.

Lemma categories_NoDup (series : list cell) : NoDup (categories series).
Proof.
  apply sorted_NoDup. apply (categories_fold series []). constructor.
Qed.

Lemma categories_In (series : list cell) (x : string) :
  In (CStr x) series -> In x (categories series).
Proof.
  intros Hin.
  apply (proj2 (categories_fold series [] (SSorted_nil _))). now right.
Qed.

(** *** Indicator columns *)

Lemma append_inj (a x y : string) :
  (a ++ x)%string = (a ++ y)%string -> x = y.
Proof.
  induction a as [| c a IH]; simpl; [auto |]. intros [= E]. now apply IH.
Qed.

Lemma with_label_dummies_none {A : Type} (c col : string)
    (g : string -> list A) (vs : list string) :
  (forall v, In v vs -> col <> (c ++ "_" ++ v)%string) ->
  with_label col (map (fun v => ((c ++ "_" ++ v)%string, g v)) vs) = [].
Proof.
  intros Hn. apply with_label_absent. rewrite map_map. cbn [fst].
  intros Hin. apply in_map_iff in Hin as (v & <- & Hv). now apply (Hn v).
Qed.

Lemma with_label_dummies_one {A : Type} (c : string)
    (g : string -> list A) (vs : list string) (v : string) :
  NoDup vs -> In v vs ->
  with_label (c ++ "_" ++ v)
    (map (fun v => ((c ++ "_" ++ v)%string, g v)) vs)
  = [((c ++ "_" ++ v)%string, g v)].
Proof.
  induction 1 as [| v0 vs Hv0 Hnd IH]; [intros [] |].
  intros [-> | Hin].
  - change (with_label (c ++ "_" ++ v)
              (((c ++ "_" ++ v)%string, g v)
               :: map (fun v => ((c ++ "_" ++ v)%string, g v)) vs)
            = [((c ++ "_" ++ v)%string, g v)]).
    unfold with_label at 1. cbn [filter fst]. rewrite String.eqb_refl.
    f_equal. apply with_label_dummies_none. intros w Hw E.
    apply append_inj, append_inj in E. now subst.
  - change (with_label (c ++ "_" ++ v)
              (((c ++ "_" ++ v0)%string, g v0)
               :: map (fun v => ((c ++ "_" ++ v)%string, g v)) vs)
            = [((c ++ "_" ++ v)%string, g v)]).
    unfold with_label at 1. cbn [filter fst].
    destruct (String.eqb_spec (c ++ "_" ++ v0) (c ++ "_" ++ v))
      as [E | _].
    + apply append_inj, append_inj in E. now subst.
    + now apply IH.
Qed.

Lemma bool_to_int_string (a b : cell) (x : string) :
  bool_to_int a = bool_to_int b -> a = CStr x -> b = CStr x.
Proof. intros E ->. destruct b; simpl in E; congruence. Qed.

Lemma is_category_other (v : string) (c : cell) :
  c <> CStr v -> is_category v c = CBool false.
Proof.
  intros Hne. destruct c; try reflexivity. simpl.
  destruct (String.eqb_spec s v) as [-> | _]; [contradiction | reflexivity].
Qed.

Lemma cell_is_string (c : cell) (v : string) : c = CStr v \/ c <> CStr v.
Proof.
  destruct c; try (right; discriminate).
  destruct (string_dec s v) as [-> | Hne]; [now left | right; congruence].
Qed.

Lemma get_dummies_if (df : DataFrame) (c : string) :
  (if has_column df c then get_dummies df c else df) = get_dummies df c.
Proof.
  destruct (has_column df c) eqn:E; [reflexivity |].
  unfold get_dummies. apply has_column_false, dict_get_none in E.
  now rewrite E.
Qed.

Lemma with_label_app {A : Type} (col : string)
    (d1 d2 : list (string * list A)) :
  with_label col (app d1 d2) = app (with_label col d1) (with_label col d2).
Proof. apply filter_app. Qed.

(** One encoding step keeps the first-row relation. *)
Lemma first_row_of_get_dummies (G F : DataFrame) (c : string) :
  not_encoded c = true ->
  (forall v, not_encoded (c ++ "_" ++ v) = false) ->
  (forall v, ~ In (c ++ "_" ++ v)%string (labels F)) ->
  first_row_of G F ->
  first_row_of (get_dummies G c) (get_dummies F c).
Proof.
  intros Hc Henc Hfresh Hrel.
  assert (HfreshF : forall v, with_label (c ++ "_" ++ v) (columns F) = []).
  { intros v. apply with_label_absent, Hfresh. }
  assert (HfreshG : forall v, with_label (c ++ "_" ++ v) (columns G) = []).
  { intros v. destruct (Hrel (c ++ "_" ++ v)%string) as [Ha | (_ & Hg & _)];
      [| exact Hg].
    rewrite HfreshF in Ha. now apply map_eq_nil in Ha. }
  assert (Hcv : forall v, String.eqb (c ++ "_" ++ v) c = false).
  { intros v. apply String.eqb_neq. intros E.
    specialize (Henc v). rewrite E in Henc. congruence. }
  destruct (Hrel c) as [Ha | (Hne & _)]; [| congruence].
  unfold get_dummies. rewrite !get_with_label.
  destruct (with_label c (columns F)) as [| [k s] restF] eqn:EF.
  { apply map_eq_nil in Ha. rewrite Ha. exact Hrel. }
  destruct (with_label c (columns G)) as [| [k' s'] restG] eqn:EG;
    [discriminate |].
  cbn [map as_int first fst snd] in Ha. injection Ha as _ Hs _.
  cbn [snd]. intros col. cbn [columns].
  rewrite !with_label_app, !with_label_rest.
  (* the categories of the two columns *)
  assert (Hcats :
    (s = [] /\ s' = [])
    \/ exists c0 s1 c0', s = c0 :: s1 /\ s' = [c0']
                       /\ bool_to_int c0' = bool_to_int c0).
  { destruct s as [| c0 s1].
    - left. split; [reflexivity |]. now apply map_eq_nil in Hs.
    - right. exists c0, s1. destruct s' as [| c0' [| ? ?]];
        try discriminate. exists c0'. injection Hs as Hs.
      now repeat split. }
  destruct Hcats as [[-> ->] | (c0 & s1 & c0' & -> & -> & Hb)].
  { cbn [categories fold_left map app]. rewrite !app_nil_r.
    destruct (String.eqb col c); [now left | exact (Hrel col)]. }
  destruct (in_dec string_dec col
              (map (fun v => (c ++ "_" ++ v)%string)
                 (categories (c0 :: s1)))) as [Hin | Hout].
  - (* an indicator column of the whole frame *)
    apply in_map_iff in Hin as (v & <- & Hv).
    rewrite Hcv, HfreshF, HfreshG.
    rewrite (with_label_dummies_one c _ _ v (categories_NoDup _) Hv).
    cbn [app].
    destruct (cell_is_string c0 v) as [-> | Hne0].
    + assert (E0 : c0' = CStr v).
      { apply (bool_to_int_string (CStr v)); [now symmetry | reflexivity]. }
      subst c0'. left. cbn. now rewrite String.eqb_refl.
    + right. split; [apply Henc |]. split.
      * apply with_label_dummies_none. intros w Hw E.
        apply append_inj, append_inj in E. subst w.
        destruct c0'; cbn in Hw; try contradiction.
        destruct Hw as [-> | []].
        apply Hne0. now apply (bool_to_int_string (CStr v) c0).
      * exists (map (is_category v) s1). cbn [map].
        now rewrite (is_category_other v c0 Hne0).
  - (* any other column *)
    rewrite (with_label_dummies_none c col _ (categories (c0 :: s1))).
    2:{ intros v Hv ->. apply Hout. apply in_map_iff. now exists v. }
    rewrite (with_label_dummies_none c col _ (categories [c0'])).
    2:{ intros v Hv ->. apply Hout. apply in_map_iff. exists v.
        split; [reflexivity |]. apply categories_In.
        destruct c0'; cbn in Hv; try contradiction.
        destruct Hv as [-> | []]. left.
        now apply (bool_to_int_string (CStr v) c0). }
    rewrite !app_nil_r.
    destruct (String.eqb col c); [now left | exact (Hrel col)].
Qed.

(** *** The steps of [prepare_features] on the first row *)

Section FirstRowFacts.
Context {classifier : Type} `{Classifier classifier} `{NumericParser}.

Lemma as_int_first (c : string * list cell) :
  as_int (first c) = first (as_int c).
Proof.
  unfold as_int, first. cbn [fst snd]. f_equal. symmetry. apply firstn_map.
Qed.

Lemma labels_cast (f : DataFrame) :
  labels (cast_bool_columns f) = labels f.
Proof.
  unfold labels, cast_bool_columns. cbn [columns]. rewrite map_map.
  apply map_ext. intros [k v]. cbn [fst snd].
  now destruct (forallb is_bool v).
Qed.

Lemma first_row_of_cast (f : DataFrame) :
  first_row_of (cast_bool_columns (head 1 f)) (cast_bool_columns f).
Proof.
  intros col. left. unfold cast_bool_columns, head. cbn [columns].
  set (castc := fun c : string * list cell =>
                  if forallb is_bool (snd c)
                  then (fst c, map bool_to_int (snd c)) else c).
  assert (Hfst : forall c, fst (castc c) = fst c).
  { intros c. unfold castc. now destruct (forallb is_bool (snd c)). }
  assert (Hcast : forall c, as_int (castc c) = as_int c).
  { intros c. unfold castc. destruct (forallb is_bool (snd c));
      [| reflexivity].
    unfold as_int. cbn [fst snd]. f_equal. rewrite map_map.
    apply map_ext. now intros []. }
  rewrite (with_label_map castc) by exact Hfst.
  rewrite (with_label_map (fun c => (fst c, firstn 1 (snd c))))
    by reflexivity.
  rewrite (with_label_map castc col (columns f)) by exact Hfst.
  rewrite !map_map. apply map_ext. intros c.
  rewrite Hcast. change (fst c, firstn 1 (snd c)) with (first c).
  now rewrite !as_int_first, Hcast.
Qed.

Lemma first_row_of_all_numeric (G F : DataFrame) :
  first_row_of G F -> first_row_of_numeric (all_numeric G) (all_numeric F).
Proof.
  intros Hrel col. unfold all_numeric. cbn [columns].
  set (num := fun c : string * list cell =>
                (fst c, map to_numeric (snd c))).
  rewrite !(with_label_map num) by reflexivity.
  assert (E : forall l, map num l = map num (map as_int l)).
  { intros l. rewrite map_map. apply map_ext. intros [k s].
    unfold num, as_int. cbn [fst snd]. f_equal. rewrite map_map.
    apply map_ext. intros c0. destruct c0; try reflexivity.
    now destruct b. }
  destruct (Hrel col) as [Ha | (_ & Hg & s & Hf)].
  - left. rewrite (E (with_label col (columns G))), Ha, <- E.
    rewrite !map_map. apply map_ext. intros [k s].
    unfold num, first. cbn [fst snd]. f_equal. symmetry. apply firstn_map.
  - right. rewrite Hg, Hf. split; [reflexivity |].
    now exists (map to_numeric s).
Qed.

Lemma zero_fill_nrows (X : frame Q) (c : string) :
  nrows (zero_fill X c) = nrows X.
Proof. unfold zero_fill. now destruct (has_column X c). Qed.

Lemma zero_fill_has (X : frame Q) (c col : string) :
  col = c \/ has_column X col = true ->
  has_column (zero_fill X c) col = true.
Proof.
  unfold zero_fill. destruct (has_column X c) eqn:Ec.
  - intros [-> | Hc]; assumption.
  - intros Hor. unfold assign_scalar, assign.
    rewrite has_column_with_label in *. cbn [columns].
    rewrite with_label_set_new.
    2:{ destruct (with_label c (columns X)); [reflexivity | discriminate]. }
    destruct Hor as [-> | Hc].
    + rewrite String.eqb_refl. now destruct (with_label c (columns X)).
    + destruct (with_label col (columns X)); [discriminate | reflexivity].
Qed.

Lemma fill_has (names : list string) (X : frame Q) (col : string) :
  In col names \/ has_column X col = true ->
  has_column (fold_left zero_fill names X) col = true.
Proof.
  revert X. induction names as [| c names IH]; intros X; simpl.
  - intros [[] | Hc]. exact Hc.
  - intros [[-> | Hin] | Hc].
    + apply IH. right. apply zero_fill_has. now left.
    + apply IH. now left.
    + apply IH. right. apply zero_fill_has. now right.
Qed.

Lemma first_row_of_zero_fill (G F : frame Q) (c : string) :
  nrows G = 1%nat -> (1 <= nrows F)%nat -> first_row_of_numeric G F ->
  first_row_of_numeric (zero_fill G c) (zero_fill F c).
Proof.
  intros HG HF Hrel. unfold zero_fill. rewrite !has_column_with_label.
  destruct (Hrel c) as [Ha | (Hg & s & Hf)].
  - destruct (with_label c (columns F)) as [| x xs] eqn:EF.
    + cbn [map] in Ha. rewrite Ha.
      intros col. unfold assign_scalar, assign. cbn [columns].
      rewrite !with_label_set_new by assumption.
      rewrite HG. destruct (String.eqb_spec c col) as [<- | Hne].
      * left. rewrite EF, Ha. cbn [app map first fst snd].
        destruct (nrows F); [lia | reflexivity].
      * rewrite !app_nil_r. apply Hrel.
    + destruct (with_label c (columns G)); [discriminate | exact Hrel].
  - rewrite Hg, Hf.
    intros col. unfold assign_scalar, assign. cbn [columns].
    rewrite with_label_set_new by assumption. rewrite HG.
    destruct (String.eqb_spec c col) as [<- | Hne].
    + left. now rewrite Hg, Hf.
    + rewrite app_nil_r. apply Hrel.
Qed.

Lemma first_row_of_fill (names : list string) (G F : frame Q) :
  nrows G = 1%nat -> (1 <= nrows F)%nat -> first_row_of_numeric G F ->
  first_row_of_numeric (fold_left zero_fill names G)
    (fold_left zero_fill names F)
  /\ nrows (fold_left zero_fill names G) = 1%nat
  /\ nrows (fold_left zero_fill names F) = nrows F.
Proof.
  revert G F. induction names as [| c names IH]; intros G F HG HF Hrel;
    simpl; [now repeat split |].
  destruct (IH (zero_fill G c) (zero_fill F c)) as (H1 & H2 & H3).
  - now rewrite zero_fill_nrows.
  - now rewrite zero_fill_nrows.
  - now apply first_row_of_zero_fill.
  - repeat split; try assumption. now rewrite H3, zero_fill_nrows.
Qed.

Lemma select_first_row (G F : frame Q) (names : list string) (X : frame Q) :
  (forall col, In col names ->
     with_label col (columns G) = map first (with_label col (columns F))) ->
  select F names = inr X ->
  exists X', select G names = inr X'
             /\ columns X' = map first (columns X)
             /\ nrows X' = nrows G
             /\ nrows X = nrows F.
Proof.
  unfold select. intros Hcols Hb.
  apply bind_inr in Hb as (cs & Hcs & [= <-]).
  assert (Hm : Py.mapM (select_label G) names = inr (map (map first) cs)).
  { revert cs Hcs. induction names as [| a names IH]; intros cs; simpl.
    - now intros [= <-].
    - intros Hb. apply bind_inr in Hb as (c1 & H1 & Hb).
      apply bind_inr in Hb as (cs' & Hrest & [= <-]).
      rewrite (IH (fun col Hin => Hcols col (or_intror Hin)) cs' Hrest).
      unfold select_label in H1 |- *.
      change (filter (fun c => String.eqb (fst c) a) (columns F))
        with (with_label a (columns F)) in H1.
      change (filter (fun c => String.eqb (fst c) a) (columns G))
        with (with_label a (columns G)).
      rewrite (Hcols a (or_introl eq_refl)).
      destruct (with_label a (columns F)); [discriminate |].
      injection H1 as <-. reflexivity. }
  rewrite Hm. cbn [Py.bind]. eexists. split; [reflexivity |].
  cbn [columns nrows]. split; [| now split].
  symmetry. apply concat_map.
Qed.

Lemma reconcile_nrows (names : list string) (F X : frame Q) :
  reconcile names F = inr X -> nrows X = nrows F.
Proof.
  unfold reconcile, select. intros Hb.
  apply bind_inr in Hb as (cs & _ & [= <-]). cbn [nrows].
  clear cs. revert F. induction names as [| c names IH]; intros F; simpl;
    [reflexivity |].
  now rewrite IH, zero_fill_nrows.
Qed.

Lemma reconcile_first_row (names : list string) (G F X : frame Q) :
  nrows G = 1%nat -> (1 <= nrows F)%nat -> first_row_of_numeric G F ->
  reconcile names F = inr X ->
  exists X', reconcile names G = inr X'
             /\ columns X' = map first (columns X)
             /\ nrows X' = 1%nat.
Proof.
  intros HG HF Hrel. unfold reconcile.
  destruct (first_row_of_fill names G F HG HF Hrel) as (Hfill & HnG & _).
  intros Hsel.
  destruct (select_first_row (fold_left zero_fill names G)
              (fold_left zero_fill names F) names X) as (X' & H1 & H2 & H3 & _).
  - intros col Hin. destruct (Hfill col) as [Ha | (Hg & _)]; [exact Ha |].
    exfalso. pose proof (fill_has names G col (or_introl Hin)) as Hhas.
    rewrite has_column_with_label, Hg in Hhas. discriminate.
  - exact Hsel.
  - exists X'. repeat split; [exact H1 | exact H2 | now rewrite H3].
Qed.

Lemma sk_predict_proba_first_row (m : classifier) (X X' : frame Q)
    (all : list (list Q)) (probs : list Q) :
  columns X' = map first (columns X) -> nrows X' = 1%nat ->
  sk_predict_proba m X = inr all -> iloc0 all = inr probs ->
  exists all', sk_predict_proba m X' = inr all' /\ iloc0 all' = inr probs.
Proof.
  unfold sk_predict_proba, empty. intros Hc Hn.
  assert (Hl : labels X' = labels X).
  { unfold labels. now rewrite Hc, map_map. }
  rewrite Hl, Hc, Hn, length_map.
  destruct (nrows X) as [| n] eqn:En; [discriminate |].
  cbn [Nat.eqb orb].
  destruct (Nat.eqb (List.length (columns X)) 0); [discriminate |].
  destruct (same_labels (labels X) (feature_names_in_ m)); [| discriminate].
  intros [= <-]. unfold rows. rewrite Hn, En. cbn [seq map iloc0].
  intros [= <-]. eexists. split; [reflexivity |]. cbn [iloc0].
  do 2 f_equal. unfold row. rewrite Hc, map_map. apply map_ext.
  intros [k s]. cbn [first fst snd]. now destruct s.
Qed.

Lemma get_dummies_nrows (df : DataFrame) (c : string) :
  nrows (get_dummies df c) = nrows df.
Proof.
  unfold get_dummies. now destruct (Dict.get (columns df) c).
Qed.

Lemma numeric_features_first_row (gs : DataFrame) (Fn : frame Q) :
  forallb not_encoded (labels gs) = true ->
  numeric_features gs = inr Fn ->
  exists Gn,
    numeric_features (head 1 gs) = inr Gn
    /\ first_row_of_numeric Gn Fn
    /\ nrows Gn = Nat.min 1 (nrows gs)
    /\ nrows Fn = nrows gs.
Proof.
  intros Hlab. unfold numeric_features. rewrite labels_head, drop_head.
  set (f1 := drop gs _).
  rewrite (filter_ext (has_column (head 1 f1)) (has_column f1))
    by apply has_column_head.
  rewrite drop_head. set (f2 := drop f1 _).
  intros Hb. apply bind_inr in Hb as (f3 & Hrun & [= <-]).
  rewrite (process_runners_column_head f2 f3 Hrun). cbn [Py.bind].
  rewrite !get_dummies_if.
  assert (Hlab3 : forall c, In c (labels (cast_bool_columns f3)) ->
                    not_encoded c = true).
  { intros c. rewrite labels_cast. intros Hc.
    rewrite forallb_forall in Hlab.
    destruct (process_runners_column_labels f2 f3 c Hrun Hc)
      as [Hc2 | [-> | ->]]; [| reflexivity | reflexivity].
    apply labels_drop in Hc2 as [Hc1 _].
    apply labels_drop in Hc1 as [Hc0 _]. now apply Hlab. }
  eexists. split; [reflexivity |]. split; [| split].
  - apply first_row_of_all_numeric.
    apply first_row_of_get_dummies;
      [reflexivity | intros v; now destruct v | |].
    + intros v Hin. apply labels_get_dummies in Hin as [[Hin _] | [w E]].
      * apply Hlab3 in Hin. now destruct v.
      * discriminate E.
    + apply first_row_of_get_dummies;
        [reflexivity | intros v; now destruct v | |].
      * intros v Hin. apply Hlab3 in Hin. now destruct v.
      * apply first_row_of_cast.
  - cbn [all_numeric nrows]. rewrite !get_dummies_nrows.
    cbn [cast_bool_columns head nrows].
    rewrite (process_runners_column_nrows f2 f3 Hrun). reflexivity.
  - cbn [all_numeric nrows]. rewrite !get_dummies_nrows.
    cbn [cast_bool_columns nrows].
    rewrite (process_runners_column_nrows f2 f3 Hrun). reflexivity.
Qed.

Lemma predict_proba_first_row self (game_state : DataFrame)
    (names : list string) (out : dict (dict Q)) :
  forallb not_encoded (labels game_state) = true ->
  feature_names self = Some names ->
  predict_proba self game_state = inr out ->
  predict_proba self (head 1 game_state) = inr out.
Proof.
  intros Hlab Hnames. unfold predict_proba, prepare_features.
  rewrite Hnames. intros Hb. apply bind_inr in Hb as (X & HX & Hb).
  apply bind_inr in HX as (Fn & HFn & Hrec).
  destruct (model self) as [m |]; [| discriminate].
  apply bind_inr in Hb as (all & Hall & Hb).
  apply bind_inr in Hb as (probs & Hprobs & Hout).
  destruct (numeric_features_first_row game_state Fn Hlab HFn)
    as (Gn & HGn & Hrel & HnG & HnF).
  assert (Hpos : (1 <= nrows game_state)%nat).
  { pose proof (reconcile_nrows names Fn X Hrec) as HnX.
    unfold sk_predict_proba, empty in Hall.
    destruct (Nat.eqb (nrows X) 0) eqn:E; [discriminate |].
    apply Nat.eqb_neq in E. lia. }
  destruct (reconcile_first_row names Gn Fn X) as (X' & HX' & Hcols & HnX');
    [lia | lia | assumption | assumption |].
  destruct (sk_predict_proba_first_row m X X' all probs Hcols HnX' Hall
              Hprobs) as (all' & Hall' & Hprobs').
  rewrite HGn. cbn [Py.bind]. rewrite HX'. cbn [Py.bind].
  rewrite Hall'. cbn [Py.bind]. rewrite Hprobs'. cbn [Py.bind]. exact Hout.
Qed.

Lemma column0_head (game_state : DataFrame) (col : string) :
  column0 (head 1 game_state) col = column0 game_state col.
Proof.
  unfold column0, column. rewrite get_head.
  destruct (Dict.get (columns game_state) col); simpl;
    [apply iloc0_firstn | reflexivity].
Qed.

Lemma analyze_context_head (game_state : DataFrame) :
  _analyze_context (head 1 game_state) = _analyze_context game_state.
Proof.
  unfold _analyze_context. now rewrite !column0_head, !has_column_head.
Qed.

(** X26. The analysis describes the first row.  For a predictor with
    stored feature names and a frame none of whose labels is already
    an indicator label ([half_inning_...], [result_...]), whatever
    [predict_proba] and [analyze_situation] return for the frame they
    also return for its first row alone ([head(1)]): the later rows,
    among them the latest play of a game, have no influence on the
    result. *)
Theorem X26_analysis_reads_first_row self (game_state : DataFrame)
    (names : list string) :
  forallb not_encoded (labels game_state) = true ->
  feature_names self = Some names ->
  (forall out, predict_proba self game_state = inr out ->
               predict_proba self (head 1 game_state) = inr out)
  /\ (forall a, analyze_situation self game_state = inr a ->
                analyze_situation self (head 1 game_state) = inr a).
Proof.
  intros Hlab Hnames. split.
  - intros out. now apply (predict_proba_first_row self game_state names).
  - intros a. unfold analyze_situation. intros Hb.
    apply bind_inr in Hb as (tp & Htp & Hb).
    rewrite (predict_proba_first_row self game_state names tp Hlab Hnames
               Htp).
    cbn [Py.bind]. rewrite analyze_context_head. exact Hb.
Qed.

End FirstRowFacts.


(** ** predictor.py: the adjustment writes into the caller's mapping *)

Lemma nth_write_same (st : store) (l : nat) (d : dict Q) :
  (l < List.length st)%nat -> nth l (write st l d) [] = d.
Proof.
  revert l. induction st as [| d0 st IH]; intros l; simpl; [lia |].
  destruct l as [| l]; simpl; [reflexivity |]. intros Hl. apply IH. lia.
Qed.

Lemma nth_write_other (st : store) (l l' : nat) (d : dict Q) :
  l <> l' -> nth l' (write st l d) [] = nth l' st [].
Proof.
  revert l l'. induction st as [| d0 st IH]; intros l l' Hne; simpl;
    [reflexivity |].
  destruct l as [| l]; destruct l' as [| l']; simpl; try reflexivity;
    try contradiction.
  apply IH. congruence.
Qed.

Lemma length_write (st : store) (l : nat) (d : dict Q) :
  List.length (write st l d) = List.length st.
Proof.
  revert l. induction st as [| d0 st IH]; intros l; simpl; [reflexivity |].
  destruct l; simpl; [reflexivity | now rewrite IH].
Qed.

Lemma dict_get_app_new {V : Type} (d1 d2 : dict V) (k : string) :
  ~ In k (Dict.keys d1) -> Dict.get (app d1 d2) k = Dict.get d2 k.
Proof.
  induction d1 as [| [k0 v0] d1 IH]; simpl; [reflexivity |].
  intros Hn. destruct (String.eqb_spec k k0) as [-> | _].
  - exfalso. apply Hn. now left.
  - apply IH. intros Hin. apply Hn. now right.
Qed.

Lemma dict_set_app_new {V : Type} (d1 d2 : dict V) (k : string) (v : V) :
  ~ In k (Dict.keys d1) ->
  Dict.set (app d1 d2) k v = app d1 (Dict.set d2 k v).
Proof.
  induction d1 as [| [k0 v0] d1 IH]; simpl; [reflexivity |].
  intros Hn. destruct (String.eqb_spec k k0) as [-> | _].
  - exfalso. apply Hn. now left.
  - f_equal. apply IH. intros Hin. apply Hn. now right.
Qed.

(** On a dictionary (unique keys) the loop that writes each value
    back under its key maps the adjustment over the entries. *)
Lemma adjust_category_map (historical : historical_patterns)
    (momentum : option momentum_analysis) (category : string)
    (tactics : dict Q) :
  NoDup (Dict.keys tactics) ->
  adjust_category historical momentum category tactics
  = map (fun tp =>
           (fst tp, adjust_one historical momentum category (fst tp) (snd tp)))
      tactics.
Proof.
  unfold adjust_category.
  set (g := fun tp : string * Q =>
              (fst tp,
               adjust_one historical momentum category (fst tp) (snd tp))).
  set (step := fun (tactics : dict Q) (tac : string) =>
                 match Dict.get tactics tac with
                 | Some prob =>
                     Dict.set tactics tac
                       (adjust_one historical momentum category tac prob)
                 | None => tactics
                 end).
  intros Hnd.
  assert (Hgen : forall todo done,
             NoDup (Dict.keys todo) ->
             (forall k, In k (Dict.keys done) -> ~ In k (Dict.keys todo)) ->
             fold_left step (Dict.keys todo) (app done todo)
             = app done (map g todo)).
  { induction todo as [| [k v] todo IH]; intros done Hn Hdis; simpl.
    - reflexivity.
    - unfold step at 2. rewrite dict_get_app_new.
      2:{ intros Hin. apply (Hdis k Hin). now left. }
      simpl. rewrite String.eqb_refl. rewrite dict_set_app_new.
      2:{ intros Hin. apply (Hdis k Hin). now left. }
      simpl. rewrite String.eqb_refl.
      change (app done ((k, adjust_one historical momentum category k v)
                          :: todo))
        with (app done (app [g (k, v)] todo)).
      rewrite app_assoc. inversion Hn as [| ? ? Hk Hn']; subst.
      rewrite (IH (app done [g (k, v)]) Hn').
      + now rewrite <- app_assoc.
      + intros k'. unfold Dict.keys. rewrite map_app, in_app_iff.
        intros [Hin | [<- | []]].
        * intros Hin'. apply (Hdis k' Hin). now right.
        * exact Hk. }
  apply (Hgen tactics [] Hnd). intros k [].
Qed.

Lemma adjust_in_place_store (historical : historical_patterns)
    (momentum : option momentum_analysis) (cs : dict nat) (st : store) :
  NoDup (map snd cs) ->
  Forall (fun c => (snd c < List.length st)%nat) cs ->
  let st' :=
    fold_left
      (fun st c =>
         write st (snd c)
           (adjust_category historical momentum (fst c) (nth (snd c) st [])))
      cs st in
  (forall c, In c cs ->
     nth (snd c) st' []
     = adjust_category historical momentum (fst c) (nth (snd c) st []))
  /\ (forall l, ~ In l (map snd cs) -> nth l st' [] = nth l st [])
  /\ List.length st' = List.length st.
Proof.
  revert st. induction cs as [| c cs IH]; intros st Hnd Hin; simpl.
  - split; [intros c [] | split; reflexivity].
  - inversion Hnd as [| ? ? Hc Hnd']; subst.
    inversion Hin as [| ? ? Hlt Hin']; subst.
    set (st1 := write st (snd c)
                  (adjust_category historical momentum (fst c)
                     (nth (snd c) st []))).
    destruct (IH st1 Hnd') as (H1 & H2 & H3).
    { unfold st1. eapply Forall_impl; [| exact Hin'].
      intros a Ha. now rewrite length_write. }
    split; [| split].
    + intros c' [<- | Hc'].
      * rewrite (H2 (snd c) Hc). unfold st1. now apply nth_write_same.
      * rewrite (H1 c' Hc'). f_equal. unfold st1. apply nth_write_other.
        intros E. apply Hc. rewrite E. now apply in_map.
    + intros l Hl. rewrite H2 by (intros Hl'; apply Hl; now right).
      unfold st1. apply nth_write_other. intros E. apply Hl. now left.
    + rewrite H3. unfold st1. apply length_write.
Qed.

(** X27. [_adjust_probabilities] changes its argument.  When the inner
    dictionaries of [base_probs] are distinct objects, the mapping
    returned refers to the very same inner dictionaries, and after the
    call [base_probs] itself holds the adjusted values (those the
    functional reading of the loop computes from the values before the
    call); no other dictionary of the store is touched. *)
Theorem X27_adjust_probabilities_writes_through (base_probs : dict nat)
    (ctx : context) (historical : historical_patterns)
    (momentum : option momentum_analysis) (st : store) :
  NoDup (map snd base_probs) ->
  Forall (fun c => (snd c < List.length st)%nat) base_probs ->
  Forall (fun d => NoDup (Dict.keys d)) st ->
  let result :=
    _adjust_probabilities_in_place base_probs ctx historical momentum st in
  fst result = base_probs
  /\ read (snd result) base_probs
     = _adjust_probabilities (read st base_probs) ctx historical momentum
  /\ (forall address, ~ In address (map snd base_probs) ->
        nth address (snd result) [] = nth address st []).
Proof.
  intros Hnd Hin Hkeys. unfold _adjust_probabilities_in_place.
  cbn [fst snd].
  destruct (adjust_in_place_store historical momentum base_probs st Hnd Hin)
    as (H1 & H2 & _).
  split; [reflexivity |]. split; [| exact H2].
  unfold read, _adjust_probabilities. rewrite map_map. cbn [fst snd].
  apply map_ext_in. intros c Hc. rewrite (H1 c Hc). f_equal.
  apply adjust_category_map.
  rewrite Forall_forall in Hin, Hkeys. apply Hkeys, nth_In, Hin, Hc.
Qed.


(** ** The further properties on the example inputs *)

Lemma X2_high_pressure_situations_witness :
  high_pressure <= pressure_index (calculate_advanced_metrics home_run_play)
  <-> (late_innings <= inning home_run_play)%Z
      \/ (scoring_position home_run_play <> 0%Z
          /\ (1 <= outs home_run_play)%Z)
      \/ outs home_run_play = 3%Z.
Proof.
  apply (X2_high_pressure_situations home_run_play). simpl. lia.
Defined.

Lemma X3_metrics_ordering_witness :
  let m := calculate_advanced_metrics home_run_play in
  0 <= run_expectancy m
  /\ run_expectancy m <= offensive_opportunity m
  /\ offensive_opportunity m <= scoring_threat m
  /\ 0 <= defensive_pressure m
  /\ 1 <= pressure_index m
  /\ pressure_index m <= leverage_index m.
Proof.
  apply (X3_metrics_ordering home_run_play); simpl; lia.
Defined.

Lemma X4_win_probability_added_witness :
  0.5 < win_probability_added (calculate_advanced_metrics home_run_play).
Proof.
  apply (proj1 (proj2 (X4_win_probability_added home_run_play))).
  simpl. lia.
Defined.

Lemma X5_count_leverage_witness :
  let c := count_leverage (calculate_advanced_metrics home_run_play) in
  0 <= c <= 1
  /\ (balls home_run_play = 0%Z \/ strikes home_run_play = 3%Z -> c == 0).
Proof.
  apply (X5_count_leverage home_run_play); simpl; lia.
Defined.

Lemma X6_labeler_keeps_candidates_and_takes_maximum_witness :
  exists infos r p,
    Dict.get ACTION_TO_TACTIC (result home_run) = Some infos
    /\ calculate_tactical_probabilities home_run = inr r
    /\ probabilities r
       = map (fun info => (tactic info, tactic_probability home_run info))
           infos
    /\ In (primary_tactic r) (map tactic infos)
    /\ Dict.get (probabilities r) (primary_tactic r) = Some p
    /\ forall tac q, In (tac, q) (probabilities r) -> q <= p.
Proof.
  apply (X6_labeler_keeps_candidates_and_takes_maximum home_run).
  apply mem_str_In. reflexivity.
Defined.

Lemma X7_labeler_score_range_witness :
  exists r,
    calculate_tactical_probabilities home_run = inr r
    /\ (forall tac p, In (tac, p) (probabilities r) -> 0.4 <= p <= 1.656)
    /\ (batter home_run = None -> pitcher home_run = None ->
        matchup home_run = None ->
        pressure_index home_run < high_pressure ->
        forall tac p, In (tac, p) (probabilities r) -> p <= 1).
Proof.
  apply (X7_labeler_score_range home_run).
  apply mem_str_In. reflexivity.
Defined.

Lemma X8_pitcher_rates_never_boost_witness :
  let p := StatsFetcher.get_pitcher_stats statsapi 7 in
  0 <= StatsFetcher.strikeout_rate p <= 1
  /\ 0 <= StatsFetcher.walk_rate p <= 1
  /\ 0 <= StatsFetcher.ground_ball_rate p <= 1
  /\ forall (s : situation) (tac : string) (prob : Q),
       pitcher s = Some (pitcher_update p) ->
       pitcher_adjusted s tac prob = prob.
Proof.
  apply (X8_pitcher_rates_never_boost statsapi 7).
  intros season group game_type sd. cbn.
  destruct (String.eqb group "pitching").
  - intros [= <-]. repeat constructor; vm_compute; discriminate.
  - destruct ((season =? 2023)%Z && String.eqb game_type "R").
    + intros [= <-]. repeat constructor; vm_compute; discriminate.
    + discriminate.
Defined.

Lemma X11_safe_convert_stat_inserts_zero_witness :
  StatsFetcher._safe_convert_stat (StatsFetcher.JStr "3.45") 0 = 30.45
  /\ StatsFetcher._safe_convert_stat (StatsFetcher.JStr "-3.45") 0 = 30.45.
Proof.
  assert (Ha : "3"%string <> EmptyString) by discriminate.
  assert (Hm : ~ In ("3" ++ "." ++ "45")%string StatsFetcher.no_stat_markers)
    by (simpl; intuition discriminate).
  assert (Hn : ~ In ("-" ++ "3" ++ "." ++ "45")%string
                 StatsFetcher.no_stat_markers)
    by (simpl; intuition discriminate).
  exact (X11_safe_convert_stat_inserts_zero "3" "45" 0 Ha eq_refl eq_refl
           eq_refl Hm Hn).
Defined.

Lemma X12_batter_stats_fallback_order_witness :
  StatsFetcher.get_batter_stats statsapi 7
  = StatsFetcher.batter_of_stats hitting_document.
Proof.
  apply (proj1 (proj2 (X12_batter_stats_fallback_order statsapi 7))).
  - reflexivity.
  - reflexivity.
  - discriminate.
Defined.

Lemma X13_predict_proba_shape_witness :
  Dict.keys eighth_inning_probabilities
  = ["OFFENSIVE"; "BASERUNNING"; "DEFENSIVE"]
  /\ exists m,
       model trained = Some m
       /\ forall category entries,
            In (category, entries) eighth_inning_probabilities ->
            Sorted desc entries
            /\ forall tac v, In (tac, v) entries ->
                 5 <= v
                 /\ In tac (classes_ m)
                 /\ Dict.get (tactics_to_category trained) tac
                    = Some category.
Proof.
  apply (X13_predict_proba_shape trained eighth_inning).
  vm_compute. reflexivity.
Defined.

Lemma X14_analyze_situation_shape_witness :
  exists a,
    analyze_situation trained eighth_inning = inr a
    /\ predict_proba trained eighth_inning = inr (tactical_probabilities a)
    /\ (List.length (top_tactics a) <= 3)%nat
    /\ Sorted desc (top_tactics a)
    /\ (forall tac v, In (tac, v) (top_tactics a) ->
          exists category entries,
            In (category, entries) (tactical_probabilities a)
            /\ In (tac, v) entries)
    /\ map (fun r => (rec_tactic r, rec_probability r)) (recommendations a)
       = top_tactics a.
Proof.
  eexists. split.
  - vm_compute. reflexivity.
  - apply (X14_analyze_situation_shape trained eighth_inning).
    vm_compute. reflexivity.
Defined.

Lemma X15_analyze_situation_needs_inning_witness :
  predict_proba trained no_inning
  = inr [ ("OFFENSIVE", [("contact_hitting", 70.00)]);
          ("BASERUNNING", []);
          ("DEFENSIVE", [("strikeout_pitching", 26.00)]) ]
  /\ analyze_situation trained no_inning = inl Py.KeyError.
Proof.
  split.
  - vm_compute. reflexivity.
  - eapply (X15_analyze_situation_needs_inning trained no_inning).
    + reflexivity.
    + vm_compute. reflexivity.
Defined.

Lemma X17_saves_do_not_interfere_witness :
  exists loaded,
    load_model (__init__ (classifier := stump)) "a.joblib"
      (save_model trained_bunt "b.joblib" (save_model trained "a.joblib" []))
    = (loaded, inr tt)
    /\ model loaded = Some late_inning_stump
    /\ feature_names loaded = feature_names trained.
Proof.
  apply (proj1 (X17_saves_do_not_interfere trained trained_bunt __init__
                  late_inning_stump bunt_stump "a.joblib" "b.joblib" []
                  eq_refl eq_refl)).
  discriminate.
Defined.

Lemma X18_failed_load_overwrites_witness :
  exists after,
    load_model trained "a.joblib"
      (save_model (__init__ (classifier := stump)) "a.joblib" [])
    = (after, inl Py.AttributeError)
    /\ model after = None
    /\ feature_names after = feature_names (__init__ (classifier := stump))
    /\ forall game_state, exists e, predict_proba after game_state = inl e.
Proof.
  apply (X18_failed_load_overwrites trained __init__ "a.joblib" []).
  reflexivity.
Defined.

Lemma X20_no_enrichment_is_identity_witness :
  exists nothing,
    _analyze_historical_patterns no_corpus eighth_inning = inr nothing
    /\ success_rates nothing = []
    /\ _adjust_probabilities eighth_inning_probabilities some_context
         nothing None
       = eighth_inning_probabilities.
Proof.
  apply (X20_no_enrichment_is_identity no_corpus eighth_inning
           eighth_inning_probabilities some_context).
  - reflexivity.
  - intros category entries tac v Hc He. simpl in Hc.
    destruct Hc as [Hc | [Hc | [Hc | []]]]; injection Hc as <- <-;
      simpl in He;
      repeat match goal with
             | H : _ \/ _ |- _ => destruct H as [H | H]
             end;
      try contradiction; injection He as <- <-;
      (split; [split; vm_compute; discriminate
              | match goal with
                | |- exists y, ?v = _ => exists v
                end; vm_compute; reflexivity]).
Defined.

Lemma X21_momentum_factor_witness :
  0 < _calculate_momentum_factor hot_batting "power_hitting".
Proof.
  apply (proj1 (proj2 (proj2
           (X21_momentum_factor hot_batting "power_hitting")))).
  - vm_compute. reflexivity.
  - discriminate.
Defined.

Lemma X22_recent_success_range_witness :
  exists ratio,
    _calculate_recent_success four_hits_one_out "batting" = inr ratio
    /\ ratio <= 1
    /\ (without_indicators four_hits_one_out = true -> ratio == 0).
Proof.
  eexists. split.
  - vm_compute. reflexivity.
  - apply (X22_recent_success_range four_hits_one_out "batting").
    vm_compute. reflexivity.
Defined.

Lemma X23_momentum_inert_without_indicators_witness :
  exists m,
    _analyze_momentum eighth_inning = inr (Some m)
    /\ (forall tac, _calculate_momentum_factor m tac == 0)
    /\ forall base_probs ctx historical,
         _adjust_probabilities base_probs ctx historical (Some m)
         = _adjust_probabilities base_probs ctx historical None.
Proof.
  eexists. split.
  - vm_compute. reflexivity.
  - apply (X23_momentum_inert_without_indicators eighth_inning).
    + reflexivity.
    + vm_compute. reflexivity.
Defined.

Lemma X24_historical_patterns_witness :
  exists h,
    _analyze_historical_patterns analyzer third_inning = inr h
    /\ (forall category rates tac r,
          In (category, rates) (success_rates h) -> In (tac, r) rates ->
          0 <= r <= 100)
    /\ (sample_size h <= 3)%nat
    /\ (success_rates h = []
        \/ map (fun c => (fst c, Dict.keys (snd c))) (success_rates h)
           = map (fun c => (fst c, Dict.keys (snd c))) TACTICAL_CATEGORIES)
    /\ (historical_data analyzer = None ->
        success_rates h = [] /\ sample_size h = 0%nat).
Proof.
  eexists. split.
  - vm_compute. reflexivity.
  - apply (X24_historical_patterns analyzer third_inning).
    vm_compute. reflexivity.
Defined.


Lemma X26_analysis_reads_first_row_witness :
  exists a,
    analyze_situation trained two_plays = inr a
    /\ analyze_situation trained (head 1 two_plays) = inr a
    /\ predict_proba trained (head 1 two_plays)
       = inr (tactical_probabilities a).
Proof.
  destruct (X26_analysis_reads_first_row trained two_plays
              (stump_features late_inning_stump) eq_refl eq_refl)
    as [Hp Ha].
  eexists. split; [vm_compute; reflexivity |]. split.
  - apply Ha. vm_compute. reflexivity.
  - apply Hp. vm_compute. reflexivity.
Defined.

Lemma X27_adjust_probabilities_writes_through_witness :
  let result :=
    _adjust_probabilities_in_place probabilities_by_address some_context
      contact_only_history (Some hot_batting) probabilities_store in
  fst result = probabilities_by_address
  /\ read (snd result) probabilities_by_address
     = _adjust_probabilities
         (read probabilities_store probabilities_by_address) some_context
         contact_only_history (Some hot_batting)
  /\ (forall address, ~ In address (map snd probabilities_by_address) ->
        nth address (snd result) [] = nth address probabilities_store []).
Proof.
  apply (X27_adjust_probabilities_writes_through probabilities_by_address
           some_context contact_only_history (Some hot_batting)
           probabilities_store).
  - repeat constructor; simpl; intuition discriminate.
  - repeat constructor.
  - repeat constructor; simpl; intuition discriminate.
Defined.
